(** * Speech translator app: a shallow embedding of [main.py]

    The program is a Kivy press-and-hold recorder.  Everything it does is
    glue over external collaborators (the GUI toolkit, the Android
    [AudioRecord] binding, [sounddevice], Python's [wave] module and the
    SarvamAI client).  The embedding keeps the control flow of the source
    and replaces every external call by an event in a trace together with
    an outcome taken from an environment record: the value the call
    returned, or the exception it raised.

    Conventions.
    - Python [str] is [string]; a character stands for a code point below
      256.
    - A byte is a [Z] in [0, 256).
    - [time.sleep] takes its argument in milliseconds.
    - Paths are POSIX paths.
    - The output box is a Kivy [TextInput] with the toolkit's defaults:
      assigning its [text] stores the text with every CR LF pair
      replaced by LF.
    - The host is little-endian (Android, and the desktops the app
      targets), so that [wave.writeframes] stores the bytes it is given
      unchanged and numpy's [tobytes] of an [int16] array is low byte
      first. *)

From Stdlib Require Import ZArith Lia String Ascii List Bool.
From stdpp Require Import base strings gmap list.
Import ListNotations.

Local Open Scope string_scope.
Local Open Scope list_scope.
Local Open Scope Z_scope.

(** ** Python strings *)

Module PyStr.

(** [str.isspace] for one code point below 256: the ASCII table of
    CPython ([\t\n\v\f\r], [\x1c]-[\x1f], space) and the two Latin-1
    whitespace characters [\x85] and [\xa0]. *)
Definition isspace (c : ascii) : bool :=
  let n := N_of_ascii c in
  ((9 <=? n) && (n <=? 13) || (28 <=? n) && (n <=? 32)
   || (n =? 133) || (n =? 160))%N.

Fixpoint lstrip (s : string) : string :=
  match s with
  | EmptyString => EmptyString
  | String c s' => if isspace c then lstrip s' else s
  end.

Definition rstrip (s : string) : string := String.rev (lstrip (String.rev s)).

(** [s.strip()] *)
Definition strip (s : string) : string := rstrip (lstrip s).

(** [c.lower()] on the code points whose lowering can matter to a
    comparison with an ASCII suffix: the ASCII capitals. *)
Definition lower_char (c : ascii) : ascii :=
  let n := N_of_ascii c in
  if ((65 <=? n) && (n <=? 90))%N then ascii_of_N (n + 32) else c.

Fixpoint lower (s : string) : string :=
  match s with
  | EmptyString => EmptyString
  | String c s' => String (lower_char c) (lower s')
  end.

(** [s.endswith(suffix)] *)
Definition endswith (s suffix : string) : bool :=
  String.prefix (String.rev suffix) (String.rev s).

(** [sub in s] for two strings *)
Definition contains (sub s : string) : bool :=
  match String.index 0 sub s with
  | Some _ => true
  | None => false
  end.

(** truthiness of a string: [if s:] *)
Definition truthy (s : string) : bool :=
  match s with
  | EmptyString => false
  | String _ _ => true
  end.

(** [sep.join(l)] *)
Fixpoint join (sep : string) (l : list string) : string :=
  match l with
  | [] => ""
  | [x] => x
  | x :: l' => x +:+ sep +:+ join sep l'
  end.

Definition nl : string := String (ascii_of_N 10) EmptyString.

Definition cr : ascii := ascii_of_N 13.
Definition lf : ascii := ascii_of_N 10.

(** The two-character string CR LF *)
Definition crlf : string := String cr nl.

(** [s.replace('\r\n', '\n')]: one pass from the left, each CR LF pair
    becomes LF; the result of a replacement is not looked at again, so
    CR CR LF becomes CR LF. *)
Fixpoint replace_crlf (s : string) : string :=
  match s with
  | EmptyString => EmptyString
  | String c s' =>
      match s' with
      | String d s'' =>
          if Ascii.eqb c cr && Ascii.eqb d lf
          then String d (replace_crlf s'')
          else String c (replace_crlf s')
      | EmptyString => s
      end
  end.

(** ['\r' in s] *)
Fixpoint has_cr (s : string) : bool :=
  match s with
  | EmptyString => false
  | String c s' => Ascii.eqb c cr || has_cr s'
  end.

(** ['\r\n' in s] *)
Fixpoint has_crlf (s : string) : bool :=
  match s with
  | EmptyString => false
  | String c s' =>
      Ascii.eqb c cr
      && match s' with
         | String d _ => Ascii.eqb d lf
         | EmptyString => false
         end
      || has_crlf s'
  end.

End PyStr.

(** [posixpath.join(a, b)] *)
Definition path_join (a b : string) : string :=
  if String.prefix "/" b then b
  else if negb (PyStr.truthy a) || PyStr.endswith a "/" then a +:+ b
  else a +:+ "/" +:+ b.

(** ** Exceptions and outcomes *)

(** A raised Python exception.  [exn_is_Exception] tells whether its
    class derives from [Exception]; [KeyboardInterrupt], [SystemExit] and
    [GeneratorExit] derive from [BaseException] only and pass through
    [except Exception]. *)
Record exn := Exn {
  exn_is_Exception : bool;
  exn_str : string;
  exn_repr : string
}.

Inductive outcome (A : Type) : Type :=
| Ok (a : A)
| Raise (e : exn).
Arguments Ok {A} a.
Arguments Raise {A} e.

Definition is_ok {A} (o : outcome A) : bool :=
  match o with Ok _ => true | Raise _ => false end.

Definition TypeError (msg : string) : exn :=
  Exn true msg ("TypeError('" +:+ msg +:+ "')").
Definition RuntimeError (msg : string) : exn :=
  Exn true msg ("RuntimeError('" +:+ msg +:+ "')").
Definition IndexError (msg : string) : exn :=
  Exn true msg ("IndexError('" +:+ msg +:+ "')").
Definition struct_error (msg : string) : exn :=
  Exn true msg ("error('" +:+ msg +:+ "')").
Definition wave_Error (msg : string) : exn :=
  Exn true msg ("Error('" +:+ msg +:+ "')").

(** ** Events: the calls the program makes to its collaborators *)

Inductive thread_target := RecordWorker | PostProcessAndTranslate.

Inductive event : Type :=
(* SarvamAI client *)
| EImportSarvam
| ENewClient (api_subscription_key : string)
| ECreateJob (model : string) (with_diarization : bool) (num_speakers : Z)
             (prompt : string)
| EUploadFiles (file_paths : list string)
| EStart
| EWaitUntilComplete
| EIsFailed
| EDownloadOutputs (output_dir : string)
(* os, files *)
| EGetcwd
| EMakedirs (dir : string) (exist_ok : bool)
| EWalk (dir : string)
| EReadText (path : string)
| ELoadJson (path : string)
| EExists (path : string)
| EMkstemp (prefix suffix : string)
| EOsClose
| ESleep (ms : Z)
(* wave module *)
| EWaveOpen (path : string)
| ESetNChannels (n : Z)
| ESetSampWidth (w : Z)
| ESetFramerate (r : Z)
| EWriteFrames (data : list Z)
| EWaveClose
(* Android AudioRecord through pyjnius *)
| EAutoclass (name : string)
| EGetMinBufferSize (sample_rate : Z)
| ENewAudioRecord (sample_rate buffer_size : Z)
| EGetState
| EJarray (size : Z)
| EStartRecording
| EArRead (size : Z)
| EArStop
| EArRelease
(* sounddevice *)
| EInputStreamOpen (samplerate channels : Z)
| EInputStreamClose
(* threading, UI *)
| EThreadStart (target : thread_target)
| EAppendOutput (txt : string).

(** ** The trace-and-exception monad *)

Definition M (A : Type) : Type := list event * outcome A.

Definition ret {A} (a : A) : M A := ([], Ok a).

Definition bind {A B} (m : M A) (f : A -> M B) : M B :=
  match m with
  | (t, Ok a) => let '(t', r) := f a in (t ++ t', r)
  | (t, Raise e) => (t, Raise e)
  end.

(** One external call: it is logged, and the environment decides how it
    ends. *)
Definition call {A} (ev : event) (o : outcome A) : M A := ([ev], o).

Definition raise {A} (e : exn) : M A := ([], Raise e).

(** [try: m except Exception as e: h e] *)
Definition try_except {A} (m : M A) (h : exn -> M A) : M A :=
  match m with
  | (t, Ok a) => (t, Ok a)
  | (t, Raise e) =>
      if exn_is_Exception e
      then let '(t', r) := h e in (t ++ t', r)
      else (t, Raise e)
  end.

Definition trace_of {A} (m : M A) : list event := fst m.
Definition result_of {A} (m : M A) : outcome A := snd m.

Declare Scope m_scope.
Delimit Scope m_scope with M.
Notation "'let*' x := m 'in' k" := (bind m (fun x => k))
  (at level 10, x pattern, m at level 100, k at level 200) : m_scope.
Notation "'run' m 'in' k" := (bind m (fun _ => k))
  (at level 10, m at level 100, k at level 200) : m_scope.
Local Open Scope m_scope.

(** ** The SarvamAI wrapper *)

(** What [json.load] can hand back, as far as the wrapper looks at it:
    the value stored under a key is a [str] or something else; the
    document is a dict, a list, a string, or a scalar ([None], a bool or
    a number). *)
Inductive jval := JVStr (s : string) | JVOther.

Inductive jdoc :=
| JDict (d : gmap string jval)
| JList (l : list jval)
| JString (s : string)
| JScalar.

Definition jval_is (k : string) (v : jval) : bool :=
  match v with
  | JVStr s => String.eqb s k
  | JVOther => false
  end.

(** The environment of one call of the wrapper: how each external call
    ends.  Every cloud operation is attempted at most once, so one outcome
    per operation is all the call can observe. *)
Record cloud_env := {
  import_sarvamai : outcome unit;
  new_client : outcome unit;
  create_job : outcome unit;
  upload_files : outcome unit;
  start : outcome unit;
  wait_until_complete : outcome unit;
  is_failed : outcome bool;
  getcwd : outcome string;
  makedirs : outcome unit;
  download_outputs : outcome unit;
  (** [os.walk(output_dir)]: the directories visited, each with its file
      names *)
  walk : list (string * list string);
  (** [open(path, 'r', encoding='utf-8').read()] *)
  read_text : string -> outcome string;
  (** [json.load(open(path, 'r', encoding='utf-8'))] *)
  load_json : string -> outcome jdoc
}.

(** [k in j and isinstance(j[k], str) and j[k].strip()]: the stripped
    text when the test passes, [None] when it fails, and the [TypeError]
    Python raises on a document that is not a dict. *)
Definition json_key_text (j : jdoc) (k : string) : outcome (option string) :=
  match j with
  | JDict d =>
      match d !! k with
      | Some (JVStr s) =>
          if PyStr.truthy (PyStr.strip s) then Ok (Some (PyStr.strip s))
          else Ok None
      | Some JVOther => Ok None
      | None => Ok None
      end
  | JList l =>
      if existsb (jval_is k) l
      then Raise (TypeError "list indices must be integers or slices, not str")
      else Ok None
  | JString s =>
      if PyStr.contains k s
      then Raise (TypeError "string indices must be integers, not 'str'")
      else Ok None
  | JScalar => Raise (TypeError "argument is not iterable")
  end.

Definition json_text_keys : list string :=
  ["text"; "transcript"; "translation"; "translated_text"].

(** The loop over the four keys.  [aggregated] is a mutable list, so what
    was appended before an exception stays appended. *)
Fixpoint json_keys (fname : string) (j : jdoc) (ks : list string)
    (aggregated : list string) : list string * outcome unit :=
  match ks with
  | [] => (aggregated, Ok tt)
  | k :: ks' =>
      match json_key_text j k with
      | Raise e => (aggregated, Raise e)
      | Ok None => json_keys fname j ks' aggregated
      | Ok (Some txt) =>
          json_keys fname j ks'
            (aggregated ++
             ["--- " +:+ fname +:+ ":" +:+ k +:+ " ---" +:+ PyStr.nl +:+ txt])
      end
  end.

(** The [elif fname.lower().endswith('.json')] branch: both the load and
    the key loop sit under [except Exception: pass]. *)
Definition scan_json (env : cloud_env) (root fname : string)
    (aggregated : list string) : M (list string) :=
  let path := path_join root fname in
  let* loaded :=
    try_except
      (let* j := call (ELoadJson path) (load_json env path) in ret (Some j))
      (fun _ => ret None) in
  match loaded with
  | None => ret aggregated
  | Some j =>
      let '(aggregated', r) := json_keys fname j json_text_keys aggregated in
      match r with
      | Ok _ => ret aggregated'
      | Raise e =>
          if exn_is_Exception e then ret aggregated' else raise e
      end
  end.

(** The body of [for fname in files] *)
Definition scan_file (env : cloud_env) (root fname : string)
    (aggregated : list string) : M (list string) :=
  if PyStr.endswith (PyStr.lower fname) ".txt" then
    let* raw := call (EReadText (path_join root fname))
                     (read_text env (path_join root fname)) in
    let txt := PyStr.strip raw in
    if PyStr.truthy txt
    then ret (aggregated ++ ["--- " +:+ fname +:+ " ---" +:+ PyStr.nl +:+ txt])
    else ret aggregated
  else if PyStr.endswith (PyStr.lower fname) ".json" then
    scan_json env root fname aggregated
  else ret aggregated.

Fixpoint scan_files (env : cloud_env) (root : string) (files : list string)
    (aggregated : list string) : M (list string) :=
  match files with
  | [] => ret aggregated
  | fname :: files' =>
      let* aggregated' := scan_file env root fname aggregated in
      scan_files env root files' aggregated'
  end.

Fixpoint scan_dirs (env : cloud_env) (dirs : list (string * list string))
    (aggregated : list string) : M (list string) :=
  match dirs with
  | [] => ret aggregated
  | (root, files) :: dirs' =>
      let* aggregated' := scan_files env root files aggregated in
      scan_dirs env dirs' aggregated'
  end.

(** The second [try] block of the wrapper *)
Definition sarvam_flow (env : cloud_env) (wav_path api_key model prompt : string)
    : M (bool * string) :=
  run call (ENewClient api_key) (new_client env) in
  run call (ECreateJob model false 1 prompt) (create_job env) in
  run call (EUploadFiles [wav_path]) (upload_files env) in
  run call EStart (start env) in
  run call EWaitUntilComplete (wait_until_complete env) in
  let* failed := call EIsFailed (is_failed env) in
  if (failed : bool) then ret (false, "STT job failed.")
  else
    let* cwd := call EGetcwd (getcwd env) in
    let output_dir := path_join cwd "sarvamai_output" in
    run call (EMakedirs output_dir true) (makedirs env) in
    run call (EDownloadOutputs output_dir) (download_outputs env) in
    let* aggregated :=
      (run call (EWalk output_dir) (Ok tt) in scan_dirs env (walk env) []) in
    match aggregated with
    | _ :: _ => ret (true, PyStr.join (PyStr.nl +:+ PyStr.nl) aggregated)
    | [] =>
        ret (true, "Output downloaded to: " +:+ output_dir
                   +:+ " (no text/json translation found).")
    end.

Definition translate_audio_with_sarvamai (env : cloud_env)
    (wav_path api_key model prompt : string) : M (bool * string) :=
  let* early :=
    try_except
      (run call EImportSarvam (import_sarvamai env) in ret None)
      (fun e =>
         ret (Some (false,
                    "sarvamai lib not available on runtime: " +:+ exn_str e))) in
  match early with
  | Some r => ret r
  | None =>
      try_except
        (sarvam_flow env wav_path api_key model prompt)
        (fun e => ret (false, "Translation error: " +:+ exn_repr e))
  end.

Definition default_model : string := "saaras:v2.5".
Definition default_prompt : string := "casual chat".

(** ** The widget *)

(** The record button, with the geometry [collide_point] looks at.
    Coordinates are in whole pixels. *)
Record Button := {
  btn_text : string;
  btn_x : Z;
  btn_y : Z;
  btn_width : Z;
  btn_height : Z
}.

Record Touch := { touch_x : Z; touch_y : Z }.

(** Kivy's [Widget.collide_point]:
    [self.x <= x <= self.right and self.y <= y <= self.top] *)
Definition collide_point (b : Button) (t : Touch) : bool :=
  (btn_x b <=? touch_x t) && (touch_x t <=? btn_x b + btn_width b)
  && (btn_y b <=? touch_y t) && (touch_y t <=? btn_y b + btn_height b).

Record RootWidget := {
  audio_thread : option thread_target;
  recording : bool;
  wav_path : option string;
  _buffer_size : Z;
  record_btn : Button;
  output_box_text : string;
  api_key_text : string
}.

Definition set_btn_text (b : Button) (s : string) : Button :=
  {| btn_text := s; btn_x := btn_x b; btn_y := btn_y b;
     btn_width := btn_width b; btn_height := btn_height b |}.

Definition idle_label : string := "⏺ Hold to Record".

(** [RootWidget.__init__], for a given layout of the button *)
Definition init_widget (b : Button) : RootWidget :=
  {| audio_thread := None; recording := false; wav_path := None;
     _buffer_size := 0; record_btn := set_btn_text b idle_label;
     output_box_text := ""; api_key_text := "" |}.

(** Assigning to the [text] property of a Kivy [TextInput] runs its
    setter, which, with [replace_crlf] at its default [True] (the layout
    does not set it), stores [text.replace('\r\n', '\n')].  Both
    [text += ...] and [text = text] go through it. *)
Definition TextInput_set_text (text : string) : string :=
  PyStr.replace_crlf text.

(** The handlers run on the UI thread: they update the widget and start
    threads. *)
Definition on_record_press (self : RootWidget) (touch : Touch)
    : RootWidget * list event :=
  if negb (collide_point (record_btn self) touch) then (self, [])
  else
    ({| audio_thread := Some RecordWorker;
        recording := true;
        wav_path := wav_path self;
        _buffer_size := _buffer_size self;
        record_btn := set_btn_text (record_btn self) "Recording...";
        output_box_text := TextInput_set_text (output_box_text self);
        api_key_text := api_key_text self |},
     [EThreadStart RecordWorker]).

Definition on_record_release (self : RootWidget) (touch : Touch)
    : RootWidget * list event :=
  if negb (collide_point (record_btn self) touch) then (self, [])
  else
    ({| audio_thread := audio_thread self;
        recording := false;
        wav_path := wav_path self;
        _buffer_size := _buffer_size self;
        record_btn := set_btn_text (record_btn self) idle_label;
        output_box_text := output_box_text self;
        api_key_text := api_key_text self |},
     [EThreadStart PostProcessAndTranslate]).

(** [append_output] hands [_do] to the UI thread ([@mainthread]); a
    worker only emits the request.  [ui_do] is what [_do] then does to
    the output box: [text += str(txt) + "\n"], an assignment to the
    [text] property of the [TextInput]. *)
Definition append_output (txt : string) : M unit :=
  call (EAppendOutput txt) (Ok tt).

Definition ui_do (txt : string) (self : RootWidget) : RootWidget :=
  {| audio_thread := audio_thread self;
     recording := recording self;
     wav_path := wav_path self;
     _buffer_size := _buffer_size self;
     record_btn := record_btn self;
     output_box_text :=
       TextInput_set_text (output_box_text self +:+ txt +:+ PyStr.nl);
     api_key_text := api_key_text self |}.

(** The UI thread serving the requests of a trace, in order *)
Fixpoint ui_apply (t : list event) (self : RootWidget) : RootWidget :=
  match t with
  | [] => self
  | EAppendOutput txt :: t' => ui_apply t' (ui_do txt self)
  | _ :: t' => ui_apply t' self
  end.

(** The text that a trace asks to be shown *)
Fixpoint shown (t : list event) : string :=
  match t with
  | [] => ""
  | EAppendOutput txt :: t' => txt +:+ PyStr.nl +:+ shown t'
  | _ :: t' => shown t'
  end.

(** ** Post-processing *)

Record post_env := {
  (** [os.path.exists] *)
  path_exists : string -> bool;
  post_cloud : cloud_env
}.

(** [not path]: [None] and the empty string are falsy *)
Definition path_falsy (p : option string) : bool :=
  match p with
  | None => true
  | Some s => negb (PyStr.truthy s)
  end.

Definition _post_process_and_translate (env : post_env) (self : RootWidget)
    : M unit :=
  run call (ESleep 200) (Ok tt) in
  match wav_path self with
  | None => append_output "No recorded file found."
  | Some path =>
      if negb (PyStr.truthy path) then append_output "No recorded file found."
      else
        let* there := call (EExists path) (Ok (path_exists env path)) in
        if negb there then append_output "No recorded file found."
        else
          run append_output "Starting translation upload..." in
          let api_key := PyStr.strip (api_key_text self) in
          let* (success, message) :=
            translate_audio_with_sarvamai (post_cloud env) path api_key
              "saaras:v2.5" default_prompt in
          if (success : bool) then
            run append_output "Translation result:" in
            append_output message
          else append_output ("Translation failed: " +:+ message)
  end.

(** ** PCM samples and the [wave] module *)

Definition int16_min : Z := -32768.
Definition int16_max : Z := 32767.

Definition is_int16 (v : Z) : bool := (int16_min <=? v) && (v <=? int16_max).

(** The two bytes of a 16-bit two's complement value, low byte first *)
Definition le16 (v : Z) : list Z :=
  let u := v mod 65536 in [u mod 256; u / 256].

(** The value of two such bytes read as a signed little-endian short *)
Definition s16_of_le (lo hi : Z) : Z :=
  let u := lo + 256 * hi in
  if u <? 32768 then u else u - 65536.

Fixpoint decode_s16le (bs : list Z) : list Z :=
  match bs with
  | lo :: hi :: bs' => s16_of_le lo hi :: decode_s16le bs'
  | _ => []
  end.

Definition encode_s16le (samples : list Z) : list Z :=
  concat (map le16 samples).

(** [struct.pack('<h', v)] *)
Definition struct_pack_h (v : Z) : outcome (list Z) :=
  if is_int16 v then Ok (le16 v)
  else Raise (struct_error "short format requires (-32768) <= number <= 32767").

(** [arr.tobytes()] for a numpy [int16] array *)
Definition tobytes_int16 (block : list Z) : list Z := encode_s16le block.

Definition le32 (u : Z) : list Z :=
  [u mod 256; (u / 256) mod 256; (u / 65536) mod 256; (u / 16777216) mod 256].

Definition bytes_of_string (s : string) : list Z :=
  map (fun c => Z.of_N (N_of_ascii c)) (list_ascii_of_string s).

(** A [wave.Wave_write] object: the parameters set so far, the frames
    handed to it, and whether it has been closed. *)
Record Wave_write := {
  wf_path : string;
  nchannels : Z;
  sampwidth : Z;
  framerate : Z;
  frames_written : list Z;
  closed : bool
}.

Definition wave_new (path : string) : Wave_write :=
  {| wf_path := path; nchannels := 0; sampwidth := 0; framerate := 0;
     frames_written := []; closed := false |}.

Definition datawritten (w : Wave_write) : bool :=
  match frames_written w with [] => false | _ :: _ => true end.

Definition setnchannels (n : Z) (w : Wave_write) : outcome Wave_write :=
  if datawritten w
  then Raise (wave_Error "cannot change parameters after starting to write")
  else if n <? 1 then Raise (wave_Error "bad # of channels")
  else Ok {| wf_path := wf_path w; nchannels := n; sampwidth := sampwidth w;
             framerate := framerate w; frames_written := frames_written w;
             closed := closed w |}.

Definition setsampwidth (s : Z) (w : Wave_write) : outcome Wave_write :=
  if datawritten w
  then Raise (wave_Error "cannot change parameters after starting to write")
  else if (s <? 1) || (4 <? s) then Raise (wave_Error "bad sample width")
  else Ok {| wf_path := wf_path w; nchannels := nchannels w; sampwidth := s;
             framerate := framerate w; frames_written := frames_written w;
             closed := closed w |}.

Definition setframerate (r : Z) (w : Wave_write) : outcome Wave_write :=
  if datawritten w
  then Raise (wave_Error "cannot change parameters after starting to write")
  else if r <=? 0 then Raise (wave_Error "bad frame rate")
  else Ok {| wf_path := wf_path w; nchannels := nchannels w;
             sampwidth := sampwidth w; framerate := r;
             frames_written := frames_written w; closed := closed w |}.

(** [_ensure_header_written]: the three parameters must have been set *)
Definition params_set (w : Wave_write) : outcome unit :=
  if nchannels w =? 0 then Raise (wave_Error "# channels not specified")
  else if sampwidth w =? 0 then Raise (wave_Error "sample width not specified")
  else if framerate w =? 0 then Raise (wave_Error "sampling rate not specified")
  else Ok tt.

(** [writeframes(data)]; [io] is how the write to the file ends *)
Definition writeframes (io : outcome unit) (data : list Z) (w : Wave_write)
    : outcome Wave_write :=
  match params_set w with
  | Raise e => Raise e
  | Ok _ =>
      match io with
      | Raise e => Raise e
      | Ok _ =>
          Ok {| wf_path := wf_path w; nchannels := nchannels w;
                sampwidth := sampwidth w; framerate := framerate w;
                frames_written := frames_written w ++ data;
                closed := closed w |}
      end
  end.

(** [close()].  The file object is dropped in a [finally], so the object
    counts as closed even when writing the header failed. *)
Definition wave_close (io : outcome unit) (w : Wave_write)
    : Wave_write * outcome unit :=
  let w' := {| wf_path := wf_path w; nchannels := nchannels w;
               sampwidth := sampwidth w; framerate := framerate w;
               frames_written := frames_written w; closed := true |} in
  match params_set w with
  | Raise e => (w', Raise e)
  | Ok _ => (w', io)
  end.

(** The 44-byte header the [wave] module writes ([_write_header]):
    [RIFF], the length, [WAVE], [fmt ], 16, the PCM tag 1, the channels,
    the frame rate, the byte rate, the block align, the bits per sample,
    [data] and the data length. *)
Definition wave_header (w : Wave_write) : list Z :=
  let datalength := Z.of_nat (length (frames_written w)) in
  bytes_of_string "RIFF" ++ le32 (36 + datalength)
  ++ bytes_of_string "WAVE" ++ bytes_of_string "fmt " ++ le32 16
  ++ le16 1 ++ le16 (nchannels w) ++ le32 (framerate w)
  ++ le32 (nchannels w * framerate w * sampwidth w)
  ++ le16 (nchannels w * sampwidth w) ++ le16 (sampwidth w * 8)
  ++ bytes_of_string "data" ++ le32 datalength.

(** The file a closed [Wave_write] leaves on disk *)
Definition wave_file_bytes (w : Wave_write) : list Z :=
  wave_header w ++ frames_written w.

(** ** The recording thread *)

(** What the recording thread changes: fields of the widget, and the
    [Wave_write] object once it is open. *)
Record rec_state := {
  rs_self : RootWidget;
  rs_wf : option Wave_write
}.

(** State, trace and exception; [None] when the loop budget ran out
    before the code returned. *)
Definition R (A : Type) : Type :=
  rec_state -> option (list event * rec_state * outcome A).

Definition rret {A} (a : A) : R A := fun s => Some ([], s, Ok a).

Definition rbind {A B} (m : R A) (f : A -> R B) : R B := fun s =>
  match m s with
  | None => None
  | Some (t, s', Raise e) => Some (t, s', Raise e)
  | Some (t, s', Ok a) =>
      match f a s' with
      | None => None
      | Some (t', s'', r) => Some (t ++ t', s'', r)
      end
  end.

Definition rlift {A} (m : M A) : R A := fun s => Some (fst m, s, snd m).

Definition rraise {A} (e : exn) : R A := fun s => Some ([], s, Raise e).

Definition out_of_fuel {A} : R A := fun _ => None.

(** [try: m except Exception as e: h e] *)
Definition rtry_except {A} (m : R A) (h : exn -> R A) : R A := fun s =>
  match m s with
  | None => None
  | Some (t, s', Ok a) => Some (t, s', Ok a)
  | Some (t, s', Raise e) =>
      if exn_is_Exception e then
        match h e s' with
        | None => None
        | Some (t', s'', r) => Some (t ++ t', s'', r)
        end
      else Some (t, s', Raise e)
  end.

(** [try: m finally: fin].  The [finally] block always runs; when it
    raises, its exception replaces the pending one. *)
Definition rtry_finally {A} (m : R A) (fin : R unit) : R A := fun s =>
  match m s with
  | None => None
  | Some (t, s', r) =>
      match fin s' with
      | None => None
      | Some (t', s'', Ok _) => Some (t ++ t', s'', r)
      | Some (t', s'', Raise e') => Some (t ++ t', s'', Raise e')
      end
  end.

Notation "'letR' x := m 'in' k" := (rbind m (fun x => k))
  (at level 10, x pattern, m at level 100, k at level 200) : m_scope.
Notation "'runR' m 'in' k" := (rbind m (fun _ => k))
  (at level 10, m at level 100, k at level 200) : m_scope.

Definition set_wav_path (p : string) : R unit := fun s =>
  let self := rs_self s in
  Some ([],
        {| rs_self := {| audio_thread := audio_thread self;
                         recording := recording self;
                         wav_path := Some p;
                         _buffer_size := _buffer_size self;
                         record_btn := record_btn self;
                         output_box_text := output_box_text self;
                         api_key_text := api_key_text self |};
           rs_wf := rs_wf s |},
        Ok tt).

Definition set_buffer_size (n : Z) : R unit := fun s =>
  let self := rs_self s in
  Some ([],
        {| rs_self := {| audio_thread := audio_thread self;
                         recording := recording self;
                         wav_path := wav_path self;
                         _buffer_size := n;
                         record_btn := record_btn self;
                         output_box_text := output_box_text self;
                         api_key_text := api_key_text self |};
           rs_wf := rs_wf s |},
        Ok tt).

(** [wf = wave.open(path, 'wb')] *)
Definition wf_open (io : outcome unit) (path : string) : R unit := fun s =>
  match io with
  | Raise e => Some ([EWaveOpen path], s, Raise e)
  | Ok _ =>
      Some ([EWaveOpen path],
            {| rs_self := rs_self s; rs_wf := Some (wave_new path) |}, Ok tt)
  end.

(** A method call on [wf] that returns nothing *)
Definition wf_call (ev : event) (f : Wave_write -> outcome Wave_write)
    : R unit := fun s =>
  match rs_wf s with
  | None => Some ([ev], s, Raise (TypeError "wf is not bound"))
  | Some w =>
      match f w with
      | Raise e => Some ([ev], s, Raise e)
      | Ok w' => Some ([ev], {| rs_self := rs_self s; rs_wf := Some w' |}, Ok tt)
      end
  end.

(** [wf.close()] *)
Definition wf_close (io : outcome unit) : R unit := fun s =>
  match rs_wf s with
  | None => Some ([EWaveClose], s, Raise (TypeError "wf is not bound"))
  | Some w =>
      let '(w', r) := wave_close io w in
      Some ([EWaveClose], {| rs_self := rs_self s; rs_wf := Some w' |}, r)
  end.

(** *** Android *)

Definition STATE_INITIALIZED : Z := 1.

Record android_env := {
  autoclass : string -> outcome unit;
  getMinBufferSize : outcome Z;
  new_AudioRecord : outcome unit;
  getState : outcome Z;
  a_wave_open : outcome unit;
  jarray : outcome unit;
  startRecording : outcome unit;
  (** [self.recording] as the [k]-th test of the loop reads it; the UI
      thread writes the field while the loop runs *)
  a_flag_at : nat -> bool;
  (** the [k]-th [ar.read]: the count returned and the buffer after it *)
  read_at : nat -> outcome (Z * list Z);
  (** how the file write of the [k]-th iteration ends *)
  a_write_at : nat -> outcome unit;
  ar_stop : outcome unit;
  ar_release : outcome unit;
  a_wave_close : outcome unit
}.

(** [for i in range(read): b.extend(struct.pack('<h', int(java_buffer[i])))] *)
Fixpoint pack_samples (n : nat) (java_buffer : list Z) : outcome (list Z) :=
  match n with
  | O => Ok []
  | S n' =>
      match java_buffer with
      | [] => Raise (IndexError "array index out of range")
      | sval :: rest =>
          match struct_pack_h sval with
          | Raise e => Raise e
          | Ok b =>
              match pack_samples n' rest with
              | Raise e => Raise e
              | Ok bs => Ok (b ++ bs)
              end
          end
      end
  end.

(** [while self.recording: ...], from its [k]-th test on *)
Fixpoint android_loop (env : android_env) (fuel : nat) (k : nat)
    (chunk_size : Z) : R unit :=
  match fuel with
  | O => out_of_fuel
  | S fuel' =>
      if a_flag_at env k then
        letR (read, java_buffer) :=
          rlift (call (EArRead chunk_size) (read_at env k)) in
        if read >? 0 then
          letR b := rlift ([], pack_samples (Z.to_nat read) java_buffer) in
          runR wf_call (EWriteFrames b) (writeframes (a_write_at env k) b) in
          android_loop env fuel' (S k) chunk_size
        else
          runR rlift (call (ESleep 10) (Ok tt)) in
          android_loop env fuel' (S k) chunk_size
      else rret tt
  end.

(** The [finally] block *)
Definition android_cleanup (env : android_env) (out_wav_path : string)
    : R unit :=
  runR rtry_except
         (runR rlift (call EArStop (ar_stop env)) in
          rlift (call EArRelease (ar_release env)))
         (fun _ => rret tt) in
  runR wf_close (a_wave_close env) in
  rlift (append_output ("Saved WAV to: " +:+ out_wav_path)).

(** The [try: while ... finally: ...] statement *)
Definition android_capture (env : android_env) (fuel : nat) (chunk_size : Z)
    (out_wav_path : string) : R unit :=
  rtry_finally (android_loop env fuel 0 chunk_size)
               (android_cleanup env out_wav_path).

Definition _record_android_pcm (env : android_env) (fuel : nat)
    (out_wav_path : string) (sample_rate channels : Z) : R unit :=
  runR rlift (call (EAutoclass "android.media.AudioRecord")
                (autoclass env "android.media.AudioRecord")) in
  runR rlift (call (EAutoclass "android.media.AudioFormat")
                (autoclass env "android.media.AudioFormat")) in
  runR rlift (call (EAutoclass "android.media.AudioManager")
                (autoclass env "android.media.AudioManager")) in
  runR rlift (call (EAutoclass "android.media.AudioTrack")
                (autoclass env "android.media.AudioTrack")) in
  runR rlift (call (EAutoclass "android.media.MediaRecorder")
                (autoclass env "android.media.MediaRecorder")) in
  runR rlift (call (EAutoclass "org.kivy.android.PythonActivity")
                (autoclass env "org.kivy.android.PythonActivity")) in
  letR min_buf :=
    rlift (call (EGetMinBufferSize sample_rate) (getMinBufferSize env)) in
  let min_buf := if min_buf <=? 0 then sample_rate * 2 else min_buf in
  runR set_buffer_size min_buf in
  runR rlift (call (ENewAudioRecord sample_rate min_buf)
                (new_AudioRecord env)) in
  letR state := rlift (call EGetState (getState env)) in
  if negb (state =? STATE_INITIALIZED) then
    rraise (RuntimeError
              "AudioRecord initialization failed (state != INITIALIZED)")
  else
    runR wf_open (a_wave_open env) out_wav_path in
    runR wf_call (ESetNChannels channels) (setnchannels channels) in
    runR wf_call (ESetSampWidth 2) (setsampwidth 2) in
    runR wf_call (ESetFramerate sample_rate) (setframerate sample_rate) in
    let chunk_size := min_buf / 2 in
    runR rlift (call (EJarray chunk_size) (jarray env)) in
    runR rlift (call EStartRecording (startRecording env)) in
    runR rlift (append_output "Recording (Android) ... speak now") in
    android_capture env fuel chunk_size out_wav_path.

(** *** Desktop *)

Record desktop_env := {
  input_stream_open : outcome unit;
  input_stream_close : outcome unit;
  (** [self.recording] as the [k]-th test of the wait loop reads it *)
  d_flag_at : nat -> bool;
  (** the calls of [callback] made by the audio thread while the stream
      was open: the value of [self.recording] each one read, and the
      [int16] block it was given *)
  callbacks : list (bool * list Z);
  d_wave_open : outcome unit;
  d_write : outcome unit;
  d_wave_close : outcome unit
}.

(** The blocks [callback] appended to [frames]; the first call that reads
    a false flag raises [CallbackStop], which ends the stream. *)
Fixpoint collected_frames (cbs : list (bool * list Z)) : list (list Z) :=
  match cbs with
  | (true, indata) :: cbs' => indata :: collected_frames cbs'
  | _ => []
  end.

(** [while self.recording: time.sleep(0.05)], from its [k]-th test on *)
Fixpoint desktop_loop (env : desktop_env) (fuel : nat) (k : nat) : R unit :=
  match fuel with
  | O => out_of_fuel
  | S fuel' =>
      if d_flag_at env k then
        runR rlift (call (ESleep 50) (Ok tt)) in
        desktop_loop env fuel' (S k)
      else rret tt
  end.

(** The [try] body of the desktop branch of [_record_worker] *)
Definition record_desktop (env : desktop_env) (fuel : nat) (path : string)
    (sample_rate channels sampwidth : Z) : R unit :=
  runR rlift (append_output
                "Starting desktop capture (sounddevice). Speak now...") in
  runR rlift (call (EInputStreamOpen sample_rate channels)
                (input_stream_open env)) in
  runR rtry_finally (desktop_loop env fuel 0)
         (rlift (call EInputStreamClose (input_stream_close env))) in
  let data := concat (map tobytes_int16 (collected_frames (callbacks env))) in
  runR wf_open (d_wave_open env) path in
  runR rtry_finally
         (runR wf_call (ESetNChannels channels) (setnchannels channels) in
          runR wf_call (ESetSampWidth sampwidth) (setsampwidth sampwidth) in
          runR wf_call (ESetFramerate sample_rate) (setframerate sample_rate) in
          wf_call (EWriteFrames data) (writeframes (d_write env) data))
         (wf_close (d_wave_close env)) in
  rlift (append_output ("Saved WAV to: " +:+ path)).

(** *** The worker *)

Record worker_env := {
  ANDROID : bool;
  HAVE_DESKTOP_AUDIO : bool;
  mkstemp : outcome string;
  os_close : outcome unit;
  w_android : android_env;
  w_desktop : desktop_env
}.

Definition _record_worker (env : worker_env) (fuel : nat) : R unit :=
  letR path := rlift (call (EMkstemp "rec_" ".wav") (mkstemp env)) in
  runR rlift (call EOsClose (os_close env)) in
  runR set_wav_path path in
  let sample_rate := 16000 in
  let channels := 1 in
  let sampwidth := 2 in
  if ANDROID env then
    rtry_except
      (runR rlift (append_output
           "Starting Android AudioRecord capture (16kHz, mono, 16-bit).") in
       _record_android_pcm (w_android env) fuel path sample_rate channels)
      (fun e => rlift (append_output ("Android record error: " +:+ exn_str e)))
  else if negb (HAVE_DESKTOP_AUDIO env) then
    rlift (append_output
      "Desktop audio libs not available (sounddevice/soundfile). Cannot record.")
  else
    rtry_except
      (record_desktop (w_desktop env) fuel path sample_rate channels sampwidth)
      (fun e => rlift (append_output ("Desktop record error: " +:+ exn_str e))).

(** The state in which a worker starts: the widget as the UI thread left
    it, and no [Wave_write] object yet. *)
Definition rec_init (self : RootWidget) : rec_state :=
  {| rs_self := self; rs_wf := None |}.

(** ** Sample environments *)

Definition all_ok : cloud_env :=
  {| import_sarvamai := Ok tt; new_client := Ok tt; create_job := Ok tt;
     upload_files := Ok tt; start := Ok tt; wait_until_complete := Ok tt;
     is_failed := Ok false; getcwd := Ok "/app"; makedirs := Ok tt;
     download_outputs := Ok tt; walk := [];
     read_text := fun _ => Ok ""; load_json := fun _ => Ok JScalar |}.

Definition flag_until (n : nat) (k : nat) : bool := Nat.ltb k n.

Definition android_ok (n : nat) (blocks : nat -> outcome (Z * list Z))
    : android_env :=
  {| autoclass := fun _ => Ok tt; getMinBufferSize := Ok 1280;
     new_AudioRecord := Ok tt; getState := Ok 1; a_wave_open := Ok tt;
     jarray := Ok tt; startRecording := Ok tt; a_flag_at := flag_until n;
     read_at := blocks; a_write_at := fun _ => Ok tt; ar_stop := Ok tt;
     ar_release := Ok tt; a_wave_close := Ok tt |}.

Definition desktop_ok (n : nat) (cbs : list (bool * list Z)) : desktop_env :=
  {| input_stream_open := Ok tt; input_stream_close := Ok tt;
     d_flag_at := flag_until n; callbacks := cbs; d_wave_open := Ok tt;
     d_write := Ok tt; d_wave_close := Ok tt |}.

Definition worker_on (android : bool) (n : nat)
    (blocks : nat -> outcome (Z * list Z)) (cbs : list (bool * list Z))
    : worker_env :=
  {| ANDROID := android; HAVE_DESKTOP_AUDIO := true;
     mkstemp := Ok "/tmp/rec_1.wav"; os_close := Ok tt;
     w_android := android_ok n blocks; w_desktop := desktop_ok n cbs |}.

Definition btn0 : Button :=
  {| btn_text := idle_label; btn_x := 0; btn_y := 0;
     btn_width := 100; btn_height := 64 |}.

Definition two_blocks (k : nat) : outcome (Z * list Z) :=
  match k with
  | O => Ok (2, [1; -2; 0])
  | _ => Ok (1, [-32768; 7; 7])
  end.

Definition no_such_file : post_env :=
  {| path_exists := fun _ => false; post_cloud := all_ok |}.

Definition widget_with_path (p : option string) : RootWidget :=
  {| audio_thread := None; recording := false; wav_path := p;
     _buffer_size := 0; record_btn := btn0; output_box_text := "";
     api_key_text := " key " |}.

(** One text file among the outputs *)
Definition with_text : cloud_env :=
  {| import_sarvamai := Ok tt; new_client := Ok tt; create_job := Ok tt;
     upload_files := Ok tt; start := Ok tt; wait_until_complete := Ok tt;
     is_failed := Ok false; getcwd := Ok "/app"; makedirs := Ok tt;
     download_outputs := Ok tt;
     walk := [("/app/sarvamai_output", ["out.txt"])];
     read_text := fun _ => Ok " hola "; load_json := fun _ => Ok JScalar |}.

(** The job reports failure *)
Definition job_fails : cloud_env :=
  {| import_sarvamai := Ok tt; new_client := Ok tt; create_job := Ok tt;
     upload_files := Ok tt; start := Ok tt; wait_until_complete := Ok tt;
     is_failed := Ok true; getcwd := Ok "/app"; makedirs := Ok tt;
     download_outputs := Ok tt; walk := [];
     read_text := fun _ => Ok ""; load_json := fun _ => Ok JScalar |}.

Definition file_there : post_env :=
  {| path_exists := fun _ => true; post_cloud := with_text |}.

Definition recorded_widget : RootWidget :=
  widget_with_path (Some "/tmp/rec_1.wav").

(** The output directory of a call: [sarvamai_output] under the working
    directory *)
Definition output_dir_of (env : cloud_env) : string :=
  match getcwd env with
  | Ok cwd => path_join cwd "sarvamai_output"
  | Raise _ => ""
  end.

(** The calls of the second [try] block up to the scan of the outputs, in
    the order of the source *)
Definition flow_calls (wav_path api_key model prompt output_dir : string)
    : list event :=
  [ENewClient api_key; ECreateJob model false 1 prompt;
   EUploadFiles [wav_path]; EStart; EWaitUntilComplete; EIsFailed;
   EGetcwd; EMakedirs output_dir true; EDownloadOutputs output_dir;
   EWalk output_dir].

(** How many of these calls one run makes: each call is made when all
    the calls before it returned and, from [getcwd] on, when the job did
    not report failure. *)
Definition flow_reach (env : cloud_env) : nat :=
  match new_client env with Raise _ => 1 | Ok _ =>
  match create_job env with Raise _ => 2 | Ok _ =>
  match upload_files env with Raise _ => 3 | Ok _ =>
  match start env with Raise _ => 4 | Ok _ =>
  match wait_until_complete env with Raise _ => 5 | Ok _ =>
  match is_failed env with Raise _ => 6 | Ok true => 6 | Ok false =>
  match getcwd env with Raise _ => 7 | Ok _ =>
  match makedirs env with Raise _ => 8 | Ok _ =>
  match download_outputs env with Raise _ => 9 | Ok _ => 10
  end end end end end end end end end%nat.

(** The five job operations that precede the download *)
Definition submit_ops (wav_path model prompt : string) : list event :=
  [ECreateJob model false 1 prompt; EUploadFiles [wav_path]; EStart;
   EWaitUntilComplete; EIsFailed].

(** ** Reading traces *)

(** The operations on the speech-to-text job *)
Inductive cloud_op :=
| OpCreateJob | OpUploadFiles | OpStart | OpWait | OpIsFailed
| OpDownloadOutputs.

Definition cloud_op_eqb (a b : cloud_op) : bool :=
  match a, b with
  | OpCreateJob, OpCreateJob | OpUploadFiles, OpUploadFiles
  | OpStart, OpStart | OpWait, OpWait | OpIsFailed, OpIsFailed
  | OpDownloadOutputs, OpDownloadOutputs => true
  | _, _ => false
  end.

Definition cloud_op_of (ev : event) : option cloud_op :=
  match ev with
  | ECreateJob _ _ _ _ => Some OpCreateJob
  | EUploadFiles _ => Some OpUploadFiles
  | EStart => Some OpStart
  | EWaitUntilComplete => Some OpWait
  | EIsFailed => Some OpIsFailed
  | EDownloadOutputs _ => Some OpDownloadOutputs
  | _ => None
  end.

Definition is_cloud_op (ev : event) : bool :=
  match cloud_op_of ev with Some _ => true | None => false end.

(** The job operations of a trace, in order *)
Definition job_ops (t : list event) : list event := List.filter is_cloud_op t.

Definition is_op (op : cloud_op) (ev : event) : bool :=
  match cloud_op_of ev with
  | Some op' => cloud_op_eqb op op'
  | None => false
  end.

(** How often a trace performs a given job operation *)
Definition count_op (op : cloud_op) (t : list event) : nat :=
  length (List.filter (is_op op) t).

(** Anything the SarvamAI client is asked to do, its construction and
    import included *)
Definition is_sarvam_event (ev : event) : bool :=
  match ev with
  | EImportSarvam | ENewClient _ => true
  | _ => is_cloud_op ev
  end.

(** A [create_job] call has diarization off and one speaker *)
Definition diarization_off (ev : event) : Prop :=
  match ev with
  | ECreateJob _ with_diarization num_speakers _ =>
      with_diarization = false /\ num_speakers = 1
  | _ => True
  end.

(** The bytes the program itself hands to [writeframes] *)
Fixpoint routine_bytes (t : list event) : list Z :=
  match t with
  | [] => []
  | EWriteFrames data :: t' => data ++ routine_bytes t'
  | _ :: t' => routine_bytes t'
  end.

Definition is_read (ev : event) : bool :=
  match ev with EArRead _ => true | _ => false end.

(** The number of [ar.read] calls, one per iteration of the loop *)
Definition iterations (t : list event) : nat := length (List.filter is_read t).

(** The samples the [k]-th [ar.read] delivered *)
Definition block_samples (r : outcome (Z * list Z)) : list Z :=
  match r with
  | Ok (read, java_buffer) =>
      if read >? 0 then firstn (Z.to_nat read) java_buffer else []
  | Raise _ => []
  end.

(** The samples of [n] reads from the [k]-th on *)
Fixpoint android_samples (env : android_env) (k n : nat) : list Z :=
  match n with
  | O => []
  | S n' => block_samples (read_at env k) ++ android_samples env (S k) n'
  end.

(** A value as an [int16] array holds it *)
Definition int16_wrap (v : Z) : Z := (v + 32768) mod 65536 - 32768.

(** The samples the desktop callback collected *)
Definition desktop_samples (env : desktop_env) : list Z :=
  map int16_wrap (concat (collected_frames (callbacks env))).

(** [n] is the first test of the loop that reads a false flag *)
Definition first_false (flag : nat -> bool) (n : nat) : Prop :=
  (forall k, (k < n)%nat -> flag k = true) /\ flag n = false.

(** Every exception the cloud environment raises derives from
    [Exception] *)
Definition raises_only_Exception (env : cloud_env) : Prop :=
  forall e,
    import_sarvamai env = Raise e \/ new_client env = Raise e \/
    create_job env = Raise e \/ upload_files env = Raise e \/
    start env = Raise e \/ wait_until_complete env = Raise e \/
    is_failed env = Raise e \/ getcwd env = Raise e \/
    makedirs env = Raise e \/ download_outputs env = Raise e \/
    (exists p, read_text env p = Raise e) \/
    (exists p, load_json env p = Raise e) ->
    exn_is_Exception e = true.

(** The files [os.walk] lists, with the directory of each *)
Definition listed (env : cloud_env) (root fname : string) : Prop :=
  exists files, In (root, files) (walk env) /\ In fname files.

Definition is_txt (fname : string) : bool :=
  PyStr.endswith (PyStr.lower fname) ".txt".
Definition is_json (fname : string) : bool :=
  negb (is_txt fname) && PyStr.endswith (PyStr.lower fname) ".json".

(** A listed file from which the scan extracts nothing: a [.txt] file
    whose content is blank, a [.json] file that fails to load or has no
    non-blank string under the four keys, or a file with another
    extension. *)
Definition file_has_no_text (env : cloud_env) (root fname : string) : Prop :=
  (is_txt fname = true ->
   exists s, read_text env (path_join root fname) = Ok s
             /\ PyStr.truthy (PyStr.strip s) = false)
  /\ (is_json fname = true ->
      (forall e, load_json env (path_join root fname) = Raise e ->
                 exn_is_Exception e = true)
      /\ (forall d key s,
            load_json env (path_join root fname) = Ok (JDict d) ->
            In key json_text_keys ->
            d !! key = Some (JVStr s) ->
            PyStr.truthy (PyStr.strip s) = false)).

(** Outputs without text: an empty text file, a JSON object whose
    [text] is empty, a JSON file that does not parse, and a log *)
Definition textless_outputs : cloud_env :=
  {| import_sarvamai := Ok tt; new_client := Ok tt; create_job := Ok tt;
     upload_files := Ok tt; start := Ok tt; wait_until_complete := Ok tt;
     is_failed := Ok false; getcwd := Ok "/app"; makedirs := Ok tt;
     download_outputs := Ok tt;
     walk := [("/app/sarvamai_output", ["a.TXT"; "b.json"; "c.json"; "d.log"])];
     read_text := fun _ => Ok "";
     load_json := fun p =>
       if String.eqb p "/app/sarvamai_output/b.json"
       then Ok (JDict {[ "text" := JVStr ""; "speaker" := JVOther ]})
       else Raise (Exn true "Expecting value: line 1 column 1 (char 0)"
                     "JSONDecodeError('Expecting value: line 1 column 1 (char 0)')")
  |}.

(** The exception an outcome carries, if any *)
Definition err {A} (o : outcome A) : option exn :=
  match o with
  | Ok _ => None
  | Raise e => Some e
  end.

(** The exception with which the call logged as [ev] ended in [env], if
    it raised *)
Definition raised_at (env : cloud_env) (ev : event) : option exn :=
  match ev with
  | EImportSarvam => err (import_sarvamai env)
  | ENewClient _ => err (new_client env)
  | ECreateJob _ _ _ _ => err (create_job env)
  | EUploadFiles _ => err (upload_files env)
  | EStart => err (start env)
  | EWaitUntilComplete => err (wait_until_complete env)
  | EIsFailed => err (is_failed env)
  | EGetcwd => err (getcwd env)
  | EMakedirs _ _ => err (makedirs env)
  | EDownloadOutputs _ => err (download_outputs env)
  | EReadText p => err (read_text env p)
  | ELoadJson p => err (load_json env p)
  | _ => None
  end.

Definition is_json_load (ev : event) : bool :=
  match ev with
  | ELoadJson _ => true
  | _ => false
  end.



Definition KeyboardInterrupt : exn := Exn false "" "KeyboardInterrupt()".



(** The upload is interrupted from the keyboard *)
Definition interrupted_upload : cloud_env :=
  {| import_sarvamai := Ok tt; new_client := Ok tt; create_job := Ok tt;
     upload_files := Raise KeyboardInterrupt; start := Ok tt;
     wait_until_complete := Ok tt; is_failed := Ok false; getcwd := Ok "/app";
     makedirs := Ok tt; download_outputs := Ok tt; walk := [];
     read_text := fun _ => Ok ""; load_json := fun _ => Ok JScalar |}.


(** What the two invariants below say of one computation in [env]: an
    exception it ends with derives from [Exception], and when a logged
    call other than a JSON load raised, it ends with that exception. *)
Definition good {A} (env : cloud_env) (m : M A) : Prop :=
  (forall e, result_of m = Raise e -> exn_is_Exception e = true)
  /\ (forall ev e, In ev (trace_of m) -> raised_at env ev = Some e ->
                   is_json_load ev = false -> result_of m = Raise e).

(** A [Wave_write] with the parameters of the app: mono, 16-bit,
    16 kHz *)
Definition configured (path : string) (w : Wave_write) : Prop :=
  wf_path w = path /\ nchannels w = 1 /\ sampwidth w = 2
  /\ framerate w = 16000.

Definition all_int16 (samples : list Z) : Prop :=
  Forall (fun v => is_int16 v = true) samples.

(** The recorder refuses to stop *)
Definition IllegalStateException : exn :=
  Exn true "stop() called on an uninitialized AudioRecord."
      "JavaException('stop() called on an uninitialized AudioRecord.')".

Definition stop_fails : android_env :=
  {| autoclass := fun _ => Ok tt; getMinBufferSize := Ok 1280;
     new_AudioRecord := Ok tt; getState := Ok 1; a_wave_open := Ok tt;
     jarray := Ok tt; startRecording := Ok tt; a_flag_at := fun _ => false;
     read_at := fun _ => Ok (0, []); a_write_at := fun _ => Ok tt;
     ar_stop := Raise IllegalStateException; ar_release := Ok tt;
     a_wave_close := Ok tt |}.

(** The first read fails while the button is still held *)
Definition read_fails : android_env :=
  {| autoclass := fun _ => Ok tt; getMinBufferSize := Ok 1280;
     new_AudioRecord := Ok tt; getState := Ok 1; a_wave_open := Ok tt;
     jarray := Ok tt; startRecording := Ok tt; a_flag_at := flag_until 3;
     read_at := fun _ => Raise IllegalStateException;
     a_write_at := fun _ => Ok tt; ar_stop := Ok tt; ar_release := Ok tt;
     a_wave_close := Ok tt |}.

(** A [Wave_write] object as the routine has it when the loop starts *)
Definition fresh_wave (path : string) : Wave_write :=
  {| wf_path := path; nchannels := 1; sampwidth := 2; framerate := 16000;
     frames_written := []; closed := false |}.

Definition capture_state (path : string) : rec_state :=
  {| rs_self := init_widget btn0; rs_wf := Some (fresh_wave path) |}.

(** The recording of [android_run], closed *)
Definition sample_wave : Wave_write :=
  {| wf_path := "/tmp/rec_1.wav"; nchannels := 1; sampwidth := 2;
     framerate := 16000; frames_written := [1; 0; 254; 255; 0; 128];
     closed := true |}.

(** The reading of "once the flag is false the loop ends, having run
    once per test that read true, and the recorder is then stopped and
    released and the WAV file closed" over all environments *)
Definition flag_false_stops_releases_closes : Prop :=
  forall env n fuel chunk_size path s w,
    first_false (a_flag_at env) n -> (n < fuel)%nat -> rs_wf s = Some w ->
    exists t s' r,
      android_capture env fuel chunk_size path s = Some (t, s', r)
      /\ iterations t = n
      /\ In EArStop t /\ In EArRelease t /\ In EWaveClose t.

(** The reading of "the routine itself constructs the container": what
    the routine hands over for the file is the file, header included *)
Definition routine_builds_container : Prop :=
  forall env fuel path s0 t s' w,
    rs_wf s0 = None ->
    _record_android_pcm env fuel path 16000 1 s0 = Some (t, s', Ok tt) ->
    rs_wf s' = Some w ->
    routine_bytes t = wave_file_bytes w.

(** The events the wrapper can emit, with the arguments it passes *)
Inductive wrapper_event (wav_path api_key model prompt : string)
  : event -> Prop :=
| we_import : wrapper_event wav_path api_key model prompt EImportSarvam
| we_client : wrapper_event wav_path api_key model prompt (ENewClient api_key)
| we_create :
    wrapper_event wav_path api_key model prompt (ECreateJob model false 1 prompt)
| we_upload :
    wrapper_event wav_path api_key model prompt (EUploadFiles [wav_path])
| we_start : wrapper_event wav_path api_key model prompt EStart
| we_wait : wrapper_event wav_path api_key model prompt EWaitUntilComplete
| we_failed : wrapper_event wav_path api_key model prompt EIsFailed
| we_getcwd : wrapper_event wav_path api_key model prompt EGetcwd
| we_makedirs d :
    wrapper_event wav_path api_key model prompt (EMakedirs d true)
| we_download d :
    wrapper_event wav_path api_key model prompt (EDownloadOutputs d)
| we_walk d : wrapper_event wav_path api_key model prompt (EWalk d)
| we_read p : wrapper_event wav_path api_key model prompt (EReadText p)
| we_load p : wrapper_event wav_path api_key model prompt (ELoadJson p).

(** Scanning the outputs only reads files. *)
Definition scan_event (ev : event) : Prop :=
  match ev with
  | EReadText _ | ELoadJson _ => True
  | _ => False
  end.


(** [w] after [writeframes(data)] *)
Definition with_frames (w : Wave_write) (data : list Z) : Wave_write :=
  {| wf_path := wf_path w; nchannels := nchannels w;
     sampwidth := sampwidth w; framerate := framerate w;
     frames_written := frames_written w ++ data; closed := closed w |}.

(** The [k]-th iteration of the Android loop goes through: the read
    returns, and when it delivered samples there are that many in the
    buffer, each fits 16 bits, and the write to the file succeeds. *)
Definition clean_read (env : android_env) (k : nat) : Prop :=
  exists read java_buffer,
    read_at env k = Ok (read, java_buffer)
    /\ (0 < read ->
        (Z.to_nat read <= length java_buffer)%nat
        /\ all_int16 (firstn (Z.to_nat read) java_buffer)
        /\ a_write_at env k = Ok tt).

(** An Android recording that completes: the recorder is set up and
    started, the [n]-th test of the loop is the first to read a false
    flag, the [n] iterations before it go through, and the file is
    closed. *)
Definition android_completes (env : android_env) (n : nat) : Prop :=
  (forall c, autoclass env c = Ok tt)
  /\ (exists min_buf, getMinBufferSize env = Ok min_buf)
  /\ new_AudioRecord env = Ok tt
  /\ getState env = Ok STATE_INITIALIZED
  /\ a_wave_open env = Ok tt /\ jarray env = Ok tt
  /\ startRecording env = Ok tt
  /\ first_false (a_flag_at env) n
  /\ (forall k, (k < n)%nat -> clean_read env k)
  /\ (forall e, ar_stop env = Raise e \/ ar_release env = Raise e ->
                exn_is_Exception e = true)
  /\ a_wave_close env = Ok tt.

(** A desktop recording that completes: the stream opens and closes,
    the [n]-th test of the wait loop is the first to read a false flag,
    and the file is opened, written and closed. *)
Definition desktop_completes (env : desktop_env) (n : nat) : Prop :=
  input_stream_open env = Ok tt /\ input_stream_close env = Ok tt
  /\ first_false (d_flag_at env) n
  /\ d_wave_open env = Ok tt /\ d_write env = Ok tt
  /\ d_wave_close env = Ok tt.

Definition recording_completes (env : worker_env) (n : nat) : Prop :=
  if ANDROID env then android_completes (w_android env) n
  else HAVE_DESKTOP_AUDIO env = true /\ desktop_completes (w_desktop env) n.

(** The samples a completed recording captured: on Android the first
    [read] entries of the buffer of each of the [n] reads, on the
    desktop the blocks the callback collected *)
Definition captured_samples (env : worker_env) (n : nat) : list Z :=
  if ANDROID env then android_samples (w_android env) 0 n
  else desktop_samples (w_desktop env).

(** The reading of "the message is appended to the output box" over
    all replies: after the run the box holds the returned message as it
    was returned, behind its heading *)
Definition message_reaches_box_verbatim : Prop :=
  forall env self path success message,
    wav_path self = Some path ->
    PyStr.truthy path = true ->
    path_exists env path = true ->
    result_of (translate_audio_with_sarvamai (post_cloud env) path
                 (PyStr.strip (api_key_text self)) "saaras:v2.5"
                 default_prompt)
      = Ok (success, message) ->
    PyStr.contains
      (if success then "Translation result:" +:+ PyStr.nl +:+ message
       else "Translation failed: " +:+ message)
      (output_box_text
         (ui_apply (trace_of (_post_process_and_translate env self)) self))
    = true.

(** A JSON output whose text has a CR LF line break *)
Definition crlf_json : cloud_env :=
  {| import_sarvamai := Ok tt; new_client := Ok tt; create_job := Ok tt;
     upload_files := Ok tt; start := Ok tt; wait_until_complete := Ok tt;
     is_failed := Ok false; getcwd := Ok "/app"; makedirs := Ok tt;
     download_outputs := Ok tt;
     walk := [("/app/sarvamai_output", ["out.json"])];
     read_text := fun _ => Ok "";
     load_json := fun _ =>
       Ok (JDict {[ "text" := JVStr ("a" +:+ PyStr.crlf +:+ "b") ]}) |}.

Definition crlf_reply : post_env :=
  {| path_exists := fun _ => true; post_cloud := crlf_json |}.

(** Every text a trace asks to be shown is free of CR *)
Definition cr_free_requests (t : list event) : Prop :=
  Forall (fun ev => match ev with
                    | EAppendOutput txt => PyStr.has_cr txt = false
                    | _ => True
                    end) t.

(** ** Further definitions *)

(** The [Reset] button of the layout:
    [on_release: root.ids.output_box.text = ''] *)
Definition on_reset (self : RootWidget) : RootWidget :=
  {| audio_thread := audio_thread self;
     recording := recording self;
     wav_path := wav_path self;
     _buffer_size := _buffer_size self;
     record_btn := record_btn self;
     output_box_text := TextInput_set_text "";
     api_key_text := api_key_text self |}.

(** What the post-processing thread may pass to its collaborators, given
    the widget it reads: the stored path, the stripped key, the fixed
    model and the default prompt. *)
Definition post_event_ok (self : RootWidget) (ev : event) : Prop :=
  match ev with
  | EExists p => wav_path self = Some p
  | ENewClient k => k = PyStr.strip (api_key_text self)
  | ECreateJob m d n p =>
      m = "saaras:v2.5" /\ d = false /\ n = 1 /\ p = "casual chat"
  | EUploadFiles l => exists p, wav_path self = Some p /\ l = [p]
  | ESleep ms => ms = 200
  | _ => True
  end.

(** The entry the scan appends for a text *)
Definition txt_entry (fname txt : string) : string :=
  "--- " +:+ fname +:+ " ---" +:+ PyStr.nl +:+ txt.

Definition json_entry (fname k txt : string) : string :=
  "--- " +:+ fname +:+ ":" +:+ k +:+ " ---" +:+ PyStr.nl +:+ txt.

(** The entries of a JSON object: one per key, in the order of [ks],
    whose value is a string that is not blank *)
Fixpoint json_entries (fname : string) (d : gmap string jval)
    (ks : list string) : list string :=
  match ks with
  | [] => []
  | k :: ks' =>
      match d !! k with
      | Some (JVStr s) =>
          if PyStr.truthy (PyStr.strip s)
          then json_entry fname k (PyStr.strip s) :: json_entries fname d ks'
          else json_entries fname d ks'
      | _ => json_entries fname d ks'
      end
  end.

(** The entries one listed file contributes *)
Definition file_entries (env : cloud_env) (root fname : string)
    : list string :=
  if is_txt fname then
    match read_text env (path_join root fname) with
    | Ok s =>
        if PyStr.truthy (PyStr.strip s)
        then [txt_entry fname (PyStr.strip s)] else []
    | Raise _ => []
    end
  else if is_json fname then
    match load_json env (path_join root fname) with
    | Ok (JDict d) => json_entries fname d json_text_keys
    | _ => []
    end
  else [].

Definition dir_entries (env : cloud_env) (dir : string * list string)
    : list string :=
  flat_map (file_entries env (fst dir)) (snd dir).

(** The message of a successful call, from the entries found *)
Definition success_message (output_dir : string) (entries : list string)
    : string :=
  match entries with
  | [] => "Output downloaded to: " +:+ output_dir
          +:+ " (no text/json translation found)."
  | _ :: _ => PyStr.join (PyStr.nl +:+ PyStr.nl) entries
  end.

(** An event of the scan is the read of a listed text file or the load
    of a listed JSON file. *)
Definition scan_opens_listed (dirs : list (string * list string))
    (ev : event) : Prop :=
  match ev with
  | EReadText p =>
      exists root files fname,
        In (root, files) dirs /\ In fname files /\ is_txt fname = true
        /\ p = path_join root fname
  | ELoadJson p =>
      exists root files fname,
        In (root, files) dirs /\ In fname files /\ is_json fname = true
        /\ p = path_join root fname
  | _ => False
  end.

Definition is_byte (b : Z) : Prop := 0 <= b < 256.

(** The fields of the widget that belong to the UI thread *)
Definition same_ui (a b : RootWidget) : Prop :=
  audio_thread b = audio_thread a /\ recording b = recording a
  /\ record_btn b = record_btn a /\ output_box_text b = output_box_text a
  /\ api_key_text b = api_key_text a.

(** What the recording thread leaves alone once the path is stored: the
    fields of the UI thread and [wav_path] *)
Definition kept (a b : RootWidget) : Prop :=
  same_ui a b /\ wav_path b = wav_path a.

(** A computation of the recording thread leaves these fields alone,
    emits only events in [P] and ends only with exceptions in [E]. *)
Definition rinv {A} (P : event -> Prop) (E : exn -> Prop) (m : R A) : Prop :=
  forall s t s' r,
    m s = Some (t, s', r) ->
    kept (rs_self s) (rs_self s') /\ Forall P t
    /\ (forall e, r = Raise e -> E e).

(** The last event of a trace *)
Definition last_event (t : list event) : option event := last t.

(** The sizes a run of the Android routine asks for: the buffer of the
    recorder, the Java array, and every read *)
Definition sized_by (buffer_size : Z) (ev : event) : Prop :=
  match ev with
  | ENewAudioRecord _ b => b = buffer_size
  | EJarray c => c = buffer_size / 2
  | EArRead c => c = buffer_size / 2
  | _ => True
  end.

(** The buffer size the routine settles on for a reported minimum *)
Definition chosen_buffer_size (sample_rate min_buf : Z) : Z :=
  if min_buf <=? 0 then sample_rate * 2 else min_buf.

(** A listed file the scan gets past: a text file that can be read, a
    JSON file whose load raises nothing outside [Exception], or any
    other file *)
Definition file_scannable (env : cloud_env) (root fname : string) : Prop :=
  (is_txt fname = true ->
   exists s, read_text env (path_join root fname) = Ok s)
  /\ (is_json fname = true ->
      forall e, load_json env (path_join root fname) = Raise e ->
                exn_is_Exception e = true).

(** Two text files and a JSON object among the outputs *)
Definition with_texts : cloud_env :=
  {| import_sarvamai := Ok tt; new_client := Ok tt; create_job := Ok tt;
     upload_files := Ok tt; start := Ok tt; wait_until_complete := Ok tt;
     is_failed := Ok false; getcwd := Ok "/app"; makedirs := Ok tt;
     download_outputs := Ok tt;
     walk := [("/app/sarvamai_output", ["a.txt"; "b.JSON"; "c.bin"])];
     read_text := fun _ => Ok " hola ";
     load_json := fun _ =>
       Ok (JDict {[ "translation" := JVStr "bonjour ";
                    "text" := JVStr "hello"; "transcript" := JVOther ]}) |}.

(** What the wrapper may open among the outputs *)
Definition opens_only_listed (env : cloud_env) (ev : event) : Prop :=
  match ev with
  | EReadText _ | ELoadJson _ => scan_opens_listed (walk env) ev
  | _ => True
  end.

(** The sizes of a run of the Android routine follow from the minimum
    buffer size the platform reported. *)
Definition android_sized (env : android_env) (sample_rate : Z) (ev : event)
    : Prop :=
  forall min_buf,
    getMinBufferSize env = Ok min_buf ->
    sized_by (chosen_buffer_size sample_rate min_buf) ev.

Definition android_raises_in (E : exn -> Prop) (env : android_env) : Prop :=
  forall e,
    (exists c, autoclass env c = Raise e) \/ getMinBufferSize env = Raise e \/
    new_AudioRecord env = Raise e \/ getState env = Raise e \/
    a_wave_open env = Raise e \/ jarray env = Raise e \/
    startRecording env = Raise e \/ (exists k, read_at env k = Raise e) \/
    (exists k, a_write_at env k = Raise e) \/ ar_stop env = Raise e \/
    ar_release env = Raise e \/ a_wave_close env = Raise e ->
    E e.

Definition desktop_raises_in (E : exn -> Prop) (env : desktop_env) : Prop :=
  forall e,
    input_stream_open env = Raise e \/ input_stream_close env = Raise e \/
    d_wave_open env = Raise e \/ d_write env = Raise e \/
    d_wave_close env = Raise e ->
    E e.

Definition derives_from_Exception (e : exn) : Prop := exn_is_Exception e = true.

(** The trace of a worker on Android whose recorder did not initialise *)
Definition init_failure_trace (path : string) (min_buf : Z) : list event :=
  [EMkstemp "rec_" ".wav"; EOsClose;
   EAppendOutput "Starting Android AudioRecord capture (16kHz, mono, 16-bit).";
   EAutoclass "android.media.AudioRecord";
   EAutoclass "android.media.AudioFormat";
   EAutoclass "android.media.AudioManager";
   EAutoclass "android.media.AudioTrack";
   EAutoclass "android.media.MediaRecorder";
   EAutoclass "org.kivy.android.PythonActivity";
   EGetMinBufferSize 16000;
   ENewAudioRecord 16000 (chosen_buffer_size 16000 min_buf);
   EGetState;
   EAppendOutput
     "Android record error: AudioRecord initialization failed (state != INITIALIZED)"].

(** The widget once the worker stored the path and the buffer size *)
Definition with_path_and_buffer (self : RootWidget) (path : string)
    (buffer_size : Z) : RootWidget :=
  {| audio_thread := audio_thread self;
     recording := recording self;
     wav_path := Some path;
     _buffer_size := buffer_size;
     record_btn := record_btn self;
     output_box_text := output_box_text self;
     api_key_text := api_key_text self |}.

(** What post-processing does with files, for the file [path] *)
Definition touches_only (path : string) (ev : event) : Prop :=
  match ev with
  | EExists p => p = path
  | EUploadFiles l => l = [path]
  | _ => True
  end.

(** A recorder that reports an uninitialised state *)
Definition uninitialised : android_env :=
  {| autoclass := fun _ => Ok tt; getMinBufferSize := Ok (-2);
     new_AudioRecord := Ok tt; getState := Ok 0; a_wave_open := Ok tt;
     jarray := Ok tt; startRecording := Ok tt; a_flag_at := flag_until 3;
     read_at := two_blocks; a_write_at := fun _ => Ok tt; ar_stop := Ok tt;
     ar_release := Ok tt; a_wave_close := Ok tt |}.

Definition worker_uninitialised : worker_env :=
  {| ANDROID := true; HAVE_DESKTOP_AUDIO := false;
     mkstemp := Ok "/tmp/rec_1.wav"; os_close := Ok tt;
     w_android := uninitialised; w_desktop := desktop_ok 0 [] |}.

(** The platform reports an error code for the minimum buffer size *)
Definition no_min_buffer : android_env :=
  {| autoclass := fun _ => Ok tt; getMinBufferSize := Ok (-2);
     new_AudioRecord := Ok tt; getState := Ok 1; a_wave_open := Ok tt;
     jarray := Ok tt; startRecording := Ok tt; a_flag_at := flag_until 1;
     read_at := two_blocks; a_write_at := fun _ => Ok tt; ar_stop := Ok tt;
     ar_release := Ok tt; a_wave_close := Ok tt |}.


(** The recorder cannot be started *)
Definition start_fails : android_env :=
  {| autoclass := fun _ => Ok tt; getMinBufferSize := Ok 1280;
     new_AudioRecord := Ok tt; getState := Ok 1; a_wave_open := Ok tt;
     jarray := Ok tt; startRecording := Raise IllegalStateException;
     a_flag_at := flag_until 3; read_at := two_blocks;
     a_write_at := fun _ => Ok tt; ar_stop := Ok tt; ar_release := Ok tt;
     a_wave_close := Ok tt |}.
(** ** Checks on sample runs *)

Example android_run :
  option_map (fun r => (rs_wf (snd (fst r)), snd r))
    (_record_worker (worker_on true 2 two_blocks []) 5
       (rec_init (init_widget btn0)))
  = Some (Some {| wf_path := "/tmp/rec_1.wav"; nchannels := 1; sampwidth := 2;
                  framerate := 16000;
                  frames_written := [1; 0; 254; 255; 0; 128];
                  closed := true |}, Ok tt).
Proof. vm_compute. reflexivity. Qed.

Example desktop_run :
  option_map (fun r => (rs_wf (snd (fst r)), snd r))
    (_record_worker
       (worker_on false 2 two_blocks [(true, [3; -1]); (false, [9])]) 5
       (rec_init (init_widget btn0)))
  = Some (Some {| wf_path := "/tmp/rec_1.wav"; nchannels := 1; sampwidth := 2;
                  framerate := 16000;
                  frames_written := [3; 0; 255; 255];
                  closed := true |}, Ok tt).
Proof. vm_compute. reflexivity. Qed.

(** ** Traces of the monad operations *)

Section TraceForall.
Variable P : event -> Prop.

Lemma Forall_ret {A} (a : A) : Forall P (trace_of (ret a)).
Proof. constructor. Qed.

Lemma Forall_call {A} ev (o : outcome A) :
  P ev -> Forall P (trace_of (call ev o)).
Proof. intros H. repeat constructor. exact H. Qed.

Lemma Forall_bind {A B} (m : M A) (f : A -> M B) :
  Forall P (trace_of m) ->
  (forall a, result_of m = Ok a -> Forall P (trace_of (f a))) ->
  Forall P (trace_of (bind m f)).
Proof.
  destruct m as [t [a|e]]; cbn; intros Ht Hf; [|exact Ht].
  specialize (Hf a eq_refl). destruct (f a) as [t' r]; cbn in *.
  apply Forall_app; split; assumption.
Qed.

Lemma Forall_try_except {A} (m : M A) (h : exn -> M A) :
  Forall P (trace_of m) ->
  (forall e, result_of m = Raise e -> Forall P (trace_of (h e))) ->
  Forall P (trace_of (try_except m h)).
Proof.
  destruct m as [t [a|e]]; cbn; intros Ht Hh; [exact Ht|].
  destruct (exn_is_Exception e); [|exact Ht].
  specialize (Hh e eq_refl). destruct (h e) as [t' r]; cbn in *.
  apply Forall_app; split; assumption.
Qed.
End TraceForall.

Lemma scan_json_events env root fname agg :
  Forall scan_event (trace_of (scan_json env root fname agg)).
Proof.
  unfold scan_json. apply Forall_bind.
  - apply Forall_try_except.
    + apply Forall_bind; [apply Forall_call; exact I|intros; apply Forall_ret].
    + intros; apply Forall_ret.
  - intros [j|] _; [|apply Forall_ret].
    destruct (json_keys fname j json_text_keys agg) as [agg' [u|e]].
    + apply Forall_ret.
    + destruct (exn_is_Exception e); constructor.
Qed.

Lemma scan_file_events env root fname agg :
  Forall scan_event (trace_of (scan_file env root fname agg)).
Proof.
  unfold scan_file.
  destruct (PyStr.endswith (PyStr.lower fname) ".txt").
  - apply Forall_bind; [apply Forall_call; exact I|].
    intros raw _. destruct (PyStr.truthy (PyStr.strip raw)); apply Forall_ret.
  - destruct (PyStr.endswith (PyStr.lower fname) ".json").
    + apply scan_json_events.
    + apply Forall_ret.
Qed.

Lemma scan_files_events env root files : forall agg,
  Forall scan_event (trace_of (scan_files env root files agg)).
Proof.
  induction files as [|fname files IH]; intros agg; cbn [scan_files].
  - apply Forall_ret.
  - apply Forall_bind; [apply scan_file_events|intros; apply IH].
Qed.

Lemma scan_dirs_events env dirs : forall agg,
  Forall scan_event (trace_of (scan_dirs env dirs agg)).
Proof.
  induction dirs as [|[root files] dirs IH]; intros agg; cbn [scan_dirs].
  - apply Forall_ret.
  - apply Forall_bind; [apply scan_files_events|intros; apply IH].
Qed.

Lemma scan_event_wrapper w k m p ev :
  scan_event ev -> wrapper_event w k m p ev.
Proof. destruct ev; cbn; intros H; try contradiction; constructor. Qed.

Lemma sarvam_flow_events env w k m p :
  Forall (wrapper_event w k m p) (trace_of (sarvam_flow env w k m p)).
Proof.
  unfold sarvam_flow.
  do 5 (apply Forall_bind; [apply Forall_call; constructor|intros ? _]).
  apply Forall_bind; [apply Forall_call; constructor|intros failed _].
  destruct failed; [apply Forall_ret|].
  do 3 (apply Forall_bind; [apply Forall_call; constructor|intros ? _]).
  apply Forall_bind.
  - apply Forall_bind; [apply Forall_call; constructor|intros ? _].
    eapply List.Forall_impl; [|apply scan_dirs_events].
    intros ev; apply scan_event_wrapper.
  - intros [|x l] _; apply Forall_ret.
Qed.

Lemma wrapper_events env w k m p :
  Forall (wrapper_event w k m p)
         (trace_of (translate_audio_with_sarvamai env w k m p)).
Proof.
  unfold translate_audio_with_sarvamai.
  apply Forall_bind.
  - apply Forall_try_except.
    + apply Forall_bind; [apply Forall_call; constructor|intros; apply Forall_ret].
    + intros; apply Forall_ret.
  - intros [r|] _; [apply Forall_ret|].
    apply Forall_try_except; [apply sarvam_flow_events|intros; apply Forall_ret].
Qed.

Arguments path_join : simpl never.
Arguments String.append : simpl never.
Arguments PyStr.strip : simpl never.
Arguments PyStr.join : simpl never.

Lemma count_op_app op t1 t2 :
  count_op op (t1 ++ t2) = (count_op op t1 + count_op op t2)%nat.
Proof. unfold count_op. rewrite List.filter_app, length_app. reflexivity. Qed.

Lemma job_ops_app t1 t2 : job_ops (t1 ++ t2) = job_ops t1 ++ job_ops t2.
Proof. apply List.filter_app. Qed.

Lemma scan_no_job_ops t : Forall scan_event t -> job_ops t = [].
Proof.
  induction 1 as [|ev t Hev _ IH]; [reflexivity|].
  destruct ev; cbn in Hev; try contradiction; exact IH.
Qed.

Lemma scan_count_op op t : Forall scan_event t -> count_op op t = O.
Proof.
  induction 1 as [|ev t Hev _ IH]; [reflexivity|].
  destruct ev; cbn in Hev; try contradiction; exact IH.
Qed.

(** ** The UI thread *)

Lemma str_app_nil_r (s : string) : s +:+ "" = s.
Proof.
  induction s as [|c s IH]; [reflexivity|].
  change (String c s +:+ "") with (String c (s +:+ "")). rewrite IH.
  reflexivity.
Qed.

Lemma str_app_assoc (a b c : string) : (a +:+ b) +:+ c = a +:+ (b +:+ c).
Proof.
  induction a as [|x a IH]; [reflexivity|].
  change (String x a +:+ b) with (String x (a +:+ b)).
  change (String x (a +:+ b) +:+ c) with (String x ((a +:+ b) +:+ c)).
  rewrite IH. reflexivity.
Qed.

Lemma replace_crlf_id s :
  PyStr.has_crlf s = false -> PyStr.replace_crlf s = s.
Proof.
  induction s as [|c s IH]; [reflexivity|].
  destruct s as [|d s']; [reflexivity|].
  change (PyStr.has_crlf (String c (String d s')))
    with (Ascii.eqb c PyStr.cr && Ascii.eqb d PyStr.lf
          || PyStr.has_crlf (String d s')).
  change (PyStr.replace_crlf (String c (String d s')))
    with (if Ascii.eqb c PyStr.cr && Ascii.eqb d PyStr.lf
          then String d (PyStr.replace_crlf s')
          else String c (PyStr.replace_crlf (String d s'))).
  intros H. apply orb_false_iff in H as [H1 H2].
  rewrite H1, (IH H2). reflexivity.
Qed.

Lemma has_cr_crlf s : PyStr.has_cr s = false -> PyStr.has_crlf s = false.
Proof.
  induction s as [|c s IH]; [reflexivity|].
  cbn [PyStr.has_cr PyStr.has_crlf]. intros H.
  apply orb_false_iff in H as [H1 H2]. rewrite H1, (IH H2). reflexivity.
Qed.

Lemma has_cr_app a b :
  PyStr.has_cr (a +:+ b) = PyStr.has_cr a || PyStr.has_cr b.
Proof.
  induction a as [|c a IH]; [reflexivity|].
  change (String c a +:+ b) with (String c (a +:+ b)).
  cbn [PyStr.has_cr]. rewrite IH, orb_assoc. reflexivity.
Qed.

(** One pass only: of CR CR LF a CR LF stays. *)
Example replace_crlf_one_pass :
  PyStr.replace_crlf ("a" +:+ PyStr.crlf +:+ "b") = "a" +:+ PyStr.nl +:+ "b"
  /\ PyStr.replace_crlf (String PyStr.cr PyStr.crlf) = PyStr.crlf
  /\ PyStr.replace_crlf (String PyStr.cr "a") = String PyStr.cr "a".
Proof. repeat split. Qed.

(** The setter stores a text without CR as it is. *)
Lemma set_text_cr_free s :
  PyStr.has_cr s = false -> TextInput_set_text s = s.
Proof. intros H. apply replace_crlf_id, has_cr_crlf, H. Qed.

(** Appending a CR-free text to a CR-free box is plain concatenation,
    and the box stays CR-free. *)
Lemma ui_do_cr_free txt self :
  PyStr.has_cr (output_box_text self) = false ->
  PyStr.has_cr txt = false ->
  output_box_text (ui_do txt self)
  = output_box_text self +:+ txt +:+ PyStr.nl
  /\ PyStr.has_cr (output_box_text (ui_do txt self)) = false.
Proof.
  intros Hb Ht.
  assert (H : PyStr.has_cr (output_box_text self +:+ txt +:+ PyStr.nl)
              = false)
    by (rewrite !has_cr_app, Hb, Ht; reflexivity).
  cbn [ui_do output_box_text]. rewrite (set_text_cr_free _ H). auto.
Qed.

Lemma ui_apply_app t1 t2 self :
  ui_apply (t1 ++ t2) self = ui_apply t2 (ui_apply t1 self).
Proof.
  revert self; induction t1 as [|ev t1 IH]; intros self; [reflexivity|].
  destruct ev; cbn; apply IH.
Qed.

Lemma ui_apply_wrapper w k m p t self :
  Forall (wrapper_event w k m p) t -> ui_apply t self = self.
Proof.
  induction 1 as [|ev t Hev _ IH]; [reflexivity|].
  destruct Hev; cbn; exact IH.
Qed.

Lemma bind_trace {A B} (m : M A) (f : A -> M B) a :
  result_of m = Ok a ->
  bind m f = (trace_of m ++ trace_of (f a), result_of (f a)).
Proof.
  destruct m as [t r]; cbn; intros ->. destruct (f a); reflexivity.
Qed.

(** ** Touches outside the record button *)

(** C10: a touch that does not collide with the record button makes
    [on_record_press] and [on_record_release] return at once: the widget
    (recording flag, button text, output box and every other field) is
    the same afterwards, and no thread is started. *)
Theorem C10_touch_outside_is_ignored (self : RootWidget) (touch : Touch) :
  collide_point (record_btn self) touch = false ->
  on_record_press self touch = (self, [])
  /\ on_record_release self touch = (self, []).
Proof.
  intros H. unfold on_record_press, on_record_release.
  rewrite H. split; reflexivity.
Qed.

Lemma C10_touch_outside_is_ignored_witness :
  on_record_press (init_widget btn0) {| touch_x := 500; touch_y := 10 |}
    = (init_widget btn0, [])
  /\ on_record_release (init_widget btn0) {| touch_x := 500; touch_y := 10 |}
    = (init_widget btn0, []).
Proof.
  apply (C10_touch_outside_is_ignored (init_widget btn0)
           {| touch_x := 500; touch_y := 10 |}).
  reflexivity.
Defined.

(** A touch on the button does change the state, so the guard matters. *)
Example press_inside :
  on_record_press (init_widget btn0) {| touch_x := 50; touch_y := 10 |}
  = ({| audio_thread := Some RecordWorker; recording := true;
        wav_path := None; _buffer_size := 0;
        record_btn := set_btn_text btn0 "Recording...";
        output_box_text := ""; api_key_text := "" |},
     [EThreadStart RecordWorker]).
Proof. reflexivity. Qed.

(** ** Post-processing *)

(** C9: when the stored [wav_path] is unset, empty, or names a file that
    does not exist, [_post_process_and_translate] asks for
    "No recorded file found." to be shown and returns; its trace holds
    no call to the SarvamAI client. *)
Theorem C9_no_file_no_cloud_call (env : post_env) (self : RootWidget) :
  path_falsy (wav_path self) = true
  \/ (exists p, wav_path self = Some p /\ path_exists env p = false) ->
  result_of (_post_process_and_translate env self) = Ok tt
  /\ shown (trace_of (_post_process_and_translate env self))
     = "No recorded file found." +:+ PyStr.nl
  /\ List.filter is_sarvam_event
       (trace_of (_post_process_and_translate env self)) = []
  /\ ui_apply (trace_of (_post_process_and_translate env self)) self
     = ui_do "No recorded file found." self.
Proof.
  unfold _post_process_and_translate, path_falsy.
  intros [H | (p & Hp & Hex)].
  - destruct (wav_path self) as [p|]; [|repeat split].
    rewrite H. repeat split.
  - rewrite Hp. destruct (PyStr.truthy p); cbn; [|repeat split].
    rewrite Hex. repeat split.
Qed.

Lemma C9_no_file_no_cloud_call_witness :
  result_of (_post_process_and_translate no_such_file
               (widget_with_path (Some "/tmp/rec_1.wav"))) = Ok tt
  /\ shown (trace_of (_post_process_and_translate no_such_file
               (widget_with_path (Some "/tmp/rec_1.wav"))))
     = "No recorded file found." +:+ PyStr.nl
  /\ List.filter is_sarvam_event
       (trace_of (_post_process_and_translate no_such_file
               (widget_with_path (Some "/tmp/rec_1.wav")))) = []
  /\ ui_apply (trace_of (_post_process_and_translate no_such_file
               (widget_with_path (Some "/tmp/rec_1.wav"))))
       (widget_with_path (Some "/tmp/rec_1.wav"))
     = ui_do "No recorded file found."
         (widget_with_path (Some "/tmp/rec_1.wav")).
Proof.
  apply (C9_no_file_no_cloud_call no_such_file
           (widget_with_path (Some "/tmp/rec_1.wav"))).
  right. exists "/tmp/rec_1.wav". split; reflexivity.
Defined.

(** What the three requests of a run that reached the wrapper do to the
    box when the UI thread serves them. *)
Lemma post_trace_on_box env self path success message :
  wav_path self = Some path ->
  PyStr.truthy path = true ->
  path_exists env path = true ->
  result_of (translate_audio_with_sarvamai (post_cloud env) path
               (PyStr.strip (api_key_text self)) "saaras:v2.5" default_prompt)
    = Ok (success, message) ->
  result_of (_post_process_and_translate env self) = Ok tt
  /\ (exists before,
        trace_of (_post_process_and_translate env self)
        = before ++
          (if success
           then [EAppendOutput "Translation result:"; EAppendOutput message]
           else [EAppendOutput ("Translation failed: " +:+ message)]))
  /\ ui_apply (trace_of (_post_process_and_translate env self)) self
     = if success
       then ui_do message
              (ui_do "Translation result:"
                 (ui_do "Starting translation upload..." self))
       else ui_do ("Translation failed: " +:+ message)
              (ui_do "Starting translation upload..." self).
Proof.
  intros Hp Ht Hex Hres.
  unfold _post_process_and_translate. rewrite Hp, Ht. cbn [negb].
  set (tr := translate_audio_with_sarvamai _ _ _ _ _) in *.
  pose proof (wrapper_events (post_cloud env) path
                (PyStr.strip (api_key_text self)) "saaras:v2.5"
                default_prompt) as Hev.
  fold tr in Hev.
  destruct tr as [t r]. cbn in Hres, Hev. subst r.
  unfold append_output, call, bind, ret; cbn. rewrite Hex; cbn.
  destruct success; cbn.
  - split; [reflexivity|]. split.
    + exists (ESleep 200 :: EExists path
              :: EAppendOutput "Starting translation upload..." :: t).
      cbn. reflexivity.
    + rewrite ui_apply_app, (ui_apply_wrapper _ _ _ _ _ _ Hev). reflexivity.
  - split; [reflexivity|]. split.
    + exists (ESleep 200 :: EExists path
              :: EAppendOutput "Starting translation upload..." :: t).
      cbn. reflexivity.
    + rewrite ui_apply_app, (ui_apply_wrapper _ _ _ _ _ _ Hev). reflexivity.
Qed.

(** C6, as the code has it.  When the wrapper returns [(True, message)],
    the last two requests of the run are "Translation result:" and
    [message]; when it returns [(False, message)], the last request is
    "Translation failed: " followed by [message].  Served by the UI
    thread, each request assigns the box its text followed by the
    requested text and a newline, and the box stores every assignment
    with its CR LF pairs turned into LF.  So when neither the box nor
    the message holds a CR, the box afterwards is its old text followed
    by "Starting translation upload...", the heading and the message,
    one per line, the message as it was returned. *)
Theorem C6_returned_text_is_displayed (env : post_env) (self : RootWidget)
    (path : string) (success : bool) (message : string) :
  wav_path self = Some path ->
  PyStr.truthy path = true ->
  path_exists env path = true ->
  result_of (translate_audio_with_sarvamai (post_cloud env) path
               (PyStr.strip (api_key_text self)) "saaras:v2.5" default_prompt)
    = Ok (success, message) ->
  let box :=
    output_box_text
      (ui_apply (trace_of (_post_process_and_translate env self)) self) in
  let started :=
    PyStr.replace_crlf
      (output_box_text self +:+ "Starting translation upload..."
       +:+ PyStr.nl) in
  result_of (_post_process_and_translate env self) = Ok tt
  /\ (exists before,
        trace_of (_post_process_and_translate env self)
        = before ++
          (if success
           then [EAppendOutput "Translation result:"; EAppendOutput message]
           else [EAppendOutput ("Translation failed: " +:+ message)]))
  /\ box
     = (if success
        then PyStr.replace_crlf
               (PyStr.replace_crlf
                  (started +:+ "Translation result:" +:+ PyStr.nl)
                +:+ message +:+ PyStr.nl)
        else PyStr.replace_crlf
               (started +:+ ("Translation failed: " +:+ message)
                +:+ PyStr.nl))
  /\ (PyStr.has_cr (output_box_text self) = false ->
      PyStr.has_cr message = false ->
      box
      = output_box_text self +:+ "Starting translation upload..."
        +:+ PyStr.nl
        +:+ (if success
             then "Translation result:" +:+ PyStr.nl +:+ message +:+ PyStr.nl
             else "Translation failed: " +:+ message +:+ PyStr.nl)).
Proof.
  intros Hp Ht Hex Hres box started.
  destruct (post_trace_on_box env self path success message Hp Ht Hex Hres)
    as (Hr & Htr & Hui).
  split; [exact Hr|]. split; [exact Htr|].
  subst box started. rewrite Hui. split.
  - destruct success; reflexivity.
  - intros Hb Hm.
    destruct (ui_do_cr_free "Starting translation upload..." self Hb eq_refl)
      as [E1 K1].
    destruct success.
    + destruct (ui_do_cr_free "Translation result:" _ K1 eq_refl) as [E2 K2].
      destruct (ui_do_cr_free message _ K2 Hm) as [E3 _].
      rewrite E3, E2, E1, !str_app_assoc. reflexivity.
    + assert (Hf : PyStr.has_cr ("Translation failed: " +:+ message) = false)
        by (rewrite has_cr_app, Hm; reflexivity).
      destruct (ui_do_cr_free _ _ K1 Hf) as [E2 _].
      rewrite E2, E1, !str_app_assoc. reflexivity.
Qed.

Lemma C6_returned_text_is_displayed_witness :
  output_box_text
    (ui_apply (trace_of (_post_process_and_translate file_there
                           recorded_widget)) recorded_widget)
  = "Starting translation upload..." +:+ PyStr.nl
    +:+ "Translation result:" +:+ PyStr.nl
    +:+ "--- out.txt ---" +:+ PyStr.nl +:+ "hola" +:+ PyStr.nl.
Proof.
  destruct (C6_returned_text_is_displayed file_there recorded_widget
              "/tmp/rec_1.wav" true
              ("--- out.txt ---" +:+ PyStr.nl +:+ "hola")
              eq_refl eq_refl eq_refl eq_refl) as (_ & _ & _ & H).
  exact (H eq_refl eq_refl).
Defined.

(** C6 as stated fails.  The job's JSON output holds the text
    [a CR LF b]; the wrapper returns it in its message, the worker asks
    for the message to be appended, and the box stores [a LF b]: the
    message as returned is not in the box. *)
Lemma C6_counterexample :
  result_of (translate_audio_with_sarvamai crlf_json "/tmp/rec_1.wav" "key"
               "saaras:v2.5" default_prompt)
  = Ok (true, "--- out.json:text ---" +:+ PyStr.nl
              +:+ "a" +:+ PyStr.crlf +:+ "b")
  /\ output_box_text
       (ui_apply (trace_of (_post_process_and_translate crlf_reply
                              recorded_widget)) recorded_widget)
     = "Starting translation upload..." +:+ PyStr.nl
       +:+ "Translation result:" +:+ PyStr.nl
       +:+ "--- out.json:text ---" +:+ PyStr.nl
       +:+ "a" +:+ PyStr.nl +:+ "b" +:+ PyStr.nl
  /\ ~ message_reaches_box_verbatim.
Proof.
  split; [vm_compute; reflexivity|]. split; [vm_compute; reflexivity|].
  intros H.
  specialize (H crlf_reply recorded_widget "/tmp/rec_1.wav" true
                ("--- out.json:text ---" +:+ PyStr.nl
                 +:+ "a" +:+ PyStr.crlf +:+ "b")
                eq_refl eq_refl eq_refl ltac:(vm_compute; reflexivity)).
  vm_compute in H. discriminate.
Qed.

Example failed_job_is_displayed :
  output_box_text
    (ui_apply (trace_of (_post_process_and_translate
                           {| path_exists := fun _ => true;
                              post_cloud := job_fails |}
                           recorded_widget)) recorded_widget)
  = "Starting translation upload..." +:+ PyStr.nl
    +:+ "Translation failed: STT job failed." +:+ PyStr.nl.
Proof. vm_compute. reflexivity. Qed.

(** ** The shape of the wrapper's trace *)

Lemma flow_trace_prefix env w k m p :
  exists ts,
    trace_of (sarvam_flow env w k m p)
    = firstn (flow_reach env) (flow_calls w k m p (output_dir_of env)) ++ ts
    /\ Forall scan_event ts.
Proof.
  unfold sarvam_flow, output_dir_of, flow_reach.
  destruct env as [imp nc cj up st wt isf cwd mk dl wk rt lj]; cbn.
  destruct nc as [[]|e]; cbn;
    [|exists []; split; [reflexivity|constructor]].
  destruct cj as [[]|e]; cbn;
    [|exists []; split; [reflexivity|constructor]].
  destruct up as [[]|e]; cbn;
    [|exists []; split; [reflexivity|constructor]].
  destruct st as [[]|e]; cbn;
    [|exists []; split; [reflexivity|constructor]].
  destruct wt as [[]|e]; cbn;
    [|exists []; split; [reflexivity|constructor]].
  destruct isf as [[]|e]; cbn;
    [exists []; split; [reflexivity|constructor]|
    |exists []; split; [reflexivity|constructor]].
  destruct cwd as [cwd|e]; cbn;
    [|exists []; split; [reflexivity|constructor]].
  destruct mk as [[]|e]; cbn;
    [|exists []; split; [reflexivity|constructor]].
  destruct dl as [[]|e]; cbn;
    [|exists []; split; [reflexivity|constructor]].
  match goal with
  | |- context [scan_dirs ?e ?d ?a] =>
      pose proof (scan_dirs_events e d a) as Hs;
      destruct (scan_dirs e d a) as [ts [agg|e']]
  end; cbn in Hs |- *.
  - exists ts. split; [|exact Hs].
    destruct agg; cbn; rewrite ?app_nil_r; reflexivity.
  - exists ts. split; [reflexivity|exact Hs].
Qed.

Lemma wrapper_trace env w k m p :
  trace_of (translate_audio_with_sarvamai env w k m p)
  = EImportSarvam
    :: (if is_ok (import_sarvamai env)
        then trace_of (sarvam_flow env w k m p) else []).
Proof.
  unfold translate_audio_with_sarvamai.
  generalize (sarvam_flow env w k m p); intros fl.
  destruct (import_sarvamai env) as [[]|e]; cbn.
  - destruct fl as [t [r|e]]; cbn; [reflexivity|].
    destruct (exn_is_Exception e); cbn; rewrite ?app_nil_r; reflexivity.
  - destruct (exn_is_Exception e); reflexivity.
Qed.




(** ** Diarization *)

(** C5: every [create_job] call of the wrapper passes
    [with_diarization=False] and [num_speakers=1]; and the call is made
    (once) exactly when the import and the client construction
    succeeded, so the statement is about a call that happens. *)
Theorem C5_diarization_disabled (env : cloud_env)
    (wav_path api_key model prompt : string) :
  Forall diarization_off
    (trace_of (translate_audio_with_sarvamai env wav_path api_key model prompt))
  /\ count_op OpCreateJob
       (trace_of (translate_audio_with_sarvamai env wav_path api_key model
                    prompt))
     = (if is_ok (import_sarvamai env) && is_ok (new_client env)
        then 1 else 0)%nat.
Proof.
  split.
  - eapply List.Forall_impl; [|apply wrapper_events].
    intros ev Hev. destruct Hev; cbn; auto.
  - rewrite wrapper_trace.
    change (EImportSarvam :: ?t) with ([EImportSarvam] ++ t).
    rewrite count_op_app. cbn [count_op List.filter is_op cloud_op_of length].
    destruct (is_ok (import_sarvamai env)); [|reflexivity].
    destruct (flow_trace_prefix env wav_path api_key model prompt)
      as (ts & -> & Hts).
    rewrite count_op_app, (scan_count_op _ _ Hts).
    unfold flow_reach.
    destruct (new_client env); [|reflexivity].
    destruct (create_job env); [|reflexivity].
    destruct (upload_files env); [|reflexivity].
    destruct (start env); [|reflexivity].
    destruct (wait_until_complete env); [|reflexivity].
    destruct (is_failed env) as [[]|]; [reflexivity| |reflexivity].
    destruct (getcwd env); [|reflexivity].
    destruct (makedirs env); [|reflexivity].
    destruct (download_outputs env); reflexivity.
Qed.

(** ** The order of the cloud operations *)

(** C2: in a call where the import, the client construction and the five
    job operations up to [is_failed] return without an exception, the
    trace starts with the import, the client, then [create_job],
    [upload_files] of the one given WAV file, [start],
    [wait_until_complete] and [is_failed], in this order; the job
    operations of the whole trace are these five, each once, followed by
    [download_outputs] only when the job did not fail (and the output
    directory could be prepared); when the job failed the call returns
    [(False, "STT job failed.")]. *)
Theorem C2_cloud_operations_in_order (env : cloud_env)
    (wav_path api_key model prompt : string) (failed : bool) :
  import_sarvamai env = Ok tt ->
  new_client env = Ok tt ->
  create_job env = Ok tt ->
  upload_files env = Ok tt ->
  start env = Ok tt ->
  wait_until_complete env = Ok tt ->
  is_failed env = Ok failed ->
  firstn 7 (trace_of (translate_audio_with_sarvamai env wav_path api_key
                        model prompt))
    = [EImportSarvam; ENewClient api_key] ++ submit_ops wav_path model prompt
  /\ job_ops (trace_of (translate_audio_with_sarvamai env wav_path api_key
                         model prompt))
     = submit_ops wav_path model prompt
       ++ (if failed then []
           else match getcwd env, makedirs env with
                | Ok cwd, Ok _ =>
                    [EDownloadOutputs (path_join cwd "sarvamai_output")]
                | _, _ => []
                end)
  /\ (forall op, op <> OpDownloadOutputs ->
        count_op op (trace_of (translate_audio_with_sarvamai env wav_path
                                 api_key model prompt)) = 1%nat)
  /\ (failed = true ->
      translate_audio_with_sarvamai env wav_path api_key model prompt
      = ([EImportSarvam; ENewClient api_key]
           ++ submit_ops wav_path model prompt,
         Ok (false, "STT job failed."))).
Proof.
  intros Himp Hnc Hcj Hup Hst Hwt Hisf.
  assert (Hreach : (6 <= flow_reach env <= 10)%nat).
  { unfold flow_reach. rewrite Hnc, Hcj, Hup, Hst, Hwt, Hisf.
    destruct failed; [lia|].
    destruct (getcwd env); [|lia]. destruct (makedirs env); [|lia].
    destruct (download_outputs env); lia. }
  destruct (flow_trace_prefix env wav_path api_key model prompt)
    as (ts & Hflow & Hts).
  pose proof (wrapper_trace env wav_path api_key model prompt) as Htr.
  rewrite Himp in Htr; cbn [is_ok] in Htr. rewrite Hflow in Htr.
  assert (Hcases :
    firstn (flow_reach env)
      (flow_calls wav_path api_key model prompt (output_dir_of env))
    = [ENewClient api_key] ++ submit_ops wav_path model prompt
      ++ skipn 6 (firstn (flow_reach env)
           (flow_calls wav_path api_key model prompt (output_dir_of env)))).
  { destruct (flow_reach env) as [|[|[|[|[|[|n]]]]]]; try lia. reflexivity. }
  split; [rewrite Htr, Hcases; reflexivity|].
  split.
  { rewrite Htr.
    change (EImportSarvam :: ?t) with ([EImportSarvam] ++ t).
    rewrite !job_ops_app, (scan_no_job_ops _ Hts), app_nil_r.
    unfold flow_reach, output_dir_of.
    rewrite Hnc, Hcj, Hup, Hst, Hwt, Hisf.
    destruct failed; [reflexivity|].
    destruct (getcwd env) as [cwd|]; [|reflexivity].
    destruct (makedirs env) as [[]|]; [|reflexivity].
    destruct (download_outputs env); reflexivity. }
  split.
  { intros op Hop. rewrite Htr.
    change (EImportSarvam :: ?t) with ([EImportSarvam] ++ t).
    rewrite !count_op_app, (scan_count_op _ _ Hts).
    unfold flow_reach, output_dir_of.
    rewrite Hnc, Hcj, Hup, Hst, Hwt, Hisf.
    destruct failed; [destruct op; try reflexivity; congruence|].
    destruct (getcwd env) as [cwd|];
      [|destruct op; try reflexivity; congruence].
    destruct (makedirs env) as [[]|];
      [|destruct op; try reflexivity; congruence].
    destruct (download_outputs env);
      destruct op; try reflexivity; congruence. }
  intros ->.
  unfold translate_audio_with_sarvamai, sarvam_flow.
  rewrite Himp, Hnc, Hcj, Hup, Hst, Hwt, Hisf. reflexivity.
Qed.

Lemma C2_cloud_operations_in_order_witness :
  firstn 7 (trace_of (translate_audio_with_sarvamai with_text
                        "/tmp/rec_1.wav" "key" default_model default_prompt))
    = [EImportSarvam; ENewClient "key"]
      ++ submit_ops "/tmp/rec_1.wav" default_model default_prompt
  /\ job_ops (trace_of (translate_audio_with_sarvamai with_text
                         "/tmp/rec_1.wav" "key" default_model default_prompt))
     = submit_ops "/tmp/rec_1.wav" default_model default_prompt
       ++ [EDownloadOutputs "/app/sarvamai_output"].
Proof.
  destruct (C2_cloud_operations_in_order with_text "/tmp/rec_1.wav" "key"
              default_model default_prompt false)
    as (H1 & H2 & _); try reflexivity.
  split; [exact H1|exact H2].
Defined.

Example failed_job_stops_before_download :
  translate_audio_with_sarvamai job_fails "/tmp/rec_1.wav" "key"
    default_model default_prompt
  = ([EImportSarvam; ENewClient "key";
      ECreateJob "saaras:v2.5" false 1 "casual chat";
      EUploadFiles ["/tmp/rec_1.wav"]; EStart; EWaitUntilComplete; EIsFailed],
     Ok (false, "STT job failed.")).
Proof. reflexivity. Qed.

(** ** Success without text *)

Lemma json_keys_nothing fname j ks agg :
  (forall d key s, j = JDict d -> In key ks -> d !! key = Some (JVStr s) ->
                   PyStr.truthy (PyStr.strip s) = false) ->
  fst (json_keys fname j ks agg) = agg.
Proof.
  induction ks as [|k ks IH]; intros H; [reflexivity|].
  cbn [json_keys].
  assert (Hk : json_key_text j k = Ok None
               \/ exists e, json_key_text j k = Raise e).
  { destruct j as [d|l|s|]; cbn.
    - destruct (d !! k) as [[s|]|] eqn:E; auto.
      rewrite (H d k s eq_refl (or_introl eq_refl) E). auto.
    - destruct (existsb (jval_is k) l); eauto.
    - destruct (PyStr.contains k s); eauto.
    - eauto. }
  destruct Hk as [-> | [e ->]]; [|reflexivity].
  apply IH. intros d key s Hj Hin. apply (H d key s Hj). right; exact Hin.
Qed.

Lemma json_keys_raise fname j ks agg agg' e :
  json_keys fname j ks agg = (agg', Raise e) -> exn_is_Exception e = true.
Proof.
  revert agg; induction ks as [|k ks IH]; intros agg; cbn [json_keys].
  - intros [= _ ?]. 
  - destruct (json_key_text j k) as [[txt|]|e'] eqn:E; try apply IH.
    intros [= _ <-].
    destruct j as [d|l|s|]; cbn in E.
    + destruct (d !! k) as [[s|]|]; try discriminate.
      destruct (PyStr.truthy (PyStr.strip s)); discriminate.
    + destruct (existsb (jval_is k) l); [|discriminate].
      injection E as <-. reflexivity.
    + destruct (PyStr.contains k s); [|discriminate].
      injection E as <-. reflexivity.
    + injection E as <-. reflexivity.
Qed.

Lemma scan_file_nothing env root fname agg :
  file_has_no_text env root fname ->
  result_of (scan_file env root fname agg) = Ok agg.
Proof.
  intros [Htxt Hjson]. unfold scan_file, is_json, is_txt in *.
  destruct (PyStr.endswith (PyStr.lower fname) ".txt").
  - destruct (Htxt eq_refl) as (s & -> & Hs). cbn. rewrite Hs. reflexivity.
  - cbn [negb andb] in Hjson.
    destruct (PyStr.endswith (PyStr.lower fname) ".json"); [|reflexivity].
    destruct (Hjson eq_refl) as [Hexn Hkeys]. unfold scan_json.
    destruct (load_json env (path_join root fname)) as [j|e] eqn:E;
      cbn -[json_keys].
    + pose proof (json_keys_nothing fname j json_text_keys agg) as Hn.
      pose proof (json_keys_raise fname j json_text_keys agg) as Hr.
      destruct (json_keys fname j json_text_keys agg) as [agg' [u|e]];
        cbn in Hn |- *.
      * rewrite Hn; [reflexivity|]. intros d key s ->. apply Hkeys. reflexivity.
      * rewrite (Hr agg' e eq_refl). cbn. rewrite Hn; [reflexivity|].
        intros d key s ->. apply Hkeys. reflexivity.
    + rewrite (Hexn e eq_refl). reflexivity.
Qed.

Lemma scan_files_nothing env root files : forall agg,
  (forall fname, In fname files -> file_has_no_text env root fname) ->
  result_of (scan_files env root files agg) = Ok agg.
Proof.
  induction files as [|fname files IH]; intros agg H; [reflexivity|].
  cbn [scan_files].
  pose proof (scan_file_nothing env root fname agg (H fname (or_introl eq_refl)))
    as Hf.
  rewrite (bind_trace _ _ agg Hf). cbn.
  apply IH. intros f Hin. apply H. right; exact Hin.
Qed.

Lemma scan_dirs_nothing env dirs : forall agg,
  (forall root files fname, In (root, files) dirs -> In fname files ->
                            file_has_no_text env root fname) ->
  result_of (scan_dirs env dirs agg) = Ok agg.
Proof.
  induction dirs as [|[root files] dirs IH]; intros agg H; [reflexivity|].
  cbn [scan_dirs].
  assert (Hf : result_of (scan_files env root files agg) = Ok agg).
  { apply scan_files_nothing. intros f Hin.
    apply (H root files f); [left; reflexivity|exact Hin]. }
  rewrite (bind_trace _ _ agg Hf). cbn.
  apply IH. intros r fs f Hin Hin'. apply (H r fs f); [right|]; assumption.
Qed.

(** The wrapper reports success with the directory alone whenever the
    scan extracts nothing. *)
Lemma success_without_text env w k m p cwd :
  import_sarvamai env = Ok tt -> new_client env = Ok tt ->
  create_job env = Ok tt -> upload_files env = Ok tt -> start env = Ok tt ->
  wait_until_complete env = Ok tt -> is_failed env = Ok false ->
  getcwd env = Ok cwd -> makedirs env = Ok tt -> download_outputs env = Ok tt ->
  (forall root fname, listed env root fname ->
                      file_has_no_text env root fname) ->
  result_of (translate_audio_with_sarvamai env w k m p)
  = Ok (true, "Output downloaded to: " +:+ path_join cwd "sarvamai_output"
              +:+ " (no text/json translation found).").
Proof.
  intros Himp Hnc Hcj Hup Hst Hwt Hisf Hcwd Hmk Hdl Hfiles.
  assert (Hs : result_of (scan_dirs env (walk env) []) = Ok []).
  { apply scan_dirs_nothing. intros root files fname Hin Hin'.
    apply Hfiles. exists files. split; assumption. }
  unfold translate_audio_with_sarvamai, sarvam_flow.
  rewrite Himp, Hnc, Hcj, Hup, Hst, Hwt, Hisf, Hcwd, Hmk, Hdl. cbn.
  destruct (scan_dirs env (walk env) []) as [ts r]. cbn in Hs. subst r.
  reflexivity.
Qed.

(** C8: the wrapper can return success without any translated text.
    When the run reaches the download, every listed [.txt] file is empty,
    and every listed [.json] file either fails to parse or holds no
    non-empty string under [text], [transcript], [translation] or
    [translated_text], the result is [(True, message)] with a message
    that only names the output directory. *)
Theorem C8_success_without_text (env : cloud_env)
    (wav_path api_key model prompt cwd : string) :
  import_sarvamai env = Ok tt -> new_client env = Ok tt ->
  create_job env = Ok tt -> upload_files env = Ok tt -> start env = Ok tt ->
  wait_until_complete env = Ok tt -> is_failed env = Ok false ->
  getcwd env = Ok cwd -> makedirs env = Ok tt -> download_outputs env = Ok tt ->
  (forall root fname, listed env root fname -> is_txt fname = true ->
     read_text env (path_join root fname) = Ok "") ->
  (forall root fname e, listed env root fname -> is_json fname = true ->
     load_json env (path_join root fname) = Raise e ->
     exn_is_Exception e = true) ->
  (forall root fname d key s, listed env root fname -> is_json fname = true ->
     load_json env (path_join root fname) = Ok (JDict d) ->
     In key json_text_keys -> d !! key = Some (JVStr s) -> s = "") ->
  result_of (translate_audio_with_sarvamai env wav_path api_key model prompt)
  = Ok (true, "Output downloaded to: " +:+ path_join cwd "sarvamai_output"
              +:+ " (no text/json translation found).").
Proof.
  intros Himp Hnc Hcj Hup Hst Hwt Hisf Hcwd Hmk Hdl Htxt Hbad Hjson.
  apply success_without_text; try assumption.
  intros root fname Hl. split.
  - intros Ht. exists "". split; [apply Htxt; assumption|reflexivity].
  - intros Hj. split.
    + intros e. apply Hbad; assumption.
    + intros d key s Hload Hin Hlk.
      rewrite (Hjson root fname d key s Hl Hj Hload Hin Hlk). reflexivity.
Qed.

Lemma C8_success_without_text_witness :
  result_of (translate_audio_with_sarvamai textless_outputs "/tmp/rec_1.wav"
               "key" default_model default_prompt)
  = Ok (true, "Output downloaded to: " +:+ path_join "/app" "sarvamai_output"
              +:+ " (no text/json translation found).").
Proof.
  apply (C8_success_without_text textless_outputs "/tmp/rec_1.wav" "key"
           default_model default_prompt "/app"); try reflexivity.
  - intros root fname e _ _. cbn.
    destruct (String.eqb _ _); [discriminate|]. intros [= <-]. reflexivity.
  - intros root fname d key s _ _. cbn.
    destruct (String.eqb _ _); [|discriminate]. intros [= <-].
    intros [<-|[<-|[<-|[<-|[]]]]]; vm_compute; congruence.
Defined.

Example textless_trace :
  trace_of (translate_audio_with_sarvamai textless_outputs "/tmp/rec_1.wav"
              "key" default_model default_prompt)
  = [EImportSarvam; ENewClient "key";
     ECreateJob "saaras:v2.5" false 1 "casual chat";
     EUploadFiles ["/tmp/rec_1.wav"]; EStart; EWaitUntilComplete; EIsFailed;
     EGetcwd; EMakedirs "/app/sarvamai_output" true;
     EDownloadOutputs "/app/sarvamai_output"; EWalk "/app/sarvamai_output";
     EReadText "/app/sarvamai_output/a.TXT";
     ELoadJson "/app/sarvamai_output/b.json";
     ELoadJson "/app/sarvamai_output/c.json"].
Proof. vm_compute. reflexivity. Qed.

(** ** Exceptions in the wrapper *)

Lemma good_ret {A} env (a : A) : good env (ret a).
Proof. split; cbn; [discriminate|contradiction]. Qed.

Lemma good_call {A} env ev (o : outcome A) :
  (forall e, o = Raise e -> exn_is_Exception e = true) ->
  (is_json_load ev = false -> raised_at env ev = err o) ->
  good env (call ev o).
Proof.
  intros He Hr. split; cbn; [exact He|].
  intros ev' e [<-|[]] Hra Hj. rewrite (Hr Hj) in Hra.
  destruct o; cbn in Hra; congruence.
Qed.

Lemma good_bind {A B} env (m : M A) (f : A -> M B) :
  good env m -> (forall a, result_of m = Ok a -> good env (f a)) ->
  good env (bind m f).
Proof.
  destruct m as [t [a|e]]; cbn; intros [Hm1 Hm2] Hf.
  - specialize (Hf a eq_refl). destruct (f a) as [t' r'].
    destruct Hf as [Hf1 Hf2]. cbn in *. split; [exact Hf1|].
    intros ev e Hin Hra Hj. apply in_app_or in Hin as [Hin|Hin].
    + specialize (Hm2 ev e Hin Hra Hj). discriminate.
    + exact (Hf2 ev e Hin Hra Hj).
  - cbn in *. split.
    + intros e0 [= <-]. apply (Hm1 e eq_refl).
    + intros ev e0 Hin Hra Hj.
      specialize (Hm2 ev e0 Hin Hra Hj). injection Hm2 as ->. reflexivity.
Qed.

Section Caught.
Variable env : cloud_env.
Hypothesis Hexn : raises_only_Exception env.

Ltac env_exn :=
  let e := fresh "e" in let H := fresh "H" in
  intros e H; apply Hexn; rewrite H; tauto.

Lemma good_scan_json root fname agg : good env (scan_json env root fname agg).
Proof.
  split.
  - unfold scan_json.
    destruct (load_json env (path_join root fname)) as [j|e] eqn:E;
      cbn -[json_keys].
    + pose proof (json_keys_raise fname j json_text_keys agg) as Hr.
      destruct (json_keys fname j json_text_keys agg) as [agg' [u|e]];
        cbn; [discriminate|].
      rewrite (Hr agg' e eq_refl). cbn. discriminate.
    + assert (exn_is_Exception e = true) as ->
        by (apply Hexn; do 11 right; eauto).
      cbn. discriminate.
  - intros ev e Hin _ Hj.
    pose proof (scan_json_events env root fname agg) as Hev.
    rewrite List.Forall_forall in Hev. specialize (Hev ev Hin).
    unfold scan_json in Hin.
    destruct (load_json env (path_join root fname)) as [j|e'];
      cbn -[json_keys] in Hin.
    + destruct (json_keys fname j json_text_keys agg) as [agg' [u|e'']];
        cbn in Hin.
      * destruct Hin as [<-|[]]. discriminate.
      * destruct (exn_is_Exception e''); cbn in Hin;
          destruct Hin as [<-|[]]; discriminate.
    + destruct (exn_is_Exception e'); cbn in Hin;
        destruct Hin as [<-|[]]; discriminate.
Qed.

Lemma good_scan_file root fname agg : good env (scan_file env root fname agg).
Proof.
  unfold scan_file.
  destruct (PyStr.endswith (PyStr.lower fname) ".txt").
  - apply good_bind.
    + apply good_call; [|reflexivity].
      intros e H; apply Hexn; do 10 right; left; eauto.
    + intros raw _. destruct (PyStr.truthy (PyStr.strip raw)); apply good_ret.
  - destruct (PyStr.endswith (PyStr.lower fname) ".json");
      [apply good_scan_json|apply good_ret].
Qed.

Lemma good_scan_files root files : forall agg,
  good env (scan_files env root files agg).
Proof.
  induction files as [|fname files IH]; intros agg; cbn [scan_files].
  - apply good_ret.
  - apply good_bind; [apply good_scan_file|intros; apply IH].
Qed.

Lemma good_scan_dirs dirs : forall agg, good env (scan_dirs env dirs agg).
Proof.
  induction dirs as [|[root files] dirs IH]; intros agg; cbn [scan_dirs].
  - apply good_ret.
  - apply good_bind; [apply good_scan_files|intros; apply IH].
Qed.

Lemma good_sarvam_flow w k m p : good env (sarvam_flow env w k m p).
Proof.
  unfold sarvam_flow.
  apply good_bind; [apply good_call; [env_exn|reflexivity]|intros _ _].
  apply good_bind; [apply good_call; [env_exn|reflexivity]|intros _ _].
  apply good_bind; [apply good_call; [env_exn|reflexivity]|intros _ _].
  apply good_bind; [apply good_call; [env_exn|reflexivity]|intros _ _].
  apply good_bind; [apply good_call; [env_exn|reflexivity]|intros _ _].
  apply good_bind; [apply good_call; [env_exn|reflexivity]|intros failed _].
  destruct failed; [apply good_ret|].
  apply good_bind; [apply good_call; [env_exn|reflexivity]|intros cwd _].
  apply good_bind; [apply good_call; [env_exn|reflexivity]|intros _ _].
  apply good_bind; [apply good_call; [env_exn|reflexivity]|intros _ _].
  apply good_bind.
  - apply good_bind; [apply good_call; [discriminate|reflexivity]|intros _ _].
    apply good_scan_dirs.
  - intros [|x l] _; apply good_ret.
Qed.
End Caught.




(** An exception that does not derive from [Exception] is not caught by
    [except Exception]: it leaves the wrapper. *)
Lemma interrupt_passes_through :
  translate_audio_with_sarvamai interrupted_upload "/tmp/rec_1.wav" "key"
    default_model default_prompt
  = ([EImportSarvam; ENewClient "key";
      ECreateJob "saaras:v2.5" false 1 "casual chat";
      EUploadFiles ["/tmp/rec_1.wav"]],
     Raise KeyboardInterrupt).
Proof. reflexivity. Qed.

(** ** Samples and bytes *)

Lemma encode_app a b :
  encode_s16le (a ++ b) = encode_s16le a ++ encode_s16le b.
Proof. unfold encode_s16le. rewrite map_app, concat_app. reflexivity. Qed.

Lemma s16_of_le16 v : is_int16 v = true ->
  s16_of_le ((v mod 65536) mod 256) ((v mod 65536) / 256) = v.
Proof.
  unfold is_int16, int16_min, int16_max, s16_of_le. intros H.
  apply andb_true_iff in H as [H1 H2].
  apply Z.leb_le in H1. apply Z.leb_le in H2.
  pose proof (Z.div_mod (v mod 65536) 256 ltac:(lia)) as Hdm.
  replace ((v mod 65536) mod 256 + 256 * ((v mod 65536) / 256))
    with (v mod 65536) by lia.
  destruct (Z.ltb_spec (v mod 65536) 32768) as [Hlt|Hge].
  - destruct (Z_lt_le_dec v 0) as [Hn|Hp].
    + rewrite <- (Z.mod_add v 1 65536) in Hlt by lia.
      rewrite Z.mod_small in Hlt by lia. lia.
    + rewrite Z.mod_small by lia. reflexivity.
  - destruct (Z_lt_le_dec v 0) as [Hn|Hp].
    + rewrite <- (Z.mod_add v 1 65536) by lia.
      rewrite Z.mod_small by lia. lia.
    + rewrite Z.mod_small in Hge by lia. lia.
Qed.

(** Decoding what was encoded gives the samples back. *)
Lemma decode_encode samples :
  all_int16 samples -> decode_s16le (encode_s16le samples) = samples.
Proof.
  induction 1 as [|v l Hv _ IH]; [reflexivity|].
  unfold encode_s16le in *. cbn [map concat le16 app decode_s16le].
  rewrite IH, s16_of_le16 by exact Hv. reflexivity.
Qed.

Lemma le16_wrap v : le16 (int16_wrap v) = le16 v.
Proof.
  unfold le16, int16_wrap.
  replace ((v + 32768) mod 65536 - 32768)
    with (v + 32768 - 65536 * ((v + 32768) / 65536) - 32768)
    by (pose proof (Z.div_mod (v + 32768) 65536 ltac:(lia)); lia).
  replace (v + 32768 - 65536 * ((v + 32768) / 65536) - 32768)
    with (v + (- ((v + 32768) / 65536)) * 65536) by lia.
  rewrite Z.mod_add by lia. reflexivity.
Qed.

Lemma int16_wrap_range v : is_int16 (int16_wrap v) = true.
Proof.
  unfold is_int16, int16_wrap, int16_min, int16_max.
  pose proof (Z.mod_pos_bound (v + 32768) 65536 ltac:(lia)).
  apply andb_true_iff; split; apply Z.leb_le; lia.
Qed.

Lemma encode_wrap l : encode_s16le (map int16_wrap l) = encode_s16le l.
Proof.
  unfold encode_s16le. rewrite map_map. f_equal.
  apply map_ext. intros v. apply le16_wrap.
Qed.

Lemma tobytes_concat blocks :
  concat (map tobytes_int16 blocks) = encode_s16le (concat blocks).
Proof.
  induction blocks as [|b bs IH]; [reflexivity|].
  cbn [map concat]. rewrite IH, encode_app. reflexivity.
Qed.

Lemma pack_samples_ok n : forall java_buffer bs,
  pack_samples n java_buffer = Ok bs ->
  bs = encode_s16le (firstn n java_buffer)
  /\ all_int16 (firstn n java_buffer)
  /\ (n <= length java_buffer)%nat.
Proof.
  induction n as [|n IH]; intros buf bs; cbn [pack_samples].
  - intros [= <-]. repeat split; [constructor|lia].
  - destruct buf as [|v rest]; [discriminate|].
    unfold struct_pack_h. destruct (is_int16 v) eqn:Hv; [|discriminate].
    destruct (pack_samples n rest) as [bs'|e] eqn:E; [|discriminate].
    intros [= <-]. destruct (IH rest bs' E) as (-> & Hall & Hlen).
    repeat split.
    + constructor; assumption.
    + cbn [length]. lia.
Qed.

Lemma encode_length samples :
  length (encode_s16le samples) = (2 * length samples)%nat.
Proof.
  induction samples as [|v l IH]; [reflexivity|].
  unfold encode_s16le in *. cbn [map concat length le16 app]. rewrite IH. lia.
Qed.

Lemma pack_samples_complete n : forall java_buffer,
  (n <= length java_buffer)%nat -> all_int16 (firstn n java_buffer) ->
  pack_samples n java_buffer = Ok (encode_s16le (firstn n java_buffer)).
Proof.
  induction n as [|n IH]; intros buf Hlen Hall; [reflexivity|].
  destruct buf as [|v rest]; [cbn in Hlen; lia|].
  cbn [firstn] in Hall. inversion Hall as [|? ? Hv Hrest]; subst.
  cbn [pack_samples]. unfold struct_pack_h. rewrite Hv.
  rewrite IH; [reflexivity|cbn in Hlen; lia|exact Hrest].
Qed.

(** ** The recording monad *)

Lemma rbind_inv {A B} (m : R A) (f : A -> R B) s t s' r :
  rbind m f s = Some (t, s', r) ->
  (exists t1 s1 a t2,
      m s = Some (t1, s1, Ok a) /\ f a s1 = Some (t2, s', r) /\ t = t1 ++ t2)
  \/ (exists e, m s = Some (t, s', Raise e) /\ r = Raise e).
Proof.
  unfold rbind. destruct (m s) as [[[t1 s1] [a|e]]|]; [| |discriminate].
  - destruct (f a s1) as [[[t2 s2] r2]|] eqn:E; [|discriminate].
    intros [= <- <- <-]. left. exists t1, s1, a, t2. auto.
  - intros [= <- <- <-]. right. exists e. auto.
Qed.

Lemma rbind_call_inv {A B} ev (o : outcome A) (f : A -> R B) s t s' r :
  rbind (rlift (call ev o)) f s = Some (t, s', r) ->
  (exists a t2, o = Ok a /\ f a s = Some (t2, s', r) /\ t = ev :: t2)
  \/ (exists e, o = Raise e /\ t = [ev] /\ s' = s /\ r = Raise e).
Proof.
  intros H. apply rbind_inv in H as [(t1 & s1 & a & t2 & Hm & Hf & ->)|(e & Hm & ->)];
    cbn in Hm; injection Hm as <- <- ->.
  - left. exists a, t2. auto.
  - right. exists e. auto.
Qed.

Lemma wf_call_inv ev f s t s' r :
  wf_call ev f s = Some (t, s', r) ->
  t = [ev] /\ rs_self s' = rs_self s
  /\ match rs_wf s with
     | None => s' = s /\ exists e, r = Raise e
     | Some w =>
         match f w with
         | Ok w' => rs_wf s' = Some w' /\ r = Ok tt
         | Raise e => s' = s /\ r = Raise e
         end
     end.
Proof.
  unfold wf_call. destruct (rs_wf s) as [w|].
  - destruct (f w) as [w'|e]; intros [= <- <- <-]; auto.
  - intros [= <- <- <-]. eauto.
Qed.

Lemma writeframes_inv io data w w' :
  writeframes io data w = Ok w' ->
  wf_path w' = wf_path w /\ nchannels w' = nchannels w
  /\ sampwidth w' = sampwidth w /\ framerate w' = framerate w
  /\ closed w' = closed w
  /\ frames_written w' = frames_written w ++ data.
Proof.
  unfold writeframes. destruct (params_set w); [|discriminate].
  destruct io; [|discriminate]. intros [= <-]. cbn. auto 6.
Qed.

Ltac stop_here :=
  repeat split; auto; try discriminate; try apply Forall_nil;
  try exact I.

(** What a run of the Android loop does to the [Wave_write] object: the
    parameters stay, and the frames grow by the encoding of the samples
    of the iterations that wrote. *)
Lemma android_loop_spec env chunk : forall fuel k s t s' r w,
  android_loop env fuel k chunk s = Some (t, s', r) ->
  rs_wf s = Some w ->
  exists n w',
    rs_self s' = rs_self s /\ rs_wf s' = Some w'
    /\ wf_path w' = wf_path w /\ nchannels w' = nchannels w
    /\ sampwidth w' = sampwidth w /\ framerate w' = framerate w
    /\ closed w' = closed w
    /\ frames_written w'
       = frames_written w ++ encode_s16le (android_samples env k n)
    /\ all_int16 (android_samples env k n)
    /\ (r = Ok tt -> routine_bytes t = encode_s16le (android_samples env k n)).
Proof.
  induction fuel as [|fuel IH]; intros k s t s' r w Hrun Hw; [discriminate|].
  cbn [android_loop] in Hrun.
  destruct (a_flag_at env k).
  2:{ injection Hrun as <- <- <-. exists O, w. cbn.
      rewrite app_nil_r. stop_here. }
  apply rbind_call_inv in Hrun
    as [([read buf] & t2 & Hread & Hrun & ->)|(e & Hread & -> & -> & ->)].
  2:{ exists O, w. cbn. rewrite app_nil_r.
      stop_here. }
  destruct (read >? 0) eqn:Hpos.
  - apply rbind_inv in Hrun
      as [(t1 & s1 & b & t3 & Hpack & Hrun & ->)|(e & Hpack & ->)];
      cbn in Hpack.
    2:{ injection Hpack as <- <- Hp. exists O, w. cbn. rewrite app_nil_r.
        stop_here. }
    injection Hpack as <- <- Hpack.
    apply pack_samples_ok in Hpack as (Hb & Hall & _).
    apply rbind_inv in Hrun
      as [(t1 & s1 & [] & t4 & Hwr & Hrun & ->)|(e & Hwr & ->)];
      apply wf_call_inv in Hwr as (-> & Hself & Hwf); rewrite Hw in Hwf.
    2:{ destruct (writeframes (a_write_at env k) b w) as [w1|e1];
          [destruct Hwf; discriminate|].
        destruct Hwf as [-> _]. exists O, w. cbn. rewrite app_nil_r.
        stop_here. }
    destruct (writeframes (a_write_at env k) b w) as [w1|e1] eqn:Ewr;
      [|destruct Hwf; discriminate].
    destruct Hwf as [Hw1 _].
    apply writeframes_inv in Ewr as (P1 & P2 & P3 & P4 & P5 & P6).
    destruct (IH (S k) s1 t4 s' r w1 Hrun Hw1)
      as (n & w' & Q0 & Q1 & Q2 & Q3 & Q4 & Q5 & Q6 & Q7 & Q8 & Q9).
    exists (S n), w'. cbn [android_samples]. rewrite Hread. cbn [block_samples].
    rewrite Hpos, encode_app, <- Hb.
    repeat split; try congruence.
    + rewrite Q7, P6, app_assoc. reflexivity.
    + apply Forall_app; split; assumption.
    + intros Hr. cbn. rewrite (Q9 Hr). reflexivity.
  - apply rbind_call_inv in Hrun
      as [([] & t3 & _ & Hrun & ->)|(e & He & _)]; [|discriminate].
    destruct (IH (S k) s t3 s' r w Hrun Hw)
      as (n & w' & Q0 & Q1 & Q2 & Q3 & Q4 & Q5 & Q6 & Q7 & Q8 & Q9).
    exists (S n), w'. cbn [android_samples]. rewrite Hread. cbn [block_samples].
    rewrite Hpos. cbn [app].
    repeat split; auto.
Qed.

Lemma wave_close_spec io w :
  let w' := fst (wave_close io w) in
  wf_path w' = wf_path w /\ nchannels w' = nchannels w
  /\ sampwidth w' = sampwidth w /\ framerate w' = framerate w
  /\ frames_written w' = frames_written w /\ closed w' = true.
Proof. unfold wave_close. destruct (params_set w); cbn; auto 6. Qed.

Lemma wf_close_inv io s t s' r w :
  wf_close io s = Some (t, s', r) -> rs_wf s = Some w ->
  t = [EWaveClose] /\ rs_self s' = rs_self s
  /\ rs_wf s' = Some (fst (wave_close io w)) /\ r = snd (wave_close io w).
Proof.
  unfold wf_close. intros H Hw. rewrite Hw in H.
  destruct (wave_close io w) as [w' r']. injection H as <- <- <-. auto.
Qed.

(** The [try: ar.stop(); ar.release() except Exception: pass] part of
    the [finally] block never touches the state. *)
Lemma stop_release_inv env s t s' r :
  rtry_except
    (rbind (rlift (call EArStop (ar_stop env)))
           (fun _ => rlift (call EArRelease (ar_release env))))
    (fun _ => rret tt) s = Some (t, s', r) ->
  s' = s /\ routine_bytes t = [] /\ iterations t = O.
Proof.
  unfold rtry_except, rbind, rlift, call, rret; cbn.
  destruct (ar_stop env) as [[]|e]; cbn.
  - destruct (ar_release env) as [[]|e]; cbn.
    + intros [= <- <- <-]. auto.
    + destruct (exn_is_Exception e); intros [= <- <- <-]; auto.
  - destruct (exn_is_Exception e); intros [= <- <- <-]; auto.
Qed.

Lemma routine_bytes_app t1 t2 :
  routine_bytes (t1 ++ t2) = routine_bytes t1 ++ routine_bytes t2.
Proof.
  induction t1 as [|ev t1 IH]; [reflexivity|].
  destruct ev; cbn; try exact IH. rewrite IH, app_assoc. reflexivity.
Qed.

Lemma iterations_app t1 t2 :
  iterations (t1 ++ t2) = (iterations t1 + iterations t2)%nat.
Proof. unfold iterations. rewrite List.filter_app, length_app. reflexivity. Qed.

(** The [finally] block leaves the parameters and the frames of the
    [Wave_write] object as they are, and hands no bytes to it. *)
Lemma android_cleanup_spec env path s t s' r w :
  android_cleanup env path s = Some (t, s', r) -> rs_wf s = Some w ->
  exists w',
    rs_self s' = rs_self s /\ rs_wf s' = Some w'
    /\ wf_path w' = wf_path w /\ nchannels w' = nchannels w
    /\ sampwidth w' = sampwidth w /\ framerate w' = framerate w
    /\ frames_written w' = frames_written w
    /\ routine_bytes t = [] /\ iterations t = O
    /\ (r = Ok tt -> closed w' = true /\ In EWaveClose t).
Proof.
  unfold android_cleanup. intros H Hw.
  apply rbind_inv in H as [(t1 & s1 & [] & t2 & Hsr & H & ->)|(e & Hsr & ->)];
    apply stop_release_inv in Hsr as (-> & Hb1 & Hi1).
  2:{ exists w. stop_here. }
  destruct (wave_close_spec (a_wave_close env) w)
    as (P1 & P2 & P3 & P4 & P5 & P6).
  apply rbind_inv in H as [(t3 & s3 & [] & t4 & Hcl & H & ->)|(e & Hcl & ->)];
    apply (wf_close_inv _ _ _ _ _ w) in Hcl as (-> & Hself & Hwf & Hr);
    try exact Hw;
    exists (fst (wave_close (a_wave_close env) w));
    rewrite ?routine_bytes_app, ?iterations_app, Hb1, Hi1.
  - cbn in H. injection H as <- <- <-. stop_here.
    apply in_or_app. right. left. reflexivity.
  - stop_here.
Qed.

Lemma rtry_finally_inv {A} (m : R A) fin s t s' r :
  rtry_finally m fin s = Some (t, s', r) ->
  exists t1 s1 r1 t2 r2,
    m s = Some (t1, s1, r1) /\ fin s1 = Some (t2, s', r2) /\ t = t1 ++ t2
    /\ (is_ok r = true -> r2 = Ok tt)
    /\ (r2 = Ok tt -> r = r1).
Proof.
  unfold rtry_finally. destruct (m s) as [[[t1 s1] r1]|]; [|discriminate].
  destruct (fin s1) as [[[t2 s2] [[]|e]]|] eqn:E; [| |discriminate];
    intros [= <- <- <-]; exists t1, s1, r1, t2; eexists;
    (split; [reflexivity|]); (split; [exact E|]);
    (split; [reflexivity|]); split; cbn; congruence.
Qed.

Lemma rtry_except_inv {A} (m : R A) h s t s' r :
  rtry_except m h s = Some (t, s', r) ->
  (exists a, m s = Some (t, s', Ok a) /\ r = Ok a)
  \/ (exists e, m s = Some (t, s', Raise e) /\ r = Raise e
                /\ exn_is_Exception e = false)
  \/ (exists t1 s1 e t2,
        m s = Some (t1, s1, Raise e) /\ exn_is_Exception e = true
        /\ h e s1 = Some (t2, s', r) /\ t = t1 ++ t2).
Proof.
  unfold rtry_except. destruct (m s) as [[[t1 s1] [a|e]]|]; [| |discriminate].
  - intros [= <- <- <-]. left. eauto.
  - destruct (exn_is_Exception e) eqn:Ee.
    + destruct (h e s1) as [[[t2 s2] r2]|] eqn:Eh; [|discriminate].
      intros [= <- <- <-]. right. right. exists t1, s1, e, t2. auto.
    + intros [= <- <- <-]. right. left. eauto.
Qed.

Ltac call_inv H :=
  apply rbind_call_inv in H
    as [(? & ? & ? & H & ->)|(? & ? & -> & -> & ->)].

Ltac exit_none Hp Hb :=
  split; [exact Hp|left; split; [exact Hb|split; reflexivity]].

Ltac find_in :=
  repeat first [left; reflexivity | right].

(** What [_record_android_pcm] leaves behind, however it ends: either no
    [Wave_write] object, or one with the parameters of the app whose
    frames are the encoding of the samples written. *)
Lemma android_pcm_spec env fuel path s0 t s' r :
  _record_android_pcm env fuel path 16000 1 s0 = Some (t, s', r) ->
  rs_wf s0 = None ->
  wav_path (rs_self s') = wav_path (rs_self s0)
  /\ (rs_wf s' = None /\ routine_bytes t = [] /\ is_ok r = false
      \/ exists n w,
           rs_wf s' = Some w /\ configured path w
           /\ frames_written w = encode_s16le (android_samples env 0 n)
           /\ all_int16 (android_samples env 0 n)
           /\ (r = Ok tt ->
               routine_bytes t = frames_written w /\ closed w = true
               /\ In (EWaveOpen path) t /\ In (ESetNChannels 1) t
               /\ In (ESetSampWidth 2) t /\ In (ESetFramerate 16000) t
               /\ In EWaveClose t)).
Proof.
  unfold _record_android_pcm. intros H H0.
  do 7 (call_inv H; [|exit_none (eq_refl (wav_path (rs_self s0))) H0]).
  cbn [routine_bytes].
  apply rbind_inv in H as [(t1 & s1 & [] & t2 & Hset & H & ->)|(e & Hset & _)];
    [|discriminate].
  unfold set_buffer_size in Hset. injection Hset as <- <-.
  match type of H with
  | _ ?st = _ =>
      set (sb := st) in *;
      assert (Hb : rs_wf sb = None) by exact H0;
      assert (Hp : wav_path (rs_self sb) = wav_path (rs_self s0))
        by reflexivity;
      clearbody sb
  end.
  cbn [app].
  call_inv H; [|exit_none Hp Hb].
  call_inv H; [|exit_none Hp Hb].
  cbn [routine_bytes].
  destruct (negb _).
  { injection H as <- <- <-. exit_none Hp Hb. }
  apply rbind_inv in H as [(t1 & s1 & [] & t2 & Hop & H & ->)|(e & Hop & ->)];
    unfold wf_open in Hop; destruct (a_wave_open env) as [[]|e'];
    try discriminate; injection Hop as <- <-.
  2:{ exit_none Hp Hb. }
  apply rbind_inv in H as [(t1 & s1 & [] & t3 & Hc & H & ->)|(e & Hc & _)];
    cbn in Hc; [|discriminate]. injection Hc as <- <-.
  apply rbind_inv in H as [(t1 & s1 & [] & t4 & Hc & H & ->)|(e & Hc & _)];
    cbn in Hc; [|discriminate]. injection Hc as <- <-.
  apply rbind_inv in H as [(t1 & s1 & [] & t5 & Hc & H & ->)|(e & Hc & _)];
    cbn in Hc; [|discriminate]. injection Hc as <- <-.
  match type of H with
  | _ ?st = _ =>
      set (sc := st) in *;
      assert (Hc : exists w, rs_wf sc = Some w /\ configured path w
                             /\ frames_written w = [] )
        by (eexists; split; [reflexivity|repeat split]);
      assert (Hpc : wav_path (rs_self sc) = wav_path (rs_self s0))
        by exact Hp;
      clearbody sc
  end.
  destruct Hc as (w & Hw & Hcfg & Hfr).
  destruct Hcfg as (G1 & G2 & G3 & G4).
  cbn [app routine_bytes].
  call_inv H.
  2:{ split; [exact Hpc|right; exists O, w]. rewrite Hfr. stop_here. }
  call_inv H.
  2:{ split; [exact Hpc|right; exists O, w]. rewrite Hfr. stop_here. }
  unfold append_output in H. call_inv H; [|discriminate].
  cbn [routine_bytes].
  unfold android_capture in H.
  apply rtry_finally_inv in H
    as (t1 & s1 & r1 & t2' & r2 & Hloop & Hfin & -> & Hr2 & Hr1).
  destruct (android_loop_spec _ _ _ _ _ _ _ _ _ Hloop Hw)
    as (n & w1 & Q0 & Q1 & Q2 & Q3 & Q4 & Q5 & Q6 & Q7 & Q8 & Q9).
  destruct (android_cleanup_spec _ _ _ _ _ _ _ Hfin Q1)
    as (w2 & C0 & C1 & C2 & C3 & C4 & C5 & C6 & C7 & C8 & C9).
  split; [congruence|]. right. exists n, w2.
  rewrite Hfr in Q7. cbn [app] in Q7.
  split; [exact C1|]. split; [repeat split; congruence|].
  split; [congruence|]. split; [exact Q8|].
  intros ->. specialize (Hr2 eq_refl). specialize (Hr1 Hr2). subst r1.
  destruct (C9 Hr2) as [Hclosed Hin].
  rewrite routine_bytes_app, C7, app_nil_r, (Q9 eq_refl).
  split; [congruence|]. split; [exact Hclosed|].
  repeat split; try find_in.
  apply in_or_app. right. exact Hin.
Qed.

(** The desktop wait loop only sleeps. *)
Lemma desktop_loop_inv env : forall fuel k s t s' r,
  desktop_loop env fuel k s = Some (t, s', r) ->
  s' = s /\ r = Ok tt /\ routine_bytes t = [].
Proof.
  induction fuel as [|fuel IH]; intros k s t s' r H; [discriminate|].
  cbn [desktop_loop] in H. destruct (d_flag_at env k).
  - call_inv H; [|discriminate].
    destruct (IH _ _ _ _ _ H) as (-> & -> & Hb). auto.
  - injection H as <- <- <-. auto.
Qed.

Lemma desktop_samples_encode env :
  concat (map tobytes_int16 (collected_frames (callbacks env)))
  = encode_s16le (desktop_samples env).
Proof. unfold desktop_samples. rewrite encode_wrap. apply tobytes_concat. Qed.

Lemma desktop_samples_int16 env : all_int16 (desktop_samples env).
Proof.
  unfold desktop_samples, all_int16. apply List.Forall_forall.
  intros v Hv. apply in_map_iff in Hv as (u & <- & _).
  apply int16_wrap_range.
Qed.

(** What the desktop branch leaves behind, however it ends. *)
Lemma record_desktop_spec env fuel path s0 t s' r :
  record_desktop env fuel path 16000 1 2 s0 = Some (t, s', r) ->
  rs_wf s0 = None ->
  rs_self s' = rs_self s0
  /\ (rs_wf s' = None /\ routine_bytes t = []
      \/ exists w,
           rs_wf s' = Some w /\ configured path w
           /\ (frames_written w = encode_s16le (desktop_samples env)
               \/ frames_written w = [])
           /\ (r = Ok tt ->
               closed w = true
               /\ frames_written w = encode_s16le (desktop_samples env)
               /\ routine_bytes t = frames_written w)).
Proof.
  unfold record_desktop. intros H H0.
  unfold append_output in H at 1. call_inv H; [|discriminate].
  call_inv H; [|split; [reflexivity|left; split; [exact H0|reflexivity]]].
  cbn [routine_bytes].
  apply rbind_inv in H as [(t1 & s1 & [] & t2 & Hlp & H & ->)|(e & Hlp & ->)];
    apply rtry_finally_inv in Hlp
      as (tl & sl & rl & tc & rc & Hloop & Hcl & -> & _ & _);
    apply desktop_loop_inv in Hloop as (-> & -> & Hbl);
    cbn in Hcl; injection Hcl as <- <- <-;
    rewrite !routine_bytes_app, Hbl; cbn [routine_bytes app].
  2:{ split; [reflexivity|left; split; [exact H0|reflexivity]]. }
  rewrite desktop_samples_encode in H.
  apply rbind_inv in H as [(t1 & s1 & [] & t3 & Hop & H & ->)|(e & Hop & ->)];
    unfold wf_open in Hop; destruct (d_wave_open env) as [[]|e'];
    try discriminate; injection Hop as <- <-.
  2:{ split; [reflexivity|left; split; [exact H0|reflexivity]]. }
  cbn [routine_bytes app].
  apply rbind_inv in H as [(t1 & s1 & [] & t4 & Hw & H & ->)|(e & Hw & ->)];
    apply rtry_finally_inv in Hw
      as (tb & sb & rb & tc & rc & Hbody & Hcl & -> & Hrc & Hrb).
  - (* the [with wave.open] block returned *)
    cbn in H. injection H as <- <- <-.
    specialize (Hrc eq_refl). specialize (Hrb Hrc).
    unfold rbind at 1 in Hbody. cbn in Hbody.
    destruct (d_write env) as [[]|ew]; cbn in Hbody;
      injection Hbody as <- <- <-; [|discriminate].
    cbn in Hcl. destruct (d_wave_close env) as [[]|ec];
      injection Hcl as <- <- <-; [|discriminate].
    split; [reflexivity|]. right. eexists. split; [reflexivity|].
    cbn. rewrite !app_nil_r. repeat split; auto.
  - unfold rbind at 1 in Hbody. cbn in Hbody.
    destruct (d_write env) as [[]|ew]; cbn in Hbody;
      injection Hbody as <- <- <-;
      cbn in Hcl; destruct (d_wave_close env) as [[]|ec];
      injection Hcl as <- <- <-;
      (split; [reflexivity|]); right; (eexists; split; [reflexivity|]);
      cbn; repeat split; auto; discriminate.
Qed.

(** What the recording thread leaves behind, however it ends: no
    [Wave_write] object, or one for the temporary file stored in
    [self.wav_path], with the parameters of the app and frames that
    encode the captured samples. *)
Lemma record_worker_spec env fuel s0 t s' r :
  _record_worker env fuel s0 = Some (t, s', r) ->
  rs_wf s0 = None ->
  rs_wf s' = None
  \/ exists w path samples,
       rs_wf s' = Some w /\ mkstemp env = Ok path
       /\ wav_path (rs_self s') = Some path /\ configured path w
       /\ all_int16 samples /\ frames_written w = encode_s16le samples
       /\ (if ANDROID env
           then exists n, samples = android_samples (w_android env) 0 n
           else samples = desktop_samples (w_desktop env) \/ samples = []).
Proof.
  unfold _record_worker. intros H H0.
  call_inv H; [|left; exact H0]. rename x into path.
  call_inv H; [|left; exact H0].
  apply rbind_inv in H as [(t1 & s1 & [] & t2 & Hset & H & ->)|(e & Hset & _)];
    [|discriminate].
  unfold set_wav_path in Hset. injection Hset as <- <-.
  match type of H with
  | _ ?st = _ =>
      set (sp := st) in *;
      assert (Hb : rs_wf sp = None) by exact H0;
      assert (Hp : wav_path (rs_self sp) = Some path) by reflexivity;
      clearbody sp
  end.
  destruct (ANDROID env).
  - assert (Hin : forall ti si ri,
        rbind (rlift (append_output
           "Starting Android AudioRecord capture (16kHz, mono, 16-bit)."))
          (fun _ => _record_android_pcm (w_android env) fuel path 16000 1) sp
        = Some (ti, si, ri) ->
        rs_wf si = None
        \/ exists w samples,
             rs_wf si = Some w /\ wav_path (rs_self si) = Some path
             /\ configured path w /\ all_int16 samples
             /\ frames_written w = encode_s16le samples
             /\ exists n, samples = android_samples (w_android env) 0 n).
    { intros ti si ri Hi. unfold append_output in Hi.
      call_inv Hi; [|discriminate].
      destruct (android_pcm_spec _ _ _ _ _ _ _ Hi Hb)
        as (Hpath & [[Hn _]|(n & w & Hw & Hcfg & Hfr & Hall & _)]);
        [left; exact Hn|].
      right. exists w, (android_samples (w_android env) 0 n).
      split; [exact Hw|]. split; [congruence|]. split; [exact Hcfg|].
      split; [exact Hall|]. split; [exact Hfr|]. exists n. reflexivity. }
    apply rtry_except_inv in H
      as [(a & Hm & _)|[(e & Hm & _)|(tm & sm & e & th & Hm & _ & Hh & _)]].
    + destruct (Hin _ _ _ Hm) as [Hn|(w & smp & Hw & Hpw & Hcfg & Hall & Hfr & Hs)];
        [left; exact Hn|].
      right. exists w, path, smp. auto 8.
    + destruct (Hin _ _ _ Hm) as [Hn|(w & smp & Hw & Hpw & Hcfg & Hall & Hfr & Hs)];
        [left; exact Hn|].
      right. exists w, path, smp. auto 8.
    + cbn in Hh. injection Hh as <- <- <-.
      destruct (Hin _ _ _ Hm) as [Hn|(w & smp & Hw & Hpw & Hcfg & Hall & Hfr & Hs)];
        [left; exact Hn|].
      right. exists w, path, smp. auto 8.
  - destruct (negb (HAVE_DESKTOP_AUDIO env)).
    { cbn in H. injection H as <- <- <-. left; exact Hb. }
    assert (Hin : forall ti si ri,
        record_desktop (w_desktop env) fuel path 16000 1 2 sp
        = Some (ti, si, ri) ->
        rs_wf si = None
        \/ exists w samples,
             rs_wf si = Some w /\ wav_path (rs_self si) = Some path
             /\ configured path w /\ all_int16 samples
             /\ frames_written w = encode_s16le samples
             /\ (samples = desktop_samples (w_desktop env) \/ samples = [])).
    { intros ti si ri Hi.
      destruct (record_desktop_spec _ _ _ _ _ _ _ Hi Hb)
        as (Hself & [[Hn _]|(w & Hw & Hcfg & [Hfr|Hfr] & _)]);
        [left; exact Hn| |].
      - right. exists w, (desktop_samples (w_desktop env)).
        split; [exact Hw|]. split; [congruence|]. split; [exact Hcfg|].
        split; [apply desktop_samples_int16|]. split; [exact Hfr|].
        left; reflexivity.
      - right. exists w, [].
        split; [exact Hw|]. split; [congruence|]. split; [exact Hcfg|].
        split; [constructor|]. split; [exact Hfr|]. right; reflexivity. }
    apply rtry_except_inv in H
      as [(a & Hm & _)|[(e & Hm & _)|(tm & sm & e & th & Hm & _ & Hh & _)]].
    + destruct (Hin _ _ _ Hm) as [Hn|(w & smp & Hw & Hpw & Hcfg & Hall & Hfr & Hs)];
        [left; exact Hn|].
      right. exists w, path, smp. auto 8.
    + destruct (Hin _ _ _ Hm) as [Hn|(w & smp & Hw & Hpw & Hcfg & Hall & Hfr & Hs)];
        [left; exact Hn|].
      right. exists w, path, smp. auto 8.
    + cbn in Hh. injection Hh as <- <- <-.
      destruct (Hin _ _ _ Hm) as [Hn|(w & smp & Hw & Hpw & Hcfg & Hall & Hfr & Hs)];
        [left; exact Hn|].
      right. exists w, path, smp. auto 8.
Qed.

(** The bytes 20 to 35 of the file of a [Wave_write] object with the
    parameters of the app: PCM tag 1, 1 channel, 16000 frames per
    second, 32000 bytes per second, 2 bytes per frame, 16 bits per
    sample, all little-endian. *)
Lemma configured_header path w :
  configured path w ->
  firstn 16 (skipn 20 (wave_file_bytes w))
  = [1; 0; 1; 0; 128; 62; 0; 0; 0; 125; 0; 0; 2; 0; 16; 0].
Proof.
  intros (_ & H1 & H2 & H3). unfold wave_file_bytes, wave_header.
  rewrite H1, H2, H3. reflexivity.
Qed.

(** ** Who builds the container *)

Lemma wave_header_length w : length (wave_header w) = 44%nat.
Proof. reflexivity. Qed.

(** C7, as the code has it.  In a run of the Android routine that
    returns, the routine opens the file through [wave.open], sets the
    three header fields through the setters of the [wave] module, and
    closes it through [wf.close]; the only bytes it builds itself are
    the little-endian packings of the samples, two bytes each, which it
    hands to [writeframes].  The file is the 44-byte header that the
    [wave] module derives from the parameters, followed by those
    bytes. *)
Theorem C7_container_by_wave_module (env : android_env) (fuel : nat)
    (path : string) (s0 : rec_state) (t : list event) (s' : rec_state) :
  rs_wf s0 = None ->
  _record_android_pcm env fuel path 16000 1 s0 = Some (t, s', Ok tt) ->
  exists w n,
    rs_wf s' = Some w /\ closed w = true /\ configured path w
    /\ routine_bytes t = encode_s16le (android_samples env 0 n)
    /\ wave_file_bytes w = wave_header w ++ routine_bytes t
    /\ length (wave_header w) = 44%nat
    /\ In (EWaveOpen path) t /\ In (ESetNChannels 1) t
    /\ In (ESetSampWidth 2) t /\ In (ESetFramerate 16000) t
    /\ In EWaveClose t.
Proof.
  intros H0 Hrun.
  destruct (android_pcm_spec _ _ _ _ _ _ _ Hrun H0)
    as (_ & [(_ & _ & Hr)|(n & w & Hw & Hcfg & Hfr & _ & Hok)]);
    [discriminate|].
  destruct (Hok eq_refl) as (Hb & Hcl & I1 & I2 & I3 & I4 & I5).
  exists w, n. unfold wave_file_bytes. rewrite Hb.
  repeat split; try assumption; try apply Hcfg.
Qed.

Lemma C7_container_by_wave_module_witness :
  exists t n,
    routine_bytes t
    = encode_s16le (android_samples (android_ok 2 two_blocks) 0 n)
    /\ In (EWaveOpen "/tmp/rec_1.wav") t /\ In EWaveClose t.
Proof.
  assert (E : exists t s',
    _record_android_pcm (android_ok 2 two_blocks) 5 "/tmp/rec_1.wav"
      16000 1 (rec_init (init_widget btn0)) = Some (t, s', Ok tt)).
  { eexists. eexists. lazy. reflexivity. }
  destruct E as (t & s' & E).
  destruct (C7_container_by_wave_module (android_ok 2 two_blocks) 5
              "/tmp/rec_1.wav" (rec_init (init_widget btn0)) t s' eq_refl E)
    as (w & n & _ & _ & _ & Hb & _ & _ & I1 & _ & _ & _ & I5).
  exists t, n. auto.
Defined.

(** C7 as stated fails.  For two reads of 2 and 1 samples the routine
    hands 6 bytes to [writeframes]; the file is 50 bytes long, and its
    first 44 bytes, from [RIFF] to the data length, were never built by
    the routine: they come from the [wave] module. *)
Lemma C7_counterexample :
  option_map (fun x => (routine_bytes (fst (fst x)), rs_wf (snd (fst x)),
                        snd x))
    (_record_android_pcm (android_ok 2 two_blocks) 5 "/tmp/rec_1.wav"
       16000 1 (rec_init (init_widget btn0)))
  = Some ([1; 0; 254; 255; 0; 128], Some sample_wave, Ok tt)
  /\ wave_file_bytes sample_wave
     = [82; 73; 70; 70; 42; 0; 0; 0; 87; 65; 86; 69; 102; 109; 116; 32;
        16; 0; 0; 0; 1; 0; 1; 0; 128; 62; 0; 0; 0; 125; 0; 0; 2; 0; 16; 0;
        100; 97; 116; 97; 6; 0; 0; 0; 1; 0; 254; 255; 0; 128]
  /\ ~ routine_builds_container.
Proof.
  split; [vm_compute; reflexivity|]. split; [vm_compute; reflexivity|].
  intros H.
  assert (E : exists t s',
    _record_android_pcm (android_ok 2 two_blocks) 5 "/tmp/rec_1.wav"
      16000 1 (rec_init (init_widget btn0)) = Some (t, s', Ok tt)
    /\ rs_wf s' = Some sample_wave
    /\ routine_bytes t = [1; 0; 254; 255; 0; 128]).
  { eexists. eexists. split; [lazy; reflexivity|]. split; reflexivity. }
  destruct E as (t & s' & E & Hw & Hb).
  specialize (H (android_ok 2 two_blocks) 5%nat "/tmp/rec_1.wav"
                (rec_init (init_widget btn0)) t s' sample_wave eq_refl E Hw).
  rewrite Hb in H.
  vm_compute in H. discriminate.
Qed.

(** ** The loops and the flag *)

Lemma rbind_step {A B} (m : R A) (f : A -> R B) s t1 s1 a t2 s2 r :
  m s = Some (t1, s1, Ok a) -> f a s1 = Some (t2, s2, r) ->
  rbind m f s = Some (t1 ++ t2, s2, r).
Proof. unfold rbind. intros -> ->. reflexivity. Qed.

Lemma rbind_stop {A B} (m : R A) (f : A -> R B) s t1 s1 e :
  m s = Some (t1, s1, Raise e) -> rbind m f s = Some (t1, s1, Raise e).
Proof. unfold rbind. intros ->. reflexivity. Qed.

Lemma wf_call_runs ev f s :
  exists s' r, wf_call ev f s = Some ([ev], s', r).
Proof.
  unfold wf_call. destruct (rs_wf s) as [w|]; [destruct (f w)|]; eauto.
Qed.

(** When the [n]-th test is the first to read a false flag, the Android
    loop returns after at most [n] iterations, and after exactly [n]
    when it returns without an exception. *)
Lemma android_loop_terminates env chunk n : forall d k fuel s,
  (k + d = n)%nat ->
  (forall j, (k <= j < n)%nat -> a_flag_at env j = true) ->
  a_flag_at env n = false ->
  (d < fuel)%nat ->
  exists t s' r,
    android_loop env fuel k chunk s = Some (t, s', r)
    /\ (iterations t <= d)%nat
    /\ (r = Ok tt -> iterations t = d).
Proof.
  induction d as [|d IH]; intros k fuel s Hk Htrue Hfalse Hfuel;
    (destruct fuel as [|fuel]; [lia|]); cbn [android_loop].
  - replace k with n by lia. rewrite Hfalse.
    exists [], s, (Ok tt). auto.
  - rewrite (Htrue k) by lia.
    destruct (read_at env k) as [[read buf]|e] eqn:Hread.
    2:{ exists [EArRead chunk], s, (Raise e). split.
        - apply rbind_stop. reflexivity.
        - split; [unfold iterations; cbn; lia|discriminate]. }
    destruct (read >? 0) eqn:Hpos.
    + destruct (pack_samples (Z.to_nat read) buf) as [b|e] eqn:Hpack.
      2:{ exists [EArRead chunk], s, (Raise e). split.
          - erewrite rbind_step; [|reflexivity|]; cycle 1.
            + cbn beta iota. rewrite Hpos. apply rbind_stop.
              unfold rlift. cbn. rewrite Hpack. reflexivity.
            + reflexivity.
          - split; [unfold iterations; cbn; lia|discriminate]. }
      destruct (wf_call_runs (EWriteFrames b) (writeframes (a_write_at env k) b) s)
        as (sw & rw & Hwr).
      destruct rw as [[]|e].
      * destruct (IH (S k) fuel sw ltac:(lia) ltac:(intros; apply Htrue; lia)
                    Hfalse ltac:(lia)) as (t & s' & r & Hrun & Hle & Heq).
        exists (EArRead chunk :: EWriteFrames b :: t), s', r. split.
        -- erewrite rbind_step; [|reflexivity|]; cycle 1.
           ++ cbn beta iota. rewrite Hpos.
              erewrite rbind_step; [|unfold rlift; cbn; rewrite Hpack; reflexivity|].
              ** reflexivity.
              ** erewrite rbind_step; [|exact Hwr|exact Hrun]. reflexivity.
           ++ reflexivity.
        -- unfold iterations in *. split; [cbn in *; lia|]. intros Hr. specialize (Heq Hr). cbn in *. lia.
      * exists [EArRead chunk; EWriteFrames b], sw, (Raise e). split.
        -- erewrite rbind_step; [|reflexivity|]; cycle 1.
           ++ cbn beta iota. rewrite Hpos.
              erewrite rbind_step; [|unfold rlift; cbn; rewrite Hpack; reflexivity|].
              ** reflexivity.
              ** apply rbind_stop. exact Hwr.
           ++ reflexivity.
        -- split; [unfold iterations; cbn; lia|discriminate].
    + destruct (IH (S k) fuel s ltac:(lia) ltac:(intros; apply Htrue; lia)
                  Hfalse ltac:(lia)) as (t & s' & r & Hrun & Hle & Heq).
      exists (EArRead chunk :: ESleep 10 :: t), s', r. split.
      * erewrite rbind_step; [|reflexivity|]; cycle 1.
        -- cbn beta iota. rewrite Hpos.
           erewrite rbind_step; [|reflexivity|exact Hrun]. reflexivity.
        -- reflexivity.
      * unfold iterations in *. split; [cbn in *; lia|]. intros Hr. specialize (Heq Hr). cbn in *. lia.
Qed.

(** The desktop wait loop returns at the first test that reads a false
    flag, having slept once per earlier test. *)
Lemma desktop_loop_terminates env n : forall d k fuel s,
  (k + d = n)%nat ->
  (forall j, (k <= j < n)%nat -> d_flag_at env j = true) ->
  d_flag_at env n = false ->
  (d < fuel)%nat ->
  desktop_loop env fuel k s = Some (repeat (ESleep 50) d, s, Ok tt).
Proof.
  induction d as [|d IH]; intros k fuel s Hk Htrue Hfalse Hfuel;
    (destruct fuel as [|fuel]; [lia|]); cbn [desktop_loop].
  - replace k with n by lia. rewrite Hfalse. reflexivity.
  - rewrite (Htrue k) by lia.
    erewrite rbind_step; [|reflexivity|].
    + reflexivity.
    + apply IH; try assumption; try lia. intros; apply Htrue; lia.
Qed.

(** It has no other exit: while the tests read true it keeps going, for
    any budget. *)
Lemma desktop_loop_runs env : forall fuel k s,
  (forall j, (k <= j < k + fuel)%nat -> d_flag_at env j = true) ->
  desktop_loop env fuel k s = None.
Proof.
  induction fuel as [|fuel IH]; intros k s Htrue; [reflexivity|].
  cbn [desktop_loop]. rewrite (Htrue k) by lia.
  unfold rbind. cbn. rewrite IH; [reflexivity|].
  intros j Hj. apply Htrue. lia.
Qed.

(** The [finally] block when [stop] and [release] raise nothing outside
    [Exception]: [stop] is called, [release] is called if [stop]
    returned, and the file is closed in either case. *)
Lemma android_cleanup_runs env path s w :
  rs_wf s = Some w ->
  (forall e, ar_stop env = Raise e \/ ar_release env = Raise e ->
             exn_is_Exception e = true) ->
  exists rest s' r w',
    android_cleanup env path s
    = Some (EArStop :: (if is_ok (ar_stop env) then [EArRelease] else [])
              ++ EWaveClose :: rest, s', r)
    /\ rs_wf s' = Some w' /\ closed w' = true
    /\ frames_written w' = frames_written w.
Proof.
  intros Hw Hexn.
  destruct (wave_close_spec (a_wave_close env) w) as (_ & _ & _ & _ & P5 & P6).
  unfold android_cleanup, rbind, rtry_except, rlift, call, rret, wf_close,
    append_output.
  destruct (ar_stop env) as [[]|e1] eqn:E1; cbn.
  - destruct (ar_release env) as [[]|e2] eqn:E2; cbn.
    + rewrite Hw.
      destruct (wave_close (a_wave_close env) w) as [w' [[]|ec]];
        cbn in *; eexists _, _, _, w'; (split; [reflexivity|]);
        repeat split; try assumption;
        reflexivity.
    + rewrite (Hexn e2) by auto. cbn. rewrite Hw.
      destruct (wave_close (a_wave_close env) w) as [w' [[]|ec]];
        cbn in *; eexists _, _, _, w'; (split; [reflexivity|]);
        repeat split; try assumption;
        reflexivity.
  - rewrite (Hexn e1) by auto. cbn. rewrite Hw.
    destruct (wave_close (a_wave_close env) w) as [w' [[]|ec]];
      cbn in *; eexists _, _, _, w'; (split; [reflexivity|]);
        repeat split; try assumption;
      reflexivity.
Qed.

(** Both loops test [self.recording] before every iteration and have no
    other exit condition.  When the [na]-th test of the Android loop is
    the first to read false, the loop returns after at most [na]
    iterations, exactly [na] when no read/pack/write step raised; the
    [finally] block then calls [ar.stop()] and closes the WAV file.  The
    desktop wait loop returns at the first test that reads false, and
    does not return while the tests read true. *)
Lemma loops_end_with_the_flag (aenv : android_env)
    (denv : desktop_env) (na nd fuel : nat) (chunk_size : Z) (path : string)
    (s : rec_state) (w : Wave_write) :
  first_false (a_flag_at aenv) na ->
  first_false (d_flag_at denv) nd ->
  (na < fuel)%nat -> (nd < fuel)%nat ->
  rs_wf s = Some w ->
  (forall e, ar_stop aenv = Raise e \/ ar_release aenv = Raise e ->
             exn_is_Exception e = true) ->
  (exists tl sl rl cleanup s' r w',
      android_loop aenv fuel 0 chunk_size s = Some (tl, sl, rl)
      /\ (iterations tl <= na)%nat
      /\ (rl = Ok tt -> iterations tl = na)
      /\ android_capture aenv fuel chunk_size path s
         = Some (tl ++ cleanup, s', r)
      /\ In EArStop cleanup /\ In EWaveClose cleanup
      /\ rs_wf s' = Some w' /\ closed w' = true)
  /\ desktop_loop denv fuel 0 s = Some (repeat (ESleep 50) nd, s, Ok tt)
  /\ (forall fuel',
        (forall k, (k < fuel')%nat -> d_flag_at denv k = true) ->
        desktop_loop denv fuel' 0 s = None).
Proof.
  intros [Hat Haf] [Hdt Hdf] Hna Hnd Hw Hexn. split; [|split].
  - destruct (android_loop_terminates aenv chunk_size na na 0 fuel s
                eq_refl ltac:(intros; apply Hat; lia) Haf Hna)
      as (tl & sl & rl & Hloop & Hle & Heq).
    destruct (android_loop_spec _ _ _ _ _ _ _ _ _ Hloop Hw)
      as (n & w1 & _ & Hw1 & _).
    destruct (android_cleanup_runs aenv path sl w1 Hw1 Hexn)
      as (rest & s' & rc & w' & Hcl & Hw' & Hclosed & _).
    exists tl, sl, rl. eexists. exists s'.
    exists (match rc with Ok _ => rl | Raise e => Raise e end), w'.
    split; [exact Hloop|]. split; [exact Hle|]. split; [exact Heq|].
    split.
    { unfold android_capture, rtry_finally. rewrite Hloop, Hcl.
      destruct rc as [[]|e]; reflexivity. }
    split; [left; reflexivity|].
    split; [right; apply in_or_app; right; left; reflexivity|].
    split; assumption.
  - apply (desktop_loop_terminates denv nd nd 0 fuel s eq_refl); try assumption.
    intros; apply Hdt; lia.
  - intros fuel' Htrue. apply desktop_loop_runs.
    intros j Hj. apply Htrue. lia.
Qed.

(** C4: the code at the failing input.  The recording flag is false at
    the first test of the loop, so the loop ends at once, and
    [ar.stop()] raises.  The [finally] block swallows the exception
    together with the call of [ar.release()] that follows it in the
    same [try], closes the file and reports it saved; the routine
    returns normally and the recorder was never released.  So "once the
    flag is false the recorder is stopped and released and the file
    closed" does not hold of every run. *)
Theorem C4_stop_raising_skips_release :
  first_false (a_flag_at stop_fails) 0
  /\ ar_stop stop_fails = Raise IllegalStateException
  /\ option_map (fun x => (fst (fst x), snd x))
       (android_capture stop_fails 1 640 "/tmp/rec_1.wav"
          (capture_state "/tmp/rec_1.wav"))
     = Some ([EArStop; EWaveClose;
              EAppendOutput "Saved WAV to: /tmp/rec_1.wav"], Ok tt)
  /\ (forall t s' r,
        _record_android_pcm stop_fails 1 "/tmp/rec_1.wav" 16000 1
          (rec_init (init_widget btn0)) = Some (t, s', r) ->
        r = Ok tt /\ In EArStop t /\ In EWaveClose t /\ ~ In EArRelease t)
  /\ ~ flag_false_stops_releases_closes.
Proof.
  assert (Hff : first_false (a_flag_at stop_fails) 0)
    by (split; [intros k Hk; lia|reflexivity]).
  split; [exact Hff|]. split; [reflexivity|].
  split; [vm_compute; reflexivity|]. split.
  - intros t s' r Hrun. vm_compute in Hrun. injection Hrun as <- _ <-.
    split; [reflexivity|]. split; [find_in|]. split; [find_in|].
    intros Hin.
    repeat (destruct Hin as [Hin|Hin]; [discriminate|]). exact Hin.
  - intros H.
    destruct (H stop_fails 0%nat 1%nat 640 "/tmp/rec_1.wav"
                (capture_state "/tmp/rec_1.wav") (fresh_wave "/tmp/rec_1.wav")
                Hff ltac:(lia) eq_refl)
      as (t & s' & r & Hrun & _ & _ & Hrel & _).
    vm_compute in Hrun. injection Hrun as <- _ _.
    repeat (destruct Hrel as [Hrel|Hrel]; [discriminate|]). exact Hrel.
Qed.

(** The loop also ends early when a step raises: here the first read
    fails while the flag would stay true for three tests. *)
Example read_error_ends_the_loop :
  option_map (fun x => (fst (fst x), snd x))
    (android_capture read_fails 5 640 "/tmp/rec_1.wav"
       (capture_state "/tmp/rec_1.wav"))
  = Some ([EArRead 640; EArStop; EArRelease; EWaveClose;
           EAppendOutput "Saved WAV to: /tmp/rec_1.wav"],
          Raise IllegalStateException).
Proof. vm_compute. reflexivity. Qed.

(** ** The format of the recording *)

Lemma with_frames_app w a b :
  with_frames (with_frames w a) b = with_frames w (a ++ b).
Proof. unfold with_frames. cbn. rewrite app_assoc. reflexivity. Qed.

Lemma with_frames_nil w : with_frames w [] = w.
Proof. destruct w. unfold with_frames. cbn. rewrite app_nil_r. reflexivity. Qed.

(** When its [n - k] remaining iterations go through, the Android loop
    returns normally and the file object holds the samples of each. *)
Lemma android_loop_clean env chunk n : forall d k fuel s w,
  (k + d = n)%nat ->
  (forall j, (k <= j < n)%nat -> a_flag_at env j = true) ->
  a_flag_at env n = false ->
  (d < fuel)%nat ->
  (forall j, (k <= j < n)%nat -> clean_read env j) ->
  rs_wf s = Some w -> params_set w = Ok tt ->
  exists t s',
    android_loop env fuel k chunk s = Some (t, s', Ok tt)
    /\ rs_self s' = rs_self s
    /\ rs_wf s'
       = Some (with_frames w (encode_s16le (android_samples env k d))).
Proof.
  induction d as [|d IH]; intros k fuel s w Hk Htrue Hfalse Hfuel Hreads Hw Hps;
    (destruct fuel as [|fuel]; [lia|]); cbn [android_loop].
  - replace k with n by lia. rewrite Hfalse.
    exists [], s. cbn. rewrite with_frames_nil. auto.
  - rewrite (Htrue k) by lia.
    destruct (Hreads k ltac:(lia)) as (read & buf & Hread & Hgood).
    cbn [android_samples]. rewrite Hread. cbn [block_samples].
    destruct (read >? 0) eqn:Hpos.
    + destruct (Hgood ltac:(lia)) as (Hlen & Hall & Hwr).
      pose proof (pack_samples_complete _ _ Hlen Hall) as Hpack.
      set (b := encode_s16le (firstn (Z.to_nat read) buf)) in *.
      assert (Hcall : wf_call (EWriteFrames b)
                        (writeframes (a_write_at env k) b) s
                      = Some ([EWriteFrames b],
                              {| rs_self := rs_self s;
                                 rs_wf := Some (with_frames w b) |}, Ok tt)).
      { unfold wf_call, writeframes. rewrite Hw, Hps, Hwr. reflexivity. }
      destruct (IH (S k) fuel
                  {| rs_self := rs_self s; rs_wf := Some (with_frames w b) |}
                  (with_frames w b) ltac:(lia)
                  ltac:(intros; apply Htrue; lia) Hfalse ltac:(lia)
                  ltac:(intros; apply Hreads; lia) eq_refl Hps)
        as (t & s' & Hrun & Hself & Hwf).
      exists (EArRead chunk :: EWriteFrames b :: t), s'. split.
      * erewrite rbind_step; [|reflexivity|]; cycle 1.
        -- cbn beta iota. rewrite Hpos.
           erewrite rbind_step;
             [|unfold rlift; cbn; rewrite Hpack; reflexivity|].
           ++ reflexivity.
           ++ erewrite rbind_step; [|exact Hcall|exact Hrun]. reflexivity.
        -- reflexivity.
      * split; [exact Hself|].
        rewrite Hwf, with_frames_app, encode_app. reflexivity.
    + destruct (IH (S k) fuel s w ltac:(lia)
                  ltac:(intros; apply Htrue; lia) Hfalse ltac:(lia)
                  ltac:(intros; apply Hreads; lia) Hw Hps)
        as (t & s' & Hrun & Hself & Hwf).
      exists (EArRead chunk :: ESleep 10 :: t), s'. split.
      * erewrite rbind_step; [|reflexivity|]; cycle 1.
        -- cbn beta iota. rewrite Hpos.
           erewrite rbind_step; [|reflexivity|exact Hrun]. reflexivity.
        -- reflexivity.
      * split; [exact Hself|]. exact Hwf.
Qed.

Lemma clean_samples_int16 env n : forall d k,
  (k + d = n)%nat ->
  (forall j, (k <= j < n)%nat -> clean_read env j) ->
  all_int16 (android_samples env k d).
Proof.
  induction d as [|d IH]; intros k Hk Hreads; [constructor|].
  cbn [android_samples]. apply Forall_app. split.
  - destruct (Hreads k ltac:(lia)) as (read & buf & Hread & Hgood).
    rewrite Hread. cbn [block_samples].
    destruct (read >? 0) eqn:Hpos; [|constructor].
    apply (Hgood ltac:(lia)).
  - apply IH; [lia|]. intros; apply Hreads; lia.
Qed.

(** The [finally] block when [stop] and [release] raise nothing outside
    [Exception] and the file can be closed: it never raises, and leaves
    the file object closed. *)
Lemma android_cleanup_ok env path s w :
  rs_wf s = Some w -> params_set w = Ok tt ->
  (forall e, ar_stop env = Raise e \/ ar_release env = Raise e ->
             exn_is_Exception e = true) ->
  a_wave_close env = Ok tt ->
  exists t,
    android_cleanup env path s
    = Some (t, {| rs_self := rs_self s;
                  rs_wf := Some (fst (wave_close (Ok tt) w)) |}, Ok tt)
    /\ In (EAppendOutput ("Saved WAV to: " +:+ path)) t.
Proof.
  intros Hw Hps Hexn Hclose.
  unfold android_cleanup, rbind, rtry_except, rlift, call, rret, wf_close,
    append_output.
  rewrite Hclose.
  destruct (ar_stop env) as [[]|e1] eqn:E1; cbn.
  - destruct (ar_release env) as [[]|e2] eqn:E2; cbn.
    + rewrite Hw. unfold wave_close. rewrite Hps. cbn.
      eexists. split; [reflexivity|find_in].
    + rewrite (Hexn e2) by auto. cbn. rewrite Hw. unfold wave_close.
      rewrite Hps. cbn. eexists. split; [reflexivity|find_in].
  - rewrite (Hexn e1) by auto. cbn. rewrite Hw. unfold wave_close.
    rewrite Hps. cbn. eexists. split; [reflexivity|find_in].
Qed.

(** The [try: while ... finally: ...] statement of a recording that
    completes. *)
Lemma android_capture_completes env n fuel chunk path s w :
  first_false (a_flag_at env) n ->
  (forall k, (k < n)%nat -> clean_read env k) ->
  (forall e, ar_stop env = Raise e \/ ar_release env = Raise e ->
             exn_is_Exception e = true) ->
  a_wave_close env = Ok tt ->
  (n < fuel)%nat ->
  rs_wf s = Some w -> params_set w = Ok tt ->
  exists t s',
    android_capture env fuel chunk path s = Some (t, s', Ok tt)
    /\ rs_self s' = rs_self s
    /\ rs_wf s'
       = Some (fst (wave_close (Ok tt)
                      (with_frames w
                         (encode_s16le (android_samples env 0 n)))))
    /\ In (EAppendOutput ("Saved WAV to: " +:+ path)) t.
Proof.
  intros [Htrue Hfalse] Hreads Hexn Hclose Hfuel Hw Hps.
  destruct (android_loop_clean env chunk n n 0 fuel s w eq_refl
              ltac:(intros; apply Htrue; lia) Hfalse Hfuel
              ltac:(intros; apply Hreads; lia) Hw Hps)
    as (tl & sl & Hloop & Hself & Hwf).
  destruct (android_cleanup_ok env path sl _ Hwf Hps Hexn Hclose)
    as (tc & Hcl & Hin).
  eexists. eexists. split.
  { unfold android_capture, rtry_finally. rewrite Hloop, Hcl. reflexivity. }
  split; [exact Hself|]. split; [reflexivity|].
  apply in_or_app. right. exact Hin.
Qed.

Lemma android_pcm_completes env n fuel path s :
  android_completes env n -> (n < fuel)%nat ->
  exists t s' w,
    _record_android_pcm env fuel path 16000 1 s = Some (t, s', Ok tt)
    /\ wav_path (rs_self s') = wav_path (rs_self s)
    /\ rs_wf s' = Some w /\ closed w = true /\ configured path w
    /\ frames_written w = encode_s16le (android_samples env 0 n)
    /\ In (EAppendOutput ("Saved WAV to: " +:+ path)) t.
Proof.
  intros (Hauto & [mb Hmin] & Hnew & Hst & Hopen & Hjar & Hstart & Hff
          & Hreads & Hexn & Hclose) Hfuel.
  unfold _record_android_pcm, rbind, rlift, call, set_buffer_size, wf_open,
    wf_call, append_output.
  rewrite !Hauto, Hmin, Hnew, Hst, Hopen, Hjar, Hstart.
  cbn -[android_capture Z.div].
  match goal with
  | |- context [android_capture env fuel ?c path ?S] =>
      destruct (android_capture_completes env n fuel c path S _
                  Hff Hreads Hexn Hclose Hfuel eq_refl eq_refl)
        as (tc & sc & Hcap & Hself & Hwf & Hin)
  end.
  rewrite Hcap. eexists. eexists. eexists.
  split; [reflexivity|]. rewrite Hself. split; [reflexivity|].
  split; [exact Hwf|].
  split; [reflexivity|]. split; [repeat split|]. split; [reflexivity|].
  do 16 right. exact Hin.
Qed.

Lemma record_desktop_completes env n fuel path s :
  desktop_completes env n -> (n < fuel)%nat ->
  exists t s' w,
    record_desktop env fuel path 16000 1 2 s = Some (t, s', Ok tt)
    /\ rs_self s' = rs_self s
    /\ rs_wf s' = Some w /\ closed w = true /\ configured path w
    /\ frames_written w = encode_s16le (desktop_samples env)
    /\ In (EAppendOutput ("Saved WAV to: " +:+ path)) t.
Proof.
  intros (Hso & Hsc & [Htrue Hfalse] & Hopen & Hwr & Hclose) Hfuel.
  pose proof (desktop_loop_terminates env n n 0 fuel s eq_refl
                ltac:(intros; apply Htrue; lia) Hfalse Hfuel) as Hloop.
  unfold record_desktop, rbind, rlift, call, rtry_finally, append_output,
    wf_open, wf_call, wf_close.
  rewrite Hso, Hsc, Hopen, Hwr, Hclose.
  cbn -[desktop_loop]. rewrite Hloop. cbn.
  eexists. eexists. eexists.
  split; [reflexivity|]. split; [reflexivity|]. split; [reflexivity|].
  split; [reflexivity|]. split; [repeat split|].
  split; [apply desktop_samples_encode|].
  right. right. apply in_or_app. right. find_in.
Qed.

(** The worker on a recording that completes. *)
Lemma record_worker_completes env fuel self path n :
  mkstemp env = Ok path -> os_close env = Ok tt ->
  recording_completes env n -> (n < fuel)%nat ->
  exists t s' w,
    _record_worker env fuel (rec_init self) = Some (t, s', Ok tt)
    /\ In (EAppendOutput ("Saved WAV to: " +:+ path)) t
    /\ wav_path (rs_self s') = Some path
    /\ rs_wf s' = Some w /\ closed w = true /\ configured path w
    /\ frames_written w = encode_s16le (captured_samples env n)
    /\ all_int16 (captured_samples env n).
Proof.
  intros Hmk Hcl Hrec Hfuel.
  unfold recording_completes, captured_samples in *.
  unfold _record_worker, rbind, rlift, call, set_wav_path, rtry_except,
    append_output.
  rewrite Hmk, Hcl. destruct (ANDROID env).
  - cbn -[_record_android_pcm].
    match goal with
    | |- context [_record_android_pcm _ fuel path 16000 1 ?S] =>
        destruct (android_pcm_completes (w_android env) n fuel path S
                    Hrec Hfuel)
          as (t & s' & w & Hrun & Hp & Hw & Hclosed & Hcfg & Hfr & Hin)
    end.
    rewrite Hrun. exists (EMkstemp "rec_" ".wav" :: EOsClose
      :: EAppendOutput
           "Starting Android AudioRecord capture (16kHz, mono, 16-bit)."
      :: t), s', w.
    split; [reflexivity|]. split; [do 3 right; exact Hin|].
    split; [rewrite Hp; reflexivity|].
    repeat (split; [assumption|]).
    destruct Hrec as (_ & _ & _ & _ & _ & _ & _ & _ & Hreads & _).
    apply (clean_samples_int16 (w_android env) n n 0 eq_refl).
    intros; apply Hreads; lia.
  - destruct Hrec as [Hhave Hrec]. rewrite Hhave.
    cbn -[record_desktop].
    match goal with
    | |- context [record_desktop _ fuel path 16000 1 2 ?S] =>
        destruct (record_desktop_completes (w_desktop env) n fuel path S
                    Hrec Hfuel)
          as (t & s' & w & Hrun & Hself & Hw & Hclosed & Hcfg & Hfr & Hin)
    end.
    rewrite Hrun.
    exists (EMkstemp "rec_" ".wav" :: EOsClose :: t), s', w.
    split; [reflexivity|]. split; [do 2 right; exact Hin|].
    split; [rewrite Hself; reflexivity|].
    repeat (split; [assumption|]).
    apply desktop_samples_int16.
Qed.

(** C1: on both paths, a recording that completes leaves a closed WAV
    file with 1 channel, a sample width of 2 bytes and a frame rate of
    16000, which is what its header says, whose data is exactly the
    captured samples, each as a little-endian signed 16-bit integer, in
    order: on Android the first [read] entries of the buffer of every
    iteration before the flag read false, on the desktop the blocks the
    callback collected.  And whatever the run, a file it leaves closed
    has these parameters and holds such an encoding. *)
Theorem C1_wav_format (env : worker_env) (fuel : nat) (self : RootWidget) :
  (forall path n,
     mkstemp env = Ok path -> os_close env = Ok tt ->
     recording_completes env n -> (n < fuel)%nat ->
     exists t s' w,
       _record_worker env fuel (rec_init self) = Some (t, s', Ok tt)
       /\ In (EAppendOutput ("Saved WAV to: " +:+ path)) t
       /\ wav_path (rs_self s') = Some path
       /\ rs_wf s' = Some w /\ closed w = true /\ wf_path w = path
       /\ nchannels w = 1 /\ sampwidth w = 2 /\ framerate w = 16000
       /\ frames_written w = encode_s16le (captured_samples env n)
       /\ decode_s16le (frames_written w) = captured_samples env n
       /\ length (frames_written w)
          = (2 * length (captured_samples env n))%nat
       /\ wave_file_bytes w
          = wave_header w ++ encode_s16le (captured_samples env n)
       /\ firstn 16 (skipn 20 (wave_file_bytes w))
          = [1; 0; 1; 0; 128; 62; 0; 0; 0; 125; 0; 0; 2; 0; 16; 0])
  /\ (forall t s' r w,
        _record_worker env fuel (rec_init self) = Some (t, s', r) ->
        rs_wf s' = Some w ->
        closed w = true ->
        nchannels w = 1 /\ sampwidth w = 2 /\ framerate w = 16000
        /\ firstn 16 (skipn 20 (wave_file_bytes w))
           = [1; 0; 1; 0; 128; 62; 0; 0; 0; 125; 0; 0; 2; 0; 16; 0]
        /\ exists samples,
             all_int16 samples
             /\ frames_written w = encode_s16le samples
             /\ decode_s16le (frames_written w) = samples
             /\ (if ANDROID env
                 then exists n, samples = android_samples (w_android env) 0 n
                 else samples = desktop_samples (w_desktop env)
                      \/ samples = [])).
Proof.
  split.
  - intros path n Hmk Hcl Hrec Hfuel.
    destruct (record_worker_completes env fuel self path n Hmk Hcl Hrec Hfuel)
      as (t & s' & w & Hrun & Hin & Hp & Hw & Hclosed & Hcfg & Hfr & Hall).
    pose proof (configured_header _ _ Hcfg) as Hh.
    destruct Hcfg as (H0 & H1 & H2 & H3).
    exists t, s', w. repeat (split; [assumption|]).
    split; [rewrite Hfr; apply decode_encode; exact Hall|].
    split; [rewrite Hfr; apply encode_length|].
    split; [unfold wave_file_bytes; rewrite Hfr; reflexivity|exact Hh].
  - intros t s' r w Hrun Hw _.
    destruct (record_worker_spec _ _ _ _ _ _ Hrun eq_refl)
      as [Hn|(w' & path & smp & Hw' & _ & _ & Hcfg & Hall & Hfr & Hs)];
      [congruence|].
    assert (w' = w) as -> by congruence.
    pose proof (configured_header _ _ Hcfg) as Hh.
    destruct Hcfg as (_ & H1 & H2 & H3).
    repeat (split; [assumption|]).
    exists smp. repeat split; try assumption.
    rewrite Hfr. apply decode_encode. exact Hall.
Qed.

(** Two blocks on Android, and two callbacks on the desktop of which the
    second reads a false flag: the files hold the samples delivered. *)
Lemma C1_wav_format_witness :
  (exists t s' w,
     _record_worker (worker_on true 2 two_blocks []) 5
       (rec_init (init_widget btn0)) = Some (t, s', Ok tt)
     /\ rs_wf s' = Some w /\ closed w = true
     /\ frames_written w = [1; 0; 254; 255; 0; 128])
  /\ (exists t s' w,
        _record_worker
          (worker_on false 2 two_blocks [(true, [3; -1]); (false, [9])]) 5
          (rec_init (init_widget btn0)) = Some (t, s', Ok tt)
        /\ rs_wf s' = Some w /\ closed w = true
        /\ frames_written w = [3; 0; 255; 255]).
Proof.
  split.
  - destruct (C1_wav_format (worker_on true 2 two_blocks []) 5
                (init_widget btn0)) as [H _].
    destruct (H "/tmp/rec_1.wav" 2%nat eq_refl eq_refl)
      as (t & s' & w & Hrun & _ & _ & Hw & Hcl & _ & _ & _ & _ & Hfr & _).
    + repeat split; try reflexivity.
      * eexists; reflexivity.
      * intros [|[|k]] Hk; try reflexivity; lia.
      * intros [|[|k]] Hk; [| |lia].
        -- exists 2, [1; -2; 0]. split; [reflexivity|]. intros _.
           split; [cbn; lia|]. split; [repeat constructor|reflexivity].
        -- exists 1, [-32768; 7; 7]. split; [reflexivity|]. intros _.
           split; [cbn; lia|]. split; [repeat constructor|reflexivity].
      * intros e [He|He]; discriminate.
    + lia.
    + exists t, s', w. auto.
  - destruct (C1_wav_format
                (worker_on false 2 two_blocks [(true, [3; -1]); (false, [9])])
                5 (init_widget btn0)) as [H _].
    destruct (H "/tmp/rec_1.wav" 2%nat eq_refl eq_refl)
      as (t & s' & w & Hrun & _ & _ & Hw & Hcl & _ & _ & _ & _ & Hfr & _).
    + repeat split; try reflexivity.
      intros [|[|k]] Hk; try reflexivity; lia.
    + lia.
    + exists t, s', w. auto.
Defined.

(** * Further properties *)

(** ** The output box *)

Lemma ui_apply_frame t : forall self,
  audio_thread (ui_apply t self) = audio_thread self
  /\ recording (ui_apply t self) = recording self
  /\ wav_path (ui_apply t self) = wav_path self
  /\ _buffer_size (ui_apply t self) = _buffer_size self
  /\ record_btn (ui_apply t self) = record_btn self
  /\ api_key_text (ui_apply t self) = api_key_text self.
Proof.
  induction t as [|ev t IH]; intros self; [repeat split|].
  destruct ev; cbn [ui_apply]; try apply IH.
  destruct (IH (ui_do txt self)) as (H1 & H2 & H3 & H4 & H5 & H6).
  repeat split; assumption.
Qed.

Lemma ui_apply_cr_free t : forall self,
  PyStr.has_cr (output_box_text self) = false ->
  cr_free_requests t ->
  output_box_text (ui_apply t self) = output_box_text self +:+ shown t.
Proof.
  induction t as [|ev t IH]; intros self Hb Ht.
  - cbn. rewrite str_app_nil_r. reflexivity.
  - inversion Ht as [|? ? Hev Ht']; subst.
    destruct ev; cbn [ui_apply shown]; try (apply IH; assumption).
    destruct (ui_do_cr_free txt self Hb Hev) as [E C].
    rewrite (IH _ C Ht'), E, !str_app_assoc. reflexivity.
Qed.

(** X1: serving the requests of a trace changes no field of the widget
    but the output box.  When neither the box nor the requested texts
    hold a CR, it only appends: the text that was there stays in front,
    followed by the requested texts in order, each with a newline; and
    after [Reset] the box holds exactly the lines requested since. *)
Theorem X1_output_box_is_append_only (t : list event) (self : RootWidget) :
  (audio_thread (ui_apply t self) = audio_thread self
   /\ recording (ui_apply t self) = recording self
   /\ wav_path (ui_apply t self) = wav_path self
   /\ _buffer_size (ui_apply t self) = _buffer_size self
   /\ record_btn (ui_apply t self) = record_btn self
   /\ api_key_text (ui_apply t self) = api_key_text self)
  /\ (PyStr.has_cr (output_box_text self) = false ->
      cr_free_requests t ->
      output_box_text (ui_apply t self) = output_box_text self +:+ shown t)
  /\ (cr_free_requests t ->
      output_box_text (ui_apply t (on_reset self)) = shown t).
Proof.
  split; [apply ui_apply_frame|]. split; [apply ui_apply_cr_free|].
  intros Ht. rewrite ui_apply_cr_free; [reflexivity|reflexivity|exact Ht].
Qed.

Lemma X1_output_box_is_append_only_witness :
  output_box_text
    (ui_apply [EAppendOutput "a"; ESleep 200; EAppendOutput "b"]
       (on_reset recorded_widget))
  = "a" +:+ PyStr.nl +:+ "b" +:+ PyStr.nl.
Proof.
  destruct (X1_output_box_is_append_only
              [EAppendOutput "a"; ESleep 200; EAppendOutput "b"]
              recorded_widget) as (_ & _ & H).
  apply H. repeat constructor.
Defined.

(** With a CR the box is not append-only: a box that ends in CR loses
    it to the newline of the next request. *)
Example cr_is_lost_on_append :
  output_box_text
    (ui_do "b"
       {| audio_thread := None; recording := false; wav_path := None;
          _buffer_size := 0; record_btn := btn0;
          output_box_text := String "a" (String PyStr.cr "");
          api_key_text := "" |})
  = "a" +:+ String PyStr.cr "b" +:+ PyStr.nl
  /\ output_box_text
       (ui_do ""
          {| audio_thread := None; recording := false; wav_path := None;
             _buffer_size := 0; record_btn := btn0;
             output_box_text := String "a" (String PyStr.cr "");
             api_key_text := "" |})
     = "a" +:+ PyStr.nl.
Proof. split; vm_compute; reflexivity. Qed.

(** ** Press and release *)

(** X2: a touch that collides with the record button when it goes down
    still collides when it goes up at the same place, because changing
    the label does not move the button.  So a press followed by a
    release starts one recording thread, then one post-processing
    thread, ends with the flag false and the idle label back, and leaves
    the stored path and the API key as they were.  The press assigns the
    output box its own text, which the box stores with CR LF pairs
    turned into LF: a box without such a pair is as it was. *)
Theorem X2_press_then_release (self : RootWidget) (touch : Touch) :
  collide_point (record_btn self) touch = true ->
  let pressed := on_record_press self touch in
  let released := on_record_release (fst pressed) touch in
  snd pressed = [EThreadStart RecordWorker]
  /\ recording (fst pressed) = true
  /\ btn_text (record_btn (fst pressed)) = "Recording..."
  /\ collide_point (record_btn (fst pressed)) touch = true
  /\ snd released = [EThreadStart PostProcessAndTranslate]
  /\ recording (fst released) = false
  /\ btn_text (record_btn (fst released)) = idle_label
  /\ wav_path (fst released) = wav_path self
  /\ output_box_text (fst released)
     = PyStr.replace_crlf (output_box_text self)
  /\ (PyStr.has_crlf (output_box_text self) = false ->
      output_box_text (fst released) = output_box_text self)
  /\ api_key_text (fst released) = api_key_text self.
Proof.
  intros H. unfold on_record_press. rewrite H. cbn [negb fst snd].
  unfold on_record_release. cbn [record_btn].
  assert (Hc : collide_point (set_btn_text (record_btn self) "Recording...")
                 touch = true) by exact H.
  rewrite Hc. cbn [fst snd negb recording record_btn btn_text set_btn_text
                   wav_path output_box_text api_key_text].
  repeat split.
  intros Hb. apply replace_crlf_id, Hb.
Qed.

Lemma X2_press_then_release_witness :
  snd (on_record_release
         (fst (on_record_press (init_widget btn0)
                 {| touch_x := 50; touch_y := 10 |}))
         {| touch_x := 50; touch_y := 10 |})
  = [EThreadStart PostProcessAndTranslate].
Proof.
  destruct (X2_press_then_release (init_widget btn0)
              {| touch_x := 50; touch_y := 10 |})
    as (_ & _ & _ & _ & H & _).
  - reflexivity.
  - exact H.
Defined.

(** X3: neither handler looks at the recording flag.  A second touch
    down on the button while a recording runs starts a second recording
    thread, and a touch up on the button starts post-processing even if
    nothing was being recorded. *)
Theorem X3_handlers_ignore_the_flag (self : RootWidget) (touch : Touch) :
  collide_point (record_btn self) touch = true ->
  snd (on_record_press self touch) = [EThreadStart RecordWorker]
  /\ snd (on_record_press (fst (on_record_press self touch)) touch)
     = [EThreadStart RecordWorker]
  /\ snd (on_record_release self touch)
     = [EThreadStart PostProcessAndTranslate].
Proof.
  intros H. unfold on_record_press, on_record_release. rewrite H.
  cbn [negb fst snd record_btn].
  assert (Hc : collide_point (set_btn_text (record_btn self) "Recording...")
                 touch = true) by exact H.
  rewrite Hc. repeat split.
Qed.

Lemma X3_handlers_ignore_the_flag_witness :
  snd (on_record_press
         (fst (on_record_press (init_widget btn0)
                 {| touch_x := 50; touch_y := 10 |}))
         {| touch_x := 50; touch_y := 10 |})
  = [EThreadStart RecordWorker].
Proof.
  destruct (X3_handlers_ignore_the_flag (init_widget btn0)
              {| touch_x := 50; touch_y := 10 |})
    as (_ & H & _).
  - reflexivity.
  - exact H.
Defined.

(** ** Post-processing *)

(** X4: on a widget that has not recorded yet, post-processing after a
    touch up, wherever the touch lands, leads to "No recorded file
    found." and nothing else: the thread sleeps, asks for that line, and
    makes no call to the file system or to the cloud. *)
Theorem X4_release_before_any_recording (env : post_env) (b : Button)
    (touch : Touch) :
  _post_process_and_translate env
    (fst (on_record_release (init_widget b) touch))
  = ([ESleep 200; EAppendOutput "No recorded file found."], Ok tt).
Proof.
  unfold on_record_release.
  destruct (negb (collide_point (record_btn (init_widget b)) touch));
    reflexivity.
Qed.

Lemma wrapper_event_post_ok self path ev :
  wav_path self = Some path ->
  wrapper_event path (PyStr.strip (api_key_text self)) "saaras:v2.5"
    default_prompt ev ->
  post_event_ok self ev.
Proof.
  intros Hp Hev. destruct Hev; cbn; auto.
  exists path. auto.
Qed.

Lemma post_trace_events env self :
  Forall (post_event_ok self)
         (trace_of (_post_process_and_translate env self)).
Proof.
  unfold _post_process_and_translate.
  apply Forall_bind; [apply Forall_call; reflexivity|intros _ _].
  destruct (wav_path self) as [path|] eqn:Hp;
    [|apply Forall_call; exact I].
  destruct (negb (PyStr.truthy path)); [apply Forall_call; exact I|].
  apply Forall_bind; [apply Forall_call; cbn; congruence|intros there _].
  destruct (negb there); [apply Forall_call; exact I|].
  apply Forall_bind; [apply Forall_call; exact I|intros _ _].
  apply Forall_bind.
  - eapply List.Forall_impl; [|apply wrapper_events].
    intros ev. apply wrapper_event_post_ok.
    rewrite Hp. reflexivity.
  - intros [success message] _. destruct success.
    + apply Forall_bind; [apply Forall_call; exact I|intros _ _].
      apply Forall_call; exact I.
    + apply Forall_call; exact I.
Qed.

(** X5: whatever the post-processing thread passes on comes from the
    widget: the file it tests and uploads is the one stored in
    [wav_path] and nothing else, the client gets the API key with its
    surrounding whitespace stripped, and the job is created for model
    "saaras:v2.5" with the prompt "casual chat", diarization off and one
    speaker. *)
Theorem X5_post_processing_arguments (env : post_env) (self : RootWidget) :
  Forall (post_event_ok self)
         (trace_of (_post_process_and_translate env self)).
Proof. apply post_trace_events. Qed.

(** The wrapper returns a pair when no exception outside [Exception] is
    raised. *)
Lemma wrapper_returns env w k m p :
  raises_only_Exception env ->
  exists b msg,
    result_of (translate_audio_with_sarvamai env w k m p) = Ok (b, msg).
Proof.
  intros Hexn.
  pose proof (good_sarvam_flow env Hexn w k m p) as [Hg _].
  unfold translate_audio_with_sarvamai.
  set (fl := sarvam_flow env w k m p) in *. clearbody fl.
  destruct fl as [t r]; cbn in Hg.
  destruct (import_sarvamai env) as [[]|e0] eqn:Himp; cbn.
  - destruct r as [[b msg]|e1]; cbn; [eauto|].
    rewrite (Hg e1 eq_refl). cbn. eauto.
  - assert (exn_is_Exception e0 = true) as -> by (apply Hexn; tauto).
    cbn. eauto.
Qed.

Lemma last_event_app t1 t2 ev :
  last_event t2 = Some ev -> last_event (t1 ++ t2) = Some ev.
Proof.
  unfold last_event. intros H. induction t1 as [|a t1 IH]; [exact H|].
  cbn [app]. destruct (t1 ++ t2) as [|b l] eqn:E.
  - cbn in IH. discriminate.
  - exact IH.
Qed.

(** X6: when the cloud environment raises nothing outside [Exception],
    the post-processing thread always returns normally and the last
    thing it does is ask for a line of text: "No recorded file found.",
    the result, or "Translation failed: ...".  The user is never left
    without a message. *)
Theorem X6_post_processing_ends_with_a_message (env : post_env)
    (self : RootWidget) :
  raises_only_Exception (post_cloud env) ->
  result_of (_post_process_and_translate env self) = Ok tt
  /\ exists txt,
       last_event (trace_of (_post_process_and_translate env self))
       = Some (EAppendOutput txt).
Proof.
  intros Hexn. unfold _post_process_and_translate, append_output.
  destruct (wav_path self) as [path|]; [|cbn; eauto].
  destruct (PyStr.truthy path); cbn [negb]; [|cbn; eauto].
  cbn. destruct (path_exists env path); cbn; [|eauto].
  destruct (wrapper_returns (post_cloud env) path
              (PyStr.strip (api_key_text self)) "saaras:v2.5"
              default_prompt Hexn) as (b & msg & Hres).
  destruct (translate_audio_with_sarvamai _ _ _ _ _) as [t r].
  cbn in Hres. subst r. destruct b; cbn.
  - split; [reflexivity|]. exists msg.
    apply (last_event_app [ESleep 200; EExists path;
                           EAppendOutput "Starting translation upload..."]).
    apply last_event_app. reflexivity.
  - split; [reflexivity|]. exists ("Translation failed: " +:+ msg).
    apply (last_event_app [ESleep 200; EExists path;
                           EAppendOutput "Starting translation upload..."]).
    apply last_event_app. reflexivity.
Qed.

Lemma X6_post_processing_ends_with_a_message_witness :
  result_of (_post_process_and_translate file_there recorded_widget) = Ok tt.
Proof.
  destruct (X6_post_processing_ends_with_a_message file_there
              recorded_widget) as [H _]; [|exact H].
  intros e H. cbn in H.
  repeat (destruct H as [H|H]; [discriminate|]).
  destruct H as [[p H]|[p H]]; discriminate.
Defined.

(** ** Extracting text from the outputs *)

Lemma json_keys_dict fname d ks : forall agg,
  json_keys fname (JDict d) ks agg = (agg ++ json_entries fname d ks, Ok tt).
Proof.
  induction ks as [|k ks IH]; intros agg; cbn [json_keys json_entries].
  - rewrite app_nil_r. reflexivity.
  - cbn [json_key_text]. destruct (d !! k) as [[s|]|]; try apply IH.
    destruct (PyStr.truthy (PyStr.strip s)); [|apply IH].
    rewrite IH, <- app_assoc. reflexivity.
Qed.

Lemma json_keys_not_dict fname j ks : forall agg,
  (forall d, j <> JDict d) -> fst (json_keys fname j ks agg) = agg.
Proof.
  intros agg Hj. apply json_keys_nothing. intros d k s ->.
  exfalso. apply (Hj d). reflexivity.
Qed.

(** X7: from a JSON object the scan takes, in the fixed order [text],
    [transcript], [translation], [translated_text], the value of each
    key that is present and is a string with something other than
    whitespace in it, stripped; a missing key, a value of another type
    and a blank string are skipped without an error.  A document that is
    not an object (a list, a string, a number, [null]) contributes
    nothing. *)
Theorem X7_json_entries_in_key_order (fname : string) (j : jdoc)
    (aggregated : list string) :
  match j with
  | JDict d =>
      json_keys fname j json_text_keys aggregated
      = (aggregated ++ json_entries fname d json_text_keys, Ok tt)
  | _ => fst (json_keys fname j json_text_keys aggregated) = aggregated
  end.
Proof.
  destruct j as [d|l|s|]; [apply json_keys_dict| | |];
    apply json_keys_not_dict; discriminate.
Qed.

Lemma scan_json_result env root fname agg :
  (forall e, load_json env (path_join root fname) = Raise e ->
             exn_is_Exception e = true) ->
  result_of (scan_json env root fname agg)
  = Ok (agg ++ match load_json env (path_join root fname) with
               | Ok (JDict d) => json_entries fname d json_text_keys
               | _ => []
               end).
Proof.
  intros Hexn. unfold scan_json.
  destruct (load_json env (path_join root fname)) as [j|e] eqn:E;
    cbn -[json_keys].
  - destruct j as [d|l|s|].
    + rewrite json_keys_dict. reflexivity.
    + pose proof (json_keys_not_dict fname (JList l) json_text_keys agg
                    ltac:(discriminate)) as Hn.
      pose proof (json_keys_raise fname (JList l) json_text_keys agg) as Hr.
      destruct (json_keys fname (JList l) json_text_keys agg)
        as [agg' [u|e]]; cbn in Hn; subst agg'; rewrite app_nil_r;
        [reflexivity|].
      rewrite (Hr agg e eq_refl). reflexivity.
    + pose proof (json_keys_not_dict fname (JString s) json_text_keys agg
                    ltac:(discriminate)) as Hn.
      pose proof (json_keys_raise fname (JString s) json_text_keys agg) as Hr.
      destruct (json_keys fname (JString s) json_text_keys agg)
        as [agg' [u|e]]; cbn in Hn; subst agg'; rewrite app_nil_r;
        [reflexivity|].
      rewrite (Hr agg e eq_refl). reflexivity.
    + pose proof (json_keys_not_dict fname JScalar json_text_keys agg
                    ltac:(discriminate)) as Hn.
      pose proof (json_keys_raise fname JScalar json_text_keys agg) as Hr.
      destruct (json_keys fname JScalar json_text_keys agg)
        as [agg' [u|e]]; cbn in Hn; subst agg'; rewrite app_nil_r;
        [reflexivity|].
      rewrite (Hr agg e eq_refl). reflexivity.
  - rewrite (Hexn e eq_refl). cbn. rewrite app_nil_r. reflexivity.
Qed.

Lemma scan_file_result env root fname agg :
  file_scannable env root fname ->
  result_of (scan_file env root fname agg)
  = Ok (agg ++ file_entries env root fname).
Proof.
  intros [Htxt Hjson]. unfold scan_file, file_entries, is_json, is_txt in *.
  destruct (PyStr.endswith (PyStr.lower fname) ".txt").
  - destruct (Htxt eq_refl) as [s ->]. cbn.
    destruct (PyStr.truthy (PyStr.strip s)); cbn;
      rewrite ?app_nil_r; reflexivity.
  - cbn [negb andb] in *.
    destruct (PyStr.endswith (PyStr.lower fname) ".json").
    + apply scan_json_result. apply Hjson. reflexivity.
    + cbn. rewrite app_nil_r. reflexivity.
Qed.

Lemma scan_files_result env root files : forall agg,
  (forall fname, In fname files -> file_scannable env root fname) ->
  result_of (scan_files env root files agg)
  = Ok (agg ++ flat_map (file_entries env root) files).
Proof.
  induction files as [|fname files IH]; intros agg H; cbn [scan_files flat_map].
  - cbn. rewrite app_nil_r. reflexivity.
  - pose proof (scan_file_result env root fname agg
                  (H fname (or_introl eq_refl))) as Hf.
    rewrite (bind_trace _ _ _ Hf). cbn [result_of snd].
    rewrite IH by (intros f Hin; apply H; right; exact Hin).
    rewrite app_assoc. reflexivity.
Qed.

Lemma scan_dirs_result env dirs : forall agg,
  (forall root files fname, In (root, files) dirs -> In fname files ->
                            file_scannable env root fname) ->
  result_of (scan_dirs env dirs agg)
  = Ok (agg ++ flat_map (dir_entries env) dirs).
Proof.
  induction dirs as [|[root files] dirs IH]; intros agg H;
    cbn [scan_dirs flat_map].
  - cbn. rewrite app_nil_r. reflexivity.
  - assert (Hf : result_of (scan_files env root files agg)
                 = Ok (agg ++ flat_map (file_entries env root) files)).
    { apply scan_files_result. intros f Hin.
      apply (H root files f); [left; reflexivity|exact Hin]. }
    rewrite (bind_trace _ _ _ Hf). cbn [result_of snd].
    rewrite IH by (intros r fs f Hin Hin'; apply (H r fs f); [right|]; assumption).
    unfold dir_entries at 2. cbn [fst snd]. rewrite app_assoc. reflexivity.
Qed.

(** X8: when the job succeeds and the outputs can be read, the message
    returned with [True] is determined by the listing of the output
    directory: the entries of the files in listing order, a text file
    giving "--- name ---" and its stripped content when that is not
    blank, a JSON file giving its entries, any other file nothing,
    joined by blank lines; or the "Output downloaded to" line when there
    is no entry. *)
Theorem X8_success_message_from_outputs (env : cloud_env)
    (wav_path api_key model prompt cwd : string) :
  import_sarvamai env = Ok tt -> new_client env = Ok tt ->
  create_job env = Ok tt -> upload_files env = Ok tt -> start env = Ok tt ->
  wait_until_complete env = Ok tt -> is_failed env = Ok false ->
  getcwd env = Ok cwd -> makedirs env = Ok tt -> download_outputs env = Ok tt ->
  (forall root fname, listed env root fname ->
                      file_scannable env root fname) ->
  result_of (translate_audio_with_sarvamai env wav_path api_key model prompt)
  = Ok (true, success_message (path_join cwd "sarvamai_output")
                (flat_map (dir_entries env) (walk env))).
Proof.
  intros Himp Hnc Hcj Hup Hst Hwt Hisf Hcwd Hmk Hdl Hfiles.
  assert (Hs : result_of (scan_dirs env (walk env) [])
               = Ok (flat_map (dir_entries env) (walk env))).
  { rewrite scan_dirs_result; [reflexivity|].
    intros root files fname Hin Hin'. apply Hfiles.
    exists files. split; assumption. }
  unfold translate_audio_with_sarvamai, sarvam_flow.
  rewrite Himp, Hnc, Hcj, Hup, Hst, Hwt, Hisf, Hcwd, Hmk, Hdl. cbn.
  destruct (scan_dirs env (walk env) []) as [ts r]. cbn in Hs. subst r.
  destruct (flat_map (dir_entries env) (walk env)); reflexivity.
Qed.

Lemma X8_success_message_from_outputs_witness :
  result_of (translate_audio_with_sarvamai with_texts "/tmp/rec_1.wav" "key"
               default_model default_prompt)
  = Ok (true,
        "--- a.txt ---" +:+ PyStr.nl +:+ "hola" +:+ PyStr.nl +:+ PyStr.nl
        +:+ "--- b.JSON:text ---" +:+ PyStr.nl +:+ "hello"
        +:+ PyStr.nl +:+ PyStr.nl
        +:+ "--- b.JSON:translation ---" +:+ PyStr.nl +:+ "bonjour").
Proof.
  rewrite (X8_success_message_from_outputs with_texts "/tmp/rec_1.wav" "key"
             default_model default_prompt "/app"); try reflexivity.
  intros root fname _. split.
  - intros _. exists " hola ". reflexivity.
  - intros _ e. cbn. discriminate.
Defined.

Lemma scan_file_opens env root fname agg :
  Forall (fun ev => match ev with
                    | EReadText p =>
                        is_txt fname = true /\ p = path_join root fname
                    | ELoadJson p =>
                        is_json fname = true /\ p = path_join root fname
                    | _ => False
                    end)
         (trace_of (scan_file env root fname agg)).
Proof.
  unfold scan_file, is_json, is_txt.
  destruct (PyStr.endswith (PyStr.lower fname) ".txt").
  - apply Forall_bind; [apply Forall_call; auto|].
    intros raw _. destruct (PyStr.truthy (PyStr.strip raw)); apply Forall_ret.
  - cbn [negb andb].
    destruct (PyStr.endswith (PyStr.lower fname) ".json"); [|apply Forall_ret].
    unfold scan_json. apply Forall_bind.
    + apply Forall_try_except.
      * apply Forall_bind; [apply Forall_call; auto|intros; apply Forall_ret].
      * intros; apply Forall_ret.
    + intros [j|] _; [|apply Forall_ret].
      destruct (json_keys fname j json_text_keys agg) as [agg' [u|e]].
      * apply Forall_ret.
      * destruct (exn_is_Exception e); constructor.
Qed.

Lemma scan_files_opens env root files all dirs : forall agg,
  In (root, all) dirs -> (forall f, In f files -> In f all) ->
  Forall (scan_opens_listed dirs) (trace_of (scan_files env root files agg)).
Proof.
  induction files as [|fname files IH]; intros agg Hd Hsub; cbn [scan_files].
  - apply Forall_ret.
  - apply Forall_bind.
    + eapply List.Forall_impl; [|apply scan_file_opens].
      intros ev Hev. destruct ev; try contradiction; destruct Hev as [H1 H2];
        exists root, all, fname; repeat split; auto; apply Hsub; left;
        reflexivity.
    + intros agg' _. apply IH; [exact Hd|].
      intros f Hf. apply Hsub. right; exact Hf.
Qed.

Lemma scan_dirs_opens env dirs all : forall agg,
  (forall d, In d dirs -> In d all) ->
  Forall (scan_opens_listed all) (trace_of (scan_dirs env dirs agg)).
Proof.
  induction dirs as [|[root files] dirs IH]; intros agg Hsub; cbn [scan_dirs].
  - apply Forall_ret.
  - apply Forall_bind.
    + apply (scan_files_opens env root files files all); auto.
      apply Hsub. left; reflexivity.
    + intros agg' _. apply IH. intros d Hd. apply Hsub. right; exact Hd.
Qed.

(** X9: the wrapper opens no file but those [os.walk] lists under the
    output directory, and of these only the ones whose name ends, in any
    letter case, in [.txt] (read as text) or, failing that, in [.json]
    (loaded as JSON); a file with another extension is never opened. *)
Theorem X9_only_listed_txt_and_json_are_opened (env : cloud_env)
    (wav_path api_key model prompt : string) :
  Forall (opens_only_listed env)
    (trace_of (translate_audio_with_sarvamai env wav_path api_key model
                 prompt)).
Proof.
  unfold translate_audio_with_sarvamai.
  apply Forall_bind.
  - apply Forall_try_except.
    + apply Forall_bind; [apply Forall_call; exact I|intros; apply Forall_ret].
    + intros; apply Forall_ret.
  - intros [r|] _; [apply Forall_ret|].
    apply Forall_try_except; [|intros; apply Forall_ret].
    unfold sarvam_flow.
    do 5 (apply Forall_bind; [apply Forall_call; exact I|intros ? _]).
    apply Forall_bind; [apply Forall_call; exact I|intros failed _].
    destruct failed; [apply Forall_ret|].
    do 3 (apply Forall_bind; [apply Forall_call; exact I|intros ? _]).
    apply Forall_bind.
    + apply Forall_bind; [apply Forall_call; exact I|intros ? _].
      eapply List.Forall_impl; [|apply (scan_dirs_opens env (walk env) (walk env))].
      * intros ev Hev. destruct ev; try contradiction; exact Hev.
      * auto.
    + intros [|x l] _; apply Forall_ret.
Qed.

(** ** Packing samples *)

Lemma le16_bytes v : Forall is_byte (le16 v).
Proof.
  unfold le16, is_byte.
  pose proof (Z.mod_pos_bound v 65536 ltac:(lia)) as Hu.
  repeat constructor.
  - apply Z.mod_pos_bound. lia.
  - apply Z.mod_pos_bound. lia.
  - apply Z.div_pos; lia.
  - apply Z.div_lt_upper_bound; lia.
Qed.

Lemma encode_bytes samples : Forall is_byte (encode_s16le samples).
Proof.
  induction samples as [|v l IH]; [constructor|].
  unfold encode_s16le in *. cbn [map concat].
  apply Forall_app. split; [apply le16_bytes|exact IH].
Qed.

Lemma s16_of_le_range lo hi :
  is_byte lo -> is_byte hi -> is_int16 (s16_of_le lo hi) = true.
Proof.
  unfold is_byte, is_int16, s16_of_le, int16_min, int16_max. intros Hl Hh.
  destruct (Z.ltb_spec (lo + 256 * hi) 32768);
    apply andb_true_iff; split; apply Z.leb_le; lia.
Qed.

Lemma le16_of_s16 lo hi :
  is_byte lo -> is_byte hi -> le16 (s16_of_le lo hi) = [lo; hi].
Proof.
  unfold is_byte, le16, s16_of_le. intros Hl Hh.
  assert (Hu : (if lo + 256 * hi <? 32768
                then lo + 256 * hi else lo + 256 * hi - 65536) mod 65536
               = lo + 256 * hi).
  { destruct (Z.ltb_spec (lo + 256 * hi) 32768).
    - apply Z.mod_small. lia.
    - replace (lo + 256 * hi - 65536) with (lo + 256 * hi + (-1) * 65536)
        by lia.
      rewrite Z.mod_add by lia. apply Z.mod_small. lia. }
  rewrite Hu. f_equal; [|f_equal].
  - replace (lo + 256 * hi) with (lo + hi * 256) by lia.
    rewrite Z.mod_add by lia. apply Z.mod_small. lia.
  - replace (lo + 256 * hi) with (lo + hi * 256) by lia.
    rewrite Z.div_add by lia. rewrite Z.div_small by lia. lia.
Qed.

(** X10: the little-endian packing of samples and its reading are
    inverse to each other.  The packing loop of the Android routine
    turns a buffer of 16-bit samples into exactly two bytes per sample,
    low byte first, from which the samples are read back; and every
    byte string of even length is the packing of the samples read from
    it, so any data of whole frames is a valid recording. *)
Theorem X10_sample_packing_round_trip :
  (forall samples,
     all_int16 samples ->
     pack_samples (length samples) samples = Ok (encode_s16le samples)
     /\ decode_s16le (encode_s16le samples) = samples
     /\ length (encode_s16le samples) = (2 * length samples)%nat
     /\ Forall is_byte (encode_s16le samples))
  /\ (forall pairs : list (Z * Z),
        Forall (fun p => is_byte (fst p) /\ is_byte (snd p)) pairs ->
        let bytes := flat_map (fun p => [fst p; snd p]) pairs in
        encode_s16le (decode_s16le bytes) = bytes
        /\ all_int16 (decode_s16le bytes)
        /\ length (decode_s16le bytes) = length pairs).
Proof.
  split.
  - intros samples H. split.
    { rewrite <- (firstn_all samples) at 3.
      apply pack_samples_complete; [lia|].
      rewrite firstn_all. exact H. }
    split; [apply decode_encode; exact H|].
    split; [apply encode_length|apply encode_bytes].
  - intros pairs H. cbn zeta.
    induction H as [|[lo hi] l [Hlo Hhi] _ (IH1 & IH2 & IH3)];
      [repeat split; constructor|].
    cbn [flat_map fst snd app decode_s16le].
    unfold encode_s16le in *. cbn [map concat length].
    rewrite IH1, IH3, le16_of_s16 by assumption.
    repeat split. constructor; [|exact IH2].
    apply s16_of_le_range; assumption.
Qed.

Lemma X10_sample_packing_round_trip_witness :
  decode_s16le (encode_s16le [1; -2; -32768; 32767]) = [1; -2; -32768; 32767].
Proof.
  destruct X10_sample_packing_round_trip as [H _].
  destruct (H [1; -2; -32768; 32767]) as (_ & Hd & _); [|exact Hd].
  repeat constructor.
Defined.

(** X11: packing the first [read] entries of the Java buffer succeeds
    exactly when the buffer has that many entries and each of them fits
    a signed 16-bit integer; it then yields two bytes per sample.  In
    every other case it raises ([IndexError] or [struct.error]) and
    yields no bytes at all, so a chunk is written whole or not at
    all. *)
Theorem X11_chunk_is_packed_whole_or_not_at_all (n : nat)
    (java_buffer : list Z) :
  (forall bs, pack_samples n java_buffer = Ok bs <->
              (n <= length java_buffer)%nat
              /\ all_int16 (firstn n java_buffer)
              /\ bs = encode_s16le (firstn n java_buffer))
  /\ (forall bs, pack_samples n java_buffer = Ok bs ->
                 length bs = (2 * n)%nat)
  /\ (forall e, pack_samples n java_buffer = Raise e ->
                exn_is_Exception e = true
                /\ ((length java_buffer < n)%nat
                    \/ ~ all_int16 (firstn n java_buffer))).
Proof.
  split; [|split].
  - intros bs. split.
    + intros H. apply pack_samples_ok in H as (H1 & H2 & H3). auto.
    + intros (H1 & H2 & ->). apply pack_samples_complete; assumption.
  - intros bs H. apply pack_samples_ok in H as (-> & _ & Hlen).
    rewrite encode_length, length_firstn. lia.
  - intros e H. split.
    + revert java_buffer H. induction n as [|n IH]; intros buf; cbn [pack_samples];
        [discriminate|].
      destruct buf as [|v rest]; [intros [= <-]; reflexivity|].
      unfold struct_pack_h. destruct (is_int16 v); [|intros [= <-]; reflexivity].
      destruct (pack_samples n rest) as [bs|e'] eqn:E; [discriminate|].
      intros [= <-]. apply (IH rest). exact E.
    + destruct (le_lt_dec n (length java_buffer)) as [Hle|Hlt]; [|left; exact Hlt].
      right. intros Hall.
      rewrite (pack_samples_complete n java_buffer Hle Hall) in H. discriminate.
Qed.

Lemma X11_chunk_is_packed_whole_or_not_at_all_witness :
  pack_samples 2 [5; 40000; 7] = Raise (struct_error
    "short format requires (-32768) <= number <= 32767")
  /\ exn_is_Exception (struct_error
       "short format requires (-32768) <= number <= 32767") = true.
Proof.
  destruct (X11_chunk_is_packed_whole_or_not_at_all 2 [5; 40000; 7])
    as (_ & _ & H).
  split; [reflexivity|].
  apply (H (struct_error "short format requires (-32768) <= number <= 32767")).
  reflexivity.
Defined.

(** ** What the recording thread keeps *)

Lemma kept_refl a : kept a a.
Proof. repeat split. Qed.

Lemma kept_trans a b c : kept a b -> kept b c -> kept a c.
Proof.
  unfold kept, same_ui.
  intros ((A1 & A2 & A3 & A4 & A5) & A6) ((B1 & B2 & B3 & B4 & B5) & B6).
  repeat split; congruence.
Qed.

Section Invariant.
Variable P : event -> Prop.
Variable E : exn -> Prop.
Hypothesis HE : forall e, exn_is_Exception e = true -> E e.

Lemma rinv_ret {A} (a : A) : rinv P E (rret a).
Proof.
  intros s t s' r [= <- <- <-]. split; [apply kept_refl|].
  split; [constructor|discriminate].
Qed.

Lemma rinv_raise {A} e : E e -> rinv P E (@rraise A e).
Proof.
  intros He s t s' r [= <- <- <-]. split; [apply kept_refl|].
  split; [constructor|]. intros e' [= <-]. exact He.
Qed.

Lemma rinv_lift {A} (m : M A) :
  Forall P (trace_of m) -> (forall e, result_of m = Raise e -> E e) ->
  rinv P E (rlift m).
Proof.
  intros Ht He s t s' r [= <- <- <-]. split; [apply kept_refl|].
  split; [exact Ht|exact He].
Qed.

Lemma rinv_bind {A B} (m : R A) (f : A -> R B) :
  rinv P E m ->
  (forall a, (exists s t s', m s = Some (t, s', Ok a)) -> rinv P E (f a)) ->
  rinv P E (rbind m f).
Proof.
  intros Hm Hf s t s' r H.
  apply rbind_inv in H as [(t1 & s1 & a & t2 & H1 & H2 & ->)|(e & H1 & ->)].
  - destruct (Hm _ _ _ _ H1) as (K1 & T1 & _).
    destruct (Hf a ltac:(eauto) _ _ _ _ H2) as (K2 & T2 & E2).
    split; [eapply kept_trans; eassumption|].
    split; [apply Forall_app; split; assumption|exact E2].
  - destruct (Hm _ _ _ _ H1) as (K1 & T1 & E1).
    split; [exact K1|]. split; [exact T1|].
    intros e' [= <-]. apply (E1 e). reflexivity.
Qed.

Lemma rinv_call {A B} ev (o : outcome A) (f : A -> R B) :
  P ev -> (forall e, o = Raise e -> E e) ->
  (forall a, o = Ok a -> rinv P E (f a)) ->
  rinv P E (rbind (rlift (call ev o)) f).
Proof.
  intros Hev He Hf. apply rinv_bind.
  - apply rinv_lift; [repeat constructor; exact Hev|exact He].
  - intros a (s & t & s' & H). cbn in H. injection H as _ _ H.
    apply Hf. exact H.
Qed.

Lemma rinv_try_except {A} (m : R A) h :
  rinv P E m -> (forall e, rinv P E (h e)) -> rinv P E (rtry_except m h).
Proof.
  intros Hm Hh s t s' r H.
  apply rtry_except_inv in H
    as [(a & H1 & ->)|[(e & H1 & -> & _)|(t1 & s1 & e & t2 & H1 & _ & H2 & ->)]].
  - destruct (Hm _ _ _ _ H1) as (K & T & _).
    split; [exact K|]. split; [exact T|discriminate].
  - destruct (Hm _ _ _ _ H1) as (K & T & E1).
    split; [exact K|]. split; [exact T|].
    intros e' [= <-]. apply (E1 e). reflexivity.
  - destruct (Hm _ _ _ _ H1) as (K1 & T1 & _).
    destruct (Hh e _ _ _ _ H2) as (K2 & T2 & E2).
    split; [eapply kept_trans; eassumption|].
    split; [apply Forall_app; split; assumption|exact E2].
Qed.

Lemma rinv_try_finally {A} (m : R A) fin :
  rinv P E m -> rinv P E fin -> rinv P E (rtry_finally m fin).
Proof.
  intros Hm Hf s t s' r H. unfold rtry_finally in H.
  destruct (m s) as [[[t1 s1] r1]|] eqn:H1; [|discriminate].
  destruct (fin s1) as [[[t2 s2] r2]|] eqn:H2; [|discriminate].
  destruct (Hm _ _ _ _ H1) as (K1 & T1 & E1).
  destruct (Hf _ _ _ _ H2) as (K2 & T2 & E2).
  destruct r2 as [[]|e2]; injection H as <- <- <-.
  - split; [eapply kept_trans; eassumption|].
    split; [apply Forall_app; split; assumption|exact E1].
  - split; [eapply kept_trans; eassumption|].
    split; [apply Forall_app; split; assumption|].
    intros e' [= <-]. apply (E2 e2). reflexivity.
Qed.

Lemma rinv_wf_open io path :
  P (EWaveOpen path) -> (forall e, io = Raise e -> E e) ->
  rinv P E (wf_open io path).
Proof.
  intros Hev He s t s' r H. unfold wf_open in H.
  destruct io as [[]|e]; injection H as <- <- <-;
    (split; [apply kept_refl|]); (split; [repeat constructor; exact Hev|]).
  - discriminate.
  - intros e' [= <-]. apply He. reflexivity.
Qed.

Lemma rinv_wf_call ev f :
  P ev -> (forall w e, f w = Raise e -> E e) -> rinv P E (wf_call ev f).
Proof.
  intros Hev He s t s' r H. unfold wf_call in H.
  destruct (rs_wf s) as [w|].
  - destruct (f w) as [w'|e] eqn:Ef; injection H as <- <- <-;
      (split; [apply kept_refl|]); (split; [repeat constructor; exact Hev|]).
    + discriminate.
    + intros e' [= <-]. apply (He w). exact Ef.
  - injection H as <- <- <-.
    split; [apply kept_refl|]. split; [repeat constructor; exact Hev|].
    intros e' [= <-]. apply HE. reflexivity.
Qed.

Lemma rinv_wf_close io :
  P EWaveClose -> (forall e, io = Raise e -> E e) -> rinv P E (wf_close io).
Proof.
  intros Hev He s t s' r H. unfold wf_close in H.
  destruct (rs_wf s) as [w|].
  - unfold wave_close in H. destruct (params_set w) as [[]|e] eqn:Ep;
      injection H as <- <- <-;
      (split; [apply kept_refl|]); (split; [repeat constructor; exact Hev|]).
    + exact He.
    + intros e' [= <-]. apply HE. unfold params_set in Ep.
      repeat (destruct (_ =? 0) in Ep; [injection Ep as <-; reflexivity|]).
      discriminate.
  - injection H as <- <- <-.
    split; [apply kept_refl|]. split; [repeat constructor; exact Hev|].
    intros e' [= <-]. apply HE. reflexivity.
Qed.

Lemma setter_raises f :
  f = setnchannels \/ f = setsampwidth \/ f = setframerate ->
  forall n w e, f n w = Raise e -> E e.
Proof.
  intros [-> | [-> | ->]] n w e; unfold setnchannels, setsampwidth, setframerate;
    (destruct (datawritten w); [intros [= <-]; apply HE; reflexivity|]).
  - destruct (n <? 1); [intros [= <-]; apply HE; reflexivity|discriminate].
  - destruct ((n <? 1) || (4 <? n));
      [intros [= <-]; apply HE; reflexivity|discriminate].
  - destruct (n <=? 0); [intros [= <-]; apply HE; reflexivity|discriminate].
Qed.

Lemma writeframes_raises io data w e :
  (forall e, io = Raise e -> E e) -> writeframes io data w = Raise e -> E e.
Proof.
  intros He. unfold writeframes.
  destruct (params_set w) as [[]|e'] eqn:Ep.
  - destruct io as [[]|e']; [discriminate|]. intros [= <-]. apply He. reflexivity.
  - intros [= <-]. apply HE. unfold params_set in Ep.
    repeat (destruct (_ =? 0) in Ep; [injection Ep as <-; reflexivity|]).
    discriminate.
Qed.

Lemma pack_samples_raises n buf e :
  pack_samples n buf = Raise e -> E e.
Proof.
  revert buf. induction n as [|n IH]; intros buf; cbn [pack_samples];
    [discriminate|].
  destruct buf as [|v rest]; [intros [= <-]; apply HE; reflexivity|].
  unfold struct_pack_h. destruct (is_int16 v);
    [|intros [= <-]; apply HE; reflexivity].
  destruct (pack_samples n rest) as [bs|e'] eqn:Ep; [discriminate|].
  intros [= <-]. apply (IH rest). exact Ep.
Qed.
End Invariant.

Lemma rinv_weaken {A} (P P' : event -> Prop) (E E' : exn -> Prop) (m : R A) :
  (forall ev, P ev -> P' ev) -> (forall e, E e -> E' e) ->
  rinv P E m -> rinv P' E' m.
Proof.
  intros HP HEE Hm s t s' r H. destruct (Hm _ _ _ _ H) as (K & T & Ex).
  split; [exact K|]. split.
  - eapply List.Forall_impl; [exact HP|exact T].
  - intros e He. apply HEE. apply (Ex e He).
Qed.

Lemma rinv_set_buffer_size P E n : rinv P E (set_buffer_size n).
Proof.
  intros s t s' r [= <- <- <-]. split; [repeat split|].
  split; [constructor|discriminate].
Qed.

Section Recording.
Variable E : exn -> Prop.
Hypothesis HE : forall e, exn_is_Exception e = true -> E e.

Lemma android_loop_rinv env chunk P :
  android_raises_in E env ->
  P (EArRead chunk) -> P (ESleep 10) -> (forall b, P (EWriteFrames b)) ->
  forall fuel k, rinv P E (android_loop env fuel k chunk).
Proof.
  intros Henv Pr Ps Pw.
  induction fuel as [|fuel IH]; intros k; [intros s t s' r [=]|].
  cbn [android_loop]. destruct (a_flag_at env k); [|apply rinv_ret].
  apply rinv_call; [exact Pr| |].
  - intros e He. apply Henv. do 7 right. left. eauto.
  - intros [read buf] _. destruct (read >? 0).
    + apply rinv_bind.
      * apply rinv_lift; [constructor|].
        intros e He. apply (pack_samples_raises E HE _ _ _ He).
      * intros b _. apply rinv_bind; [|intros; apply IH].
        apply rinv_wf_call; [exact HE|apply Pw|].
        intros w e. apply writeframes_raises; [exact HE|].
        intros e' He'. apply Henv. do 8 right. left. eauto.
    + apply rinv_call; [exact Ps|discriminate|intros; apply IH].
Qed.

Lemma android_cleanup_rinv env path P :
  android_raises_in E env ->
  P EArStop -> P EArRelease -> P EWaveClose ->
  (forall s, P (EAppendOutput s)) ->
  rinv P E (android_cleanup env path).
Proof.
  intros Henv P1 P2 P3 P4. unfold android_cleanup.
  apply rinv_bind.
  - apply rinv_try_except; [|intros; apply rinv_ret].
    apply rinv_call; [exact P1| |].
    + intros e He. apply Henv. do 9 right. left. exact He.
    + intros _ _. apply rinv_lift; [repeat constructor; exact P2|].
      intros e He. apply Henv. do 10 right. left. exact He.
  - intros _ _. apply rinv_bind.
    + apply rinv_wf_close; [exact HE|exact P3|].
      intros e He. apply Henv. do 11 right. exact He.
    + intros _ _. apply rinv_lift; [repeat constructor; apply P4|discriminate].
Qed.

Lemma android_pcm_rinv env fuel path rate channels :
  android_raises_in E env ->
  rinv (android_sized env rate) E
       (_record_android_pcm env fuel path rate channels).
Proof.
  intros Henv. unfold _record_android_pcm.
  do 6 (apply rinv_call;
        [intros ? ?; exact I
        |intros e He; apply Henv; left; eauto
        |intros _ _]).
  apply rinv_call;
    [intros ? ?; exact I|intros e He; apply Henv; tauto|intros min_buf Hmin].
  assert (Hsz : forall ev,
            sized_by (chosen_buffer_size rate min_buf) ev ->
            android_sized env rate ev).
  { intros ev Hev mb Hmb. rewrite Hmin in Hmb. injection Hmb as <-. exact Hev. }
  fold (chosen_buffer_size rate min_buf).
  apply rinv_bind; [apply rinv_set_buffer_size|intros _ _].
  apply rinv_call;
    [apply Hsz; reflexivity|intros e He; apply Henv; tauto|intros _ _].
  apply rinv_call;
    [apply Hsz; exact I|intros e He; apply Henv; tauto|intros state _].
  destruct (negb (state =? STATE_INITIALIZED));
    [apply rinv_raise; apply HE; reflexivity|].
  apply rinv_bind;
    [apply rinv_wf_open; [apply Hsz; exact I|intros e He; apply Henv; tauto]
    |intros _ _].
  apply rinv_bind;
    [apply rinv_wf_call; [exact HE|apply Hsz; exact I|];
     apply (setter_raises E HE setnchannels); tauto
    |intros _ _].
  apply rinv_bind;
    [apply rinv_wf_call; [exact HE|apply Hsz; exact I|];
     apply (setter_raises E HE setsampwidth); tauto
    |intros _ _].
  apply rinv_bind;
    [apply rinv_wf_call; [exact HE|apply Hsz; exact I|];
     apply (setter_raises E HE setframerate); tauto
    |intros _ _].
  apply rinv_call;
    [apply Hsz; reflexivity|intros e He; apply Henv; tauto|intros _ _].
  apply rinv_call;
    [apply Hsz; exact I|intros e He; apply Henv; tauto|intros _ _].
  apply rinv_bind;
    [apply rinv_lift; [repeat constructor; apply Hsz; exact I|discriminate]
    |intros _ _].
  unfold android_capture. apply rinv_try_finally.
  - apply android_loop_rinv; try exact Henv; intros; apply Hsz;
      try exact I; reflexivity.
  - apply android_cleanup_rinv; try exact Henv; intros; apply Hsz; exact I.
Qed.

Lemma desktop_loop_rinv env P :
  P (ESleep 50) -> forall fuel k, rinv P E (desktop_loop env fuel k).
Proof.
  intros Ps. induction fuel as [|fuel IH]; intros k; [intros s t s' r [=]|].
  cbn [desktop_loop]. destruct (d_flag_at env k); [|apply rinv_ret].
  apply rinv_call; [exact Ps|discriminate|intros; apply IH].
Qed.

Lemma record_desktop_rinv env fuel path rate channels sampwidth :
  desktop_raises_in E env ->
  rinv (fun _ => True) E
       (record_desktop env fuel path rate channels sampwidth).
Proof.
  intros Henv. unfold record_desktop.
  apply rinv_bind;
    [apply rinv_lift; [repeat constructor|discriminate]|intros _ _].
  apply rinv_call; [exact I|intros e He; apply Henv; tauto|intros _ _].
  apply rinv_bind.
  { apply rinv_try_finally; [apply desktop_loop_rinv; exact I|].
    apply rinv_lift; [repeat constructor|].
    intros e He. apply Henv. tauto. }
  intros _ _.
  apply rinv_bind;
    [apply rinv_wf_open; [exact I|intros e He; apply Henv; tauto]|intros _ _].
  apply rinv_bind.
  { apply rinv_try_finally.
    - apply rinv_bind;
        [apply rinv_wf_call; [exact HE|exact I|];
         apply (setter_raises E HE setnchannels); tauto
        |intros _ _].
      apply rinv_bind;
        [apply rinv_wf_call; [exact HE|exact I|];
         apply (setter_raises E HE setsampwidth); tauto
        |intros _ _].
      apply rinv_bind;
        [apply rinv_wf_call; [exact HE|exact I|];
         apply (setter_raises E HE setframerate); tauto
        |intros _ _].
      apply rinv_wf_call; [exact HE|exact I|].
      intros w e. apply writeframes_raises; [exact HE|].
      intros e' He'. apply Henv. tauto.
    - apply rinv_wf_close; [exact HE|exact I|].
      intros e He. apply Henv. tauto. }
  intros _ _. apply rinv_lift; [repeat constructor|discriminate].
Qed.

(** After the temporary file is created, the rest of the worker keeps
    the fields and raises only in [E]; inside, its [except Exception]
    turns every exception that derives from [Exception] into a line of
    text. *)
Lemma worker_body_rinv env fuel path :
  android_raises_in E (w_android env) ->
  desktop_raises_in E (w_desktop env) ->
  rinv (fun _ => True) E
    (if ANDROID env then
       rtry_except
         (rbind (rlift (append_output
            "Starting Android AudioRecord capture (16kHz, mono, 16-bit)."))
            (fun _ => _record_android_pcm (w_android env) fuel path 16000 1))
         (fun e => rlift (append_output
                            ("Android record error: " +:+ exn_str e)))
     else if negb (HAVE_DESKTOP_AUDIO env) then
       rlift (append_output
         "Desktop audio libs not available (sounddevice/soundfile). Cannot record.")
     else
       rtry_except
         (record_desktop (w_desktop env) fuel path 16000 1 2)
         (fun e => rlift (append_output
                            ("Desktop record error: " +:+ exn_str e)))).
Proof.
  intros Ha Hd. destruct (ANDROID env).
  - apply rinv_try_except.
    + apply rinv_bind;
        [apply rinv_lift; [repeat constructor|discriminate]|intros _ _].
      eapply rinv_weaken; [| |apply android_pcm_rinv; exact Ha]; auto.
    + intros e. apply rinv_lift; [repeat constructor|discriminate].
  - destruct (negb (HAVE_DESKTOP_AUDIO env)).
    + apply rinv_lift; [repeat constructor|discriminate].
    + apply rinv_try_except; [apply record_desktop_rinv; exact Hd|].
      intros e. apply rinv_lift; [repeat constructor|discriminate].
Qed.
End Recording.

Lemma worker_body_returns env fuel path s t s' r :
  android_raises_in derives_from_Exception (w_android env) ->
  desktop_raises_in derives_from_Exception (w_desktop env) ->
  (if ANDROID env then
     rtry_except
       (rbind (rlift (append_output
          "Starting Android AudioRecord capture (16kHz, mono, 16-bit)."))
          (fun _ => _record_android_pcm (w_android env) fuel path 16000 1))
       (fun e => rlift (append_output
                          ("Android record error: " +:+ exn_str e)))
   else if negb (HAVE_DESKTOP_AUDIO env) then
     rlift (append_output
       "Desktop audio libs not available (sounddevice/soundfile). Cannot record.")
   else
     rtry_except
       (record_desktop (w_desktop env) fuel path 16000 1 2)
       (fun e => rlift (append_output
                          ("Desktop record error: " +:+ exn_str e)))) s
  = Some (t, s', r) ->
  r = Ok tt.
Proof.
  intros Ha Hd. destruct (ANDROID env).
  - intros H. apply rtry_except_inv in H
      as [([] & _ & ->)|[(e & Hm & -> & Hne)|(t1 & s1 & e & t2 & _ & _ & Hh & _)]].
    + reflexivity.
    + exfalso.
      assert (Hinv : rinv (fun _ => True) derives_from_Exception
                (rbind (rlift (append_output
                   "Starting Android AudioRecord capture (16kHz, mono, 16-bit)."))
                   (fun _ => _record_android_pcm (w_android env) fuel path
                               16000 1))).
      { apply rinv_bind;
          [apply rinv_lift; [repeat constructor|discriminate]|intros _ _].
        eapply rinv_weaken;
          [| |apply (android_pcm_rinv derives_from_Exception (fun e H => H));
               exact Ha]; auto. }
      destruct (Hinv _ _ _ _ Hm) as (_ & _ & He).
      specialize (He e eq_refl). unfold derives_from_Exception in He.
      congruence.
    + cbn in Hh. injection Hh as _ _ <-. reflexivity.
  - destruct (negb (HAVE_DESKTOP_AUDIO env)).
    + intros [= _ _ <-]. reflexivity.
    + intros H. apply rtry_except_inv in H
        as [([] & _ & ->)|[(e & Hm & -> & Hne)|(t1 & s1 & e & t2 & _ & _ & Hh & _)]].
      * reflexivity.
      * exfalso.
        destruct (record_desktop_rinv derives_from_Exception
                    (fun e H => H) (w_desktop env) fuel path 16000 1 2 Hd
                    _ _ _ _ Hm) as (_ & _ & He).
        specialize (He e eq_refl). unfold derives_from_Exception in He.
        congruence.
      * cbn in Hh. injection Hh as _ _ <-. reflexivity.
Qed.

Lemma record_worker_frame env fuel s t s' r :
  _record_worker env fuel s = Some (t, s', r) ->
  same_ui (rs_self s) (rs_self s')
  /\ (forall e, mkstemp env = Raise e -> r = Raise e /\ s' = s)
  /\ (forall path,
        mkstemp env = Ok path -> os_close env = Ok tt ->
        wav_path (rs_self s') = Some path
        /\ (android_raises_in derives_from_Exception (w_android env) ->
            desktop_raises_in derives_from_Exception (w_desktop env) ->
            r = Ok tt)).
Proof.
  unfold _record_worker. intros H.
  apply rbind_call_inv in H
    as [(path & tm & Hmk & H & ->)|(e0 & Hmk & -> & -> & ->)].
  2:{ split; [repeat split|]. split.
      - intros e He. rewrite Hmk in He. injection He as <-. auto.
      - intros path Hp. congruence. }
  apply rbind_call_inv in H
    as [([] & tc & Hcl & H & ->)|(e0 & Hcl & -> & -> & ->)].
  2:{ split; [repeat split|]. split.
      - intros e He. congruence.
      - intros p _ Hc. congruence. }
  apply rbind_inv in H as [(t1 & s1 & [] & t2 & Hset & H & ->)|(e & Hset & _)];
    [|discriminate].
  unfold set_wav_path in Hset. injection Hset as <- <-.
  destruct (worker_body_rinv (fun _ => True) (fun _ _ => I) env fuel path
              (fun _ _ => I) (fun _ _ => I)
              _ _ _ _ H) as ((Hui & Hpath) & _ & _).
  cbn [rs_self wav_path] in Hpath.
  split; [exact Hui|]. split.
  - intros e He. congruence.
  - intros p Hp _. assert (p = path) as -> by congruence.
    split; [exact Hpath|].
    intros Ha Hd. eapply worker_body_returns; eassumption.
Qed.

(** X12: the recording thread writes [wav_path] (and, on Android, the
    buffer size) and nothing else of the widget: the recording flag, the
    button, the output box and the API key are as the UI thread left
    them.  If the temporary file cannot be created the thread ends with
    that exception and the widget, stored path included, is unchanged.
    Once it is created, its path is stored whatever happens next, and
    when the audio collaborators raise nothing outside [Exception] the
    thread returns normally: a failure of the recording becomes a line
    of text, not an exception. *)
Theorem X12_recording_thread_frame_and_errors (env : worker_env)
    (fuel : nat) (s : rec_state) (t : list event) (s' : rec_state)
    (r : outcome unit) :
  _record_worker env fuel s = Some (t, s', r) ->
  same_ui (rs_self s) (rs_self s')
  /\ (forall e, mkstemp env = Raise e -> r = Raise e /\ s' = s)
  /\ (forall path,
        mkstemp env = Ok path -> os_close env = Ok tt ->
        wav_path (rs_self s') = Some path
        /\ (android_raises_in derives_from_Exception (w_android env) ->
            desktop_raises_in derives_from_Exception (w_desktop env) ->
            r = Ok tt)).
Proof. apply record_worker_frame. Qed.

Lemma X12_recording_thread_frame_and_errors_witness :
  exists s',
    same_ui (init_widget btn0) (rs_self s')
    /\ wav_path (rs_self s') = Some "/tmp/rec_1.wav".
Proof.
  assert (E : exists t s' r,
    _record_worker (worker_on true 2 two_blocks []) 5
      (rec_init (init_widget btn0)) = Some (t, s', r)).
  { eexists. eexists. eexists. lazy. reflexivity. }
  destruct E as (t & s' & r & E).
  destruct (X12_recording_thread_frame_and_errors _ _ _ _ _ _ E)
    as (Hui & _ & Hp).
  exists s'. split; [exact Hui|].
  apply (Hp "/tmp/rec_1.wav"); reflexivity.
Defined.

(** X13: the sizes a run of the Android routine asks for all follow
    from the minimum buffer size the platform reports: the recorder is
    created with that size, or with [2 * sample_rate] when the platform
    reports zero or an error code; the Java array and every read ask for
    half of it, rounded down.  The size is positive whenever the sample
    rate is. *)
Theorem X13_android_buffer_sizes (env : android_env) (fuel : nat)
    (path : string) (sample_rate channels min_buf : Z) (s : rec_state)
    (t : list event) (s' : rec_state) (r : outcome unit) :
  getMinBufferSize env = Ok min_buf ->
  _record_android_pcm env fuel path sample_rate channels s = Some (t, s', r) ->
  Forall (sized_by (chosen_buffer_size sample_rate min_buf)) t
  /\ (min_buf <= 0 -> chosen_buffer_size sample_rate min_buf = 2 * sample_rate)
  /\ (0 < min_buf -> chosen_buffer_size sample_rate min_buf = min_buf)
  /\ (0 < sample_rate -> 0 < chosen_buffer_size sample_rate min_buf).
Proof.
  intros Hmin Hrun.
  destruct (android_pcm_rinv (fun _ => True) (fun _ _ => I) env fuel path
              sample_rate channels (fun _ _ => I)
              _ _ _ _ Hrun) as (_ & Ht & _).
  split.
  - eapply List.Forall_impl; [|exact Ht]. intros ev Hev. apply Hev. exact Hmin.
  - unfold chosen_buffer_size.
    destruct (Z.leb_spec min_buf 0); repeat split; lia.
Qed.

Lemma X13_android_buffer_sizes_witness :
  exists t,
    Forall (sized_by 32000) t /\ In (EArRead 16000) t.
Proof.
  assert (E : exists t s' r,
    _record_android_pcm no_min_buffer 5 "/tmp/rec_1.wav" 16000 1
      (rec_init (init_widget btn0)) = Some (t, s', r)
    /\ In (EArRead 16000) t).
  { eexists. eexists. eexists. split; [lazy; reflexivity|].
    do 16 right. left. reflexivity. }
  destruct E as (t & s' & r & E & Hin).
  destruct (X13_android_buffer_sizes no_min_buffer 5 "/tmp/rec_1.wav"
              16000 1 (-2) (rec_init (init_widget btn0)) t s' r eq_refl E)
    as (H & _).
  exists t. split; [exact H|exact Hin].
Defined.

(** X14: on Android, when the recorder does not report the initialised
    state, nothing is recorded: the routine raises before it opens a WAV
    file or starts the recorder, the worker shows "Android record
    error: AudioRecord initialization failed (state != INITIALIZED)" and
    returns.  The path of the empty temporary file is stored all the
    same. *)
Theorem X14_uninitialised_recorder (env : worker_env) (fuel : nat)
    (s : rec_state) (path : string) (min_buf state : Z) :
  ANDROID env = true ->
  mkstemp env = Ok path -> os_close env = Ok tt ->
  (forall c, autoclass (w_android env) c = Ok tt) ->
  getMinBufferSize (w_android env) = Ok min_buf ->
  new_AudioRecord (w_android env) = Ok tt ->
  getState (w_android env) = Ok state ->
  state <> STATE_INITIALIZED ->
  _record_worker env fuel s
  = Some (init_failure_trace path min_buf,
          {| rs_self := with_path_and_buffer (rs_self s) path
                          (chosen_buffer_size 16000 min_buf);
             rs_wf := rs_wf s |},
          Ok tt).
Proof.
  intros Hand Hmk Hcl Hauto Hmin Hnew Hst Hne.
  unfold _record_worker, _record_android_pcm, rbind, rlift, call,
    rtry_except, append_output, set_wav_path, set_buffer_size, rraise.
  rewrite Hand, Hmk, Hcl. cbn.
  rewrite !Hauto, Hmin, Hnew, Hst. cbn.
  destruct (Z.eqb_spec state STATE_INITIALIZED) as [->|_]; [contradiction|].
  reflexivity.
Qed.

Lemma X14_uninitialised_recorder_witness :
  _record_worker worker_uninitialised 5 (rec_init (init_widget btn0))
  = Some (init_failure_trace "/tmp/rec_1.wav" (-2),
          {| rs_self := with_path_and_buffer (init_widget btn0)
                          "/tmp/rec_1.wav" 32000;
             rs_wf := None |},
          Ok tt).
Proof.
  apply (X14_uninitialised_recorder worker_uninitialised 5
           (rec_init (init_widget btn0)) "/tmp/rec_1.wav" (-2) 0);
    try reflexivity.
  discriminate.
Defined.

(** ** The desktop callback *)





(** ** From the recording to the upload *)

Lemma touches_of_post_ok self path ev :
  wav_path self = Some path -> post_event_ok self ev -> touches_only path ev.
Proof.
  intros Hp. destruct ev; cbn; auto.
  - intros (p & Hq & ->). congruence.
  - congruence.
Qed.

Lemma In_bind_l {A B} (m : M A) (f : A -> M B) ev :
  In ev (trace_of m) -> In ev (trace_of (bind m f)).
Proof.
  destruct m as [t [a|e]]; cbn; [|auto].
  destruct (f a) as [t' r]. cbn. intros H. apply in_or_app. auto.
Qed.

Lemma In_bind_r {A B} (m : M A) (f : A -> M B) a ev :
  result_of m = Ok a -> In ev (trace_of (f a)) -> In ev (trace_of (bind m f)).
Proof.
  destruct m as [t r]. cbn. intros ->. destruct (f a) as [t' r'].
  cbn. intros H. apply in_or_app. auto.
Qed.

(** When the file is there and the client and the job can be created,
    the post-processing uploads the path stored in [self.wav_path]. *)
Lemma post_uploads_wav_path env self path :
  wav_path self = Some path ->
  PyStr.truthy path = true -> path_exists env path = true ->
  import_sarvamai (post_cloud env) = Ok tt ->
  new_client (post_cloud env) = Ok tt ->
  create_job (post_cloud env) = Ok tt ->
  In (EUploadFiles [path]) (trace_of (_post_process_and_translate env self)).
Proof.
  intros Hp Htr Hex Himp Hnc Hcj.
  unfold _post_process_and_translate. rewrite Hp, Htr. cbn [negb].
  apply (In_bind_r _ _ tt); [reflexivity|].
  apply (In_bind_r _ _ true); [cbn; congruence|]. cbn [negb].
  apply (In_bind_r _ _ tt); [reflexivity|].
  apply In_bind_l. rewrite wrapper_trace, Himp. cbn [is_ok]. right.
  unfold sarvam_flow.
  apply (In_bind_r _ _ tt); [exact Hnc|].
  apply (In_bind_r _ _ tt); [exact Hcj|].
  apply In_bind_l. left. reflexivity.
Qed.

(** X16: the temporary path that [tempfile.mkstemp] returned to
    [_record_worker] is the one [_post_process_and_translate] works on
    when it runs on the widget as the recording thread left it: every
    [os.path.exists] test and every [upload_files] call names that path
    and no other, the [Wave_write] object the thread opened (if any) was
    opened on it, and when the path is non-empty, the file exists, and the
    import, the client and the job succeed, [upload_files] is called with
    exactly that path. *)
Theorem X16_the_recorded_file_is_uploaded (wenv : worker_env) (fuel : nat)
    (s : rec_state) (t : list event) (s' : rec_state) (r : outcome unit)
    (penv : post_env) (path : string) :
  _record_worker wenv fuel s = Some (t, s', r) ->
  mkstemp wenv = Ok path -> os_close wenv = Ok tt ->
  Forall (touches_only path)
    (trace_of (_post_process_and_translate penv (rs_self s')))
  /\ (forall w, rs_wf s = None -> rs_wf s' = Some w -> wf_path w = path)
  /\ (PyStr.truthy path = true -> path_exists penv path = true ->
      import_sarvamai (post_cloud penv) = Ok tt ->
      new_client (post_cloud penv) = Ok tt ->
      create_job (post_cloud penv) = Ok tt ->
      In (EUploadFiles [path])
         (trace_of (_post_process_and_translate penv (rs_self s')))).
Proof.
  intros Hrun Hmk Hcl.
  destruct (record_worker_frame _ _ _ _ _ _ Hrun) as (_ & _ & Hpath).
  destruct (Hpath path Hmk Hcl) as [Hp _].
  split; [|split].
  - eapply List.Forall_impl; [|apply post_trace_events].
    intros ev. apply touches_of_post_ok. exact Hp.
  - intros w H0 Hw.
    destruct (record_worker_spec _ _ _ _ _ _ Hrun H0)
      as [Hn|(w' & p' & smp & Hw' & Hmk' & _ & Hcfg & _)]; [congruence|].
    destruct Hcfg as [Hwp _]. congruence.
  - intros. apply post_uploads_wav_path; assumption.
Qed.

Lemma X16_the_recorded_file_is_uploaded_witness :
  In (EUploadFiles ["/tmp/rec_1.wav"])
     (trace_of
        (_post_process_and_translate file_there
           (rs_self
              (match _record_worker worker_uninitialised 5
                       (rec_init (init_widget btn0)) with
               | Some (_, s', _) => s'
               | None => rec_init (init_widget btn0)
               end)))).
Proof.
  assert (E : exists t s' r,
             _record_worker worker_uninitialised 5
               (rec_init (init_widget btn0)) = Some (t, s', r))
    by (eexists; eexists; eexists; lazy; reflexivity).
  destruct E as (t & s' & r & E).
  destruct (X16_the_recorded_file_is_uploaded worker_uninitialised 5
              (rec_init (init_widget btn0)) t s' r file_there
              "/tmp/rec_1.wav" E eq_refl eq_refl) as (_ & _ & H).
  rewrite E. apply H; reflexivity.
Defined.

(** ** A file that stays open *)

Ltac not_in H :=
  cbn in H; repeat (destruct H as [H|H]; [discriminate H|]); exact H.

(** X17: in [_record_android_pcm] the WAV file is opened before the
    [try] statement whose [finally] block closes it.  So when the file
    was opened and then the Java buffer cannot be created or
    [startRecording] raises, the routine ends with that exception
    without calling [wf.close()], [ar.stop()], [ar.release()] or
    [ar.read]: when the routine ends the [Wave_write] object is still
    open, configured, with no frame written. *)
Theorem X17_file_left_open_when_start_fails (env : android_env)
    (fuel : nat) (path : string) (s : rec_state) (t : list event)
    (s' : rec_state) (r : outcome unit) :
  rs_wf s = None ->
  _record_android_pcm env fuel path 16000 1 s = Some (t, s', r) ->
  In (EWaveOpen path) t -> a_wave_open env = Ok tt ->
  (exists e, jarray env = Raise e)
  \/ (exists e, startRecording env = Raise e) ->
  (exists e, r = Raise e
             /\ (jarray env = Raise e \/ startRecording env = Raise e))
  /\ ~ In EWaveClose t /\ ~ In EArStop t /\ ~ In EArRelease t
  /\ (forall c, ~ In (EArRead c) t)
  /\ exists w,
       rs_wf s' = Some w /\ closed w = false /\ frames_written w = []
       /\ configured path w.
Proof.
  unfold _record_android_pcm. intros H0 H Hin Hopen Hfail.
  do 7 (call_inv H; [|exfalso; not_in Hin]).
  apply rbind_inv in H as [(t1 & s1 & [] & t2 & Hset & H & ->)|(e & Hset & _)];
    [|discriminate].
  unfold set_buffer_size in Hset. injection Hset as <- <-.
  call_inv H; [|exfalso; not_in Hin].
  call_inv H; [|exfalso; not_in Hin].
  destruct (negb _).
  { injection H as <- <- <-. exfalso. not_in Hin. }
  apply rbind_inv in H as [(t1 & s1 & [] & t2 & Hop & H & ->)|(e & Hop & ->)];
    unfold wf_open in Hop; rewrite Hopen in Hop; [|discriminate].
  injection Hop as <- <-.
  apply rbind_inv in H as [(t1 & s1 & [] & t3 & Hc & H & ->)|(e & Hc & _)];
    cbn in Hc; [|discriminate]. injection Hc as <- <-.
  apply rbind_inv in H as [(t1 & s1 & [] & t4 & Hc & H & ->)|(e & Hc & _)];
    cbn in Hc; [|discriminate]. injection Hc as <- <-.
  apply rbind_inv in H as [(t1 & s1 & [] & t5 & Hc & H & ->)|(e & Hc & _)];
    cbn in Hc; [|discriminate]. injection Hc as <- <-.
  clear Hin.
  call_inv H.
  2:{ split; [eexists; split; [reflexivity|left; assumption]|].
      repeat split;
        try (intros Hn; not_in Hn); try (intros c Hn; not_in Hn).
      eexists. split; [reflexivity|]. repeat split. }
  call_inv H.
  2:{ split; [eexists; split; [reflexivity|right; assumption]|].
      repeat split;
        try (intros Hn; not_in Hn); try (intros c Hn; not_in Hn).
      eexists. split; [reflexivity|]. repeat split. }
  exfalso. destruct Hfail as [[e He]|[e He]]; congruence.
Qed.

Lemma X17_file_left_open_when_start_fails_witness :
  exists w,
    rs_wf (match _record_android_pcm start_fails 5 "/tmp/rec_1.wav" 16000 1
                   (rec_init (init_widget btn0)) with
           | Some (_, s', _) => s'
           | None => rec_init (init_widget btn0)
           end) = Some w
    /\ closed w = false.
Proof.
  assert (E : exists t s' r,
             _record_android_pcm start_fails 5 "/tmp/rec_1.wav" 16000 1
               (rec_init (init_widget btn0)) = Some (t, s', r)
             /\ In (EWaveOpen "/tmp/rec_1.wav") t).
  { eexists. eexists. eexists. split; [lazy; reflexivity|].
    do 9 right. left. reflexivity. }
  destruct E as (t & s' & r & E & Hin).
  destruct (X17_file_left_open_when_start_fails start_fails 5
              "/tmp/rec_1.wav" (rec_init (init_widget btn0)) t s' r
              eq_refl E Hin eq_refl
              (or_intror (ex_intro _ IllegalStateException eq_refl)))
    as (_ & _ & _ & _ & _ & w & Hw & Hcl & _).
  exists w. rewrite E. split; [exact Hw|exact Hcl].
Defined.
